(** * Smart Personal Carbon Footprint Tracker: backend calculation modules

    A shallow embedding of [backend/carbon_engine.py], [backend/gamification.py],
    [backend/recommendation_engine.py] and the handler of [backend/demo_api.py],
    with the properties of the specification stated and proved over it.

    Python [float] is IEEE 754 binary64: it is modelled by Rocq's primitive
    [float], whose operations are specified by [SpecFloat] through the
    standard library's [FloatAxioms].  Python [int] is [Z], [str] is the
    [string] of its UTF-8 encoding (case mapping follows the Unicode tables),
    a [dict] used only for look-ups is a [gmap], a [dict] that is iterated is
    an association list in insertion order. *)

From Stdlib Require Import ZArith String Ascii List Sorted Floats Lia Bool.
From Stdlib Require Uint63.
From stdpp Require Import base option gmap strings pretty.

Set Warnings "-inexact-float,-register-all".
Local Open Scope Z_scope.

(* ===================================================================== *)
(** * Unicode case mapping *)
(* ===================================================================== *)

(** A Python [str] is a sequence of code points; a [string] holds its UTF-8
    encoding.  [str.lower] and [str.capitalize] map code points with the
    tables of the Unicode character database (here those of Unicode 14.0,
    the version of CPython 3.11): the full lower-case mapping of each code
    point, the Final_Sigma rule for the capital sigma, and the full
    title-case mapping of the first code point for [capitalize]. *)

Module Unicode.

(** ** UTF-8 *)

Definition byte (c : ascii) : Z := Z.of_N (N_of_ascii c).
Definition char (n : Z) : ascii := ascii_of_N (Z.to_N n).

(** A byte that is not part of a well-formed sequence stands for no code
    point; it is kept as an item above the code space and encoded back
    unchanged. *)
Definition stray : Z := 1114112.

Definition continuation (n : Z) : bool := (128 <=? n) && (n <=? 191).

Fixpoint decode (s : string) : list Z :=
  match s with
  | EmptyString => []
  | String c0 s1 =>
      let b0 := byte c0 in
      if b0 <? 128 then b0 :: decode s1
      else
        match s1 with
        | String c1 s2 =>
            let b1 := byte c1 in
            if (194 <=? b0) && (b0 <=? 223) && continuation b1
            then ((b0 - 192) * 64 + (b1 - 128)) :: decode s2
            else
              match s2 with
              | String c2 s3 =>
                  let b2 := byte c2 in
                  let p3 := (b0 - 224) * 4096 + (b1 - 128) * 64 + (b2 - 128) in
                  if (224 <=? b0) && (b0 <=? 239) && continuation b1 && continuation b2
                     && (2048 <=? p3)
                  then p3 :: decode s3
                  else
                    match s3 with
                    | String c3 s4 =>
                        let b3 := byte c3 in
                        let p4 := (b0 - 240) * 262144 + (b1 - 128) * 4096
                                  + (b2 - 128) * 64 + (b3 - 128) in
                        if (240 <=? b0) && (b0 <=? 244) && continuation b1
                           && continuation b2 && continuation b3
                           && (65536 <=? p4) && (p4 <? stray)
                        then p4 :: decode s4
                        else (stray + b0) :: decode s1
                    | EmptyString => (stray + b0) :: decode s1
                    end
              | EmptyString => (stray + b0) :: decode s1
              end
        | EmptyString => [stray + b0]
        end
  end.

Definition encode_point (p : Z) : string :=
  if p <? 128 then String (char p) EmptyString
  else if p <? 2048 then
    String (char (192 + p / 64)) (String (char (128 + p mod 64)) EmptyString)
  else if p <? 65536 then
    String (char (224 + p / 4096))
      (String (char (128 + (p / 64) mod 64)) (String (char (128 + p mod 64)) EmptyString))
  else if p <? stray then
    String (char (240 + p / 262144))
      (String (char (128 + (p / 4096) mod 64))
         (String (char (128 + (p / 64) mod 64))
            (String (char (128 + p mod 64)) EmptyString)))
  else String (char (p - stray)) EmptyString.

Fixpoint encode (ps : list Z) : string :=
  match ps with
  | [] => EmptyString
  | p :: rest => (encode_point p ++ encode rest)%string
  end.

(** ** The tables

    An entry [(first, last, step, delta)] of a mapping table says that the
    code points [first], [first + step], ..., [last] map to themselves plus
    [delta]; every other code point maps to itself.  A property table lists
    ranges [(first, last)].  The tables are sorted. *)

Definition lower_table : list (Z * Z * Z * Z) :=
  [ (65, 90, 1, 32); (192, 214, 1, 32); (216, 222, 1, 32); (256, 302, 2, 1);
    (306, 310, 2, 1); (313, 327, 2, 1); (330, 374, 2, 1); (376, 376, 1, -121);
    (377, 381, 2, 1); (385, 385, 1, 210); (386, 388, 2, 1); (390, 390, 1, 206);
    (391, 391, 1, 1); (393, 394, 1, 205); (395, 395, 1, 1); (398, 398, 1, 79);
    (399, 399, 1, 202); (400, 400, 1, 203); (401, 401, 1, 1); (403, 403, 1, 205);
    (404, 404, 1, 207); (406, 406, 1, 211); (407, 407, 1, 209); (408, 408, 1, 1);
    (412, 412, 1, 211); (413, 413, 1, 213); (415, 415, 1, 214); (416, 420, 2, 1);
    (422, 422, 1, 218); (423, 423, 1, 1); (425, 425, 1, 218); (428, 428, 1, 1);
    (430, 430, 1, 218); (431, 431, 1, 1); (433, 434, 1, 217); (435, 437, 2, 1);
    (439, 439, 1, 219); (440, 440, 1, 1); (444, 444, 1, 1); (452, 452, 1, 2);
    (453, 453, 1, 1); (455, 455, 1, 2); (456, 456, 1, 1); (458, 458, 1, 2);
    (459, 475, 2, 1); (478, 494, 2, 1); (497, 497, 1, 2); (498, 500, 2, 1);
    (502, 502, 1, -97); (503, 503, 1, -56); (504, 542, 2, 1); (544, 544, 1, -130);
    (546, 562, 2, 1); (570, 570, 1, 10795); (571, 571, 1, 1); (573, 573, 1, -163);
    (574, 574, 1, 10792); (577, 577, 1, 1); (579, 579, 1, -195); (580, 580, 1, 69);
    (581, 581, 1, 71); (582, 590, 2, 1); (880, 882, 2, 1); (886, 886, 1, 1);
    (895, 895, 1, 116); (902, 902, 1, 38); (904, 906, 1, 37); (908, 908, 1, 64);
    (910, 911, 1, 63); (913, 929, 1, 32); (931, 939, 1, 32); (975, 975, 1, 8);
    (984, 1006, 2, 1); (1012, 1012, 1, -60); (1015, 1015, 1, 1); (1017, 1017, 1, -7);
    (1018, 1018, 1, 1); (1021, 1023, 1, -130); (1024, 1039, 1, 80);
    (1040, 1071, 1, 32); (1120, 1152, 2, 1); (1162, 1214, 2, 1); (1216, 1216, 1, 15);
    (1217, 1229, 2, 1); (1232, 1326, 2, 1); (1329, 1366, 1, 48); (4256, 4293, 1, 7264);
    (4295, 4295, 1, 7264); (4301, 4301, 1, 7264); (5024, 5103, 1, 38864);
    (5104, 5109, 1, 8); (7312, 7354, 1, -3008); (7357, 7359, 1, -3008);
    (7680, 7828, 2, 1); (7838, 7838, 1, -7615); (7840, 7934, 2, 1);
    (7944, 7951, 1, -8); (7960, 7965, 1, -8); (7976, 7983, 1, -8); (7992, 7999, 1, -8);
    (8008, 8013, 1, -8); (8025, 8031, 2, -8); (8040, 8047, 1, -8); (8072, 8079, 1, -8);
    (8088, 8095, 1, -8); (8104, 8111, 1, -8); (8120, 8121, 1, -8);
    (8122, 8123, 1, -74); (8124, 8124, 1, -9); (8136, 8139, 1, -86);
    (8140, 8140, 1, -9); (8152, 8153, 1, -8); (8154, 8155, 1, -100);
    (8168, 8169, 1, -8); (8170, 8171, 1, -112); (8172, 8172, 1, -7);
    (8184, 8185, 1, -128); (8186, 8187, 1, -126); (8188, 8188, 1, -9);
    (8486, 8486, 1, -7517); (8490, 8490, 1, -8383); (8491, 8491, 1, -8262);
    (8498, 8498, 1, 28); (8544, 8559, 1, 16); (8579, 8579, 1, 1); (9398, 9423, 1, 26);
    (11264, 11311, 1, 48); (11360, 11360, 1, 1); (11362, 11362, 1, -10743);
    (11363, 11363, 1, -3814); (11364, 11364, 1, -10727); (11367, 11371, 2, 1);
    (11373, 11373, 1, -10780); (11374, 11374, 1, -10749); (11375, 11375, 1, -10783);
    (11376, 11376, 1, -10782); (11378, 11378, 1, 1); (11381, 11381, 1, 1);
    (11390, 11391, 1, -10815); (11392, 11490, 2, 1); (11499, 11501, 2, 1);
    (11506, 11506, 1, 1); (42560, 42604, 2, 1); (42624, 42650, 2, 1);
    (42786, 42798, 2, 1); (42802, 42862, 2, 1); (42873, 42875, 2, 1);
    (42877, 42877, 1, -35332); (42878, 42886, 2, 1); (42891, 42891, 1, 1);
    (42893, 42893, 1, -42280); (42896, 42898, 2, 1); (42902, 42920, 2, 1);
    (42922, 42922, 1, -42308); (42923, 42923, 1, -42319); (42924, 42924, 1, -42315);
    (42925, 42925, 1, -42305); (42926, 42926, 1, -42308); (42928, 42928, 1, -42258);
    (42929, 42929, 1, -42282); (42930, 42930, 1, -42261); (42931, 42931, 1, 928);
    (42932, 42946, 2, 1); (42948, 42948, 1, -48); (42949, 42949, 1, -42307);
    (42950, 42950, 1, -35384); (42951, 42953, 2, 1); (42960, 42960, 1, 1);
    (42966, 42968, 2, 1); (42997, 42997, 1, 1); (65313, 65338, 1, 32);
    (66560, 66599, 1, 40); (66736, 66771, 1, 40); (66928, 66938, 1, 39);
    (66940, 66954, 1, 39); (66956, 66962, 1, 39); (66964, 66965, 1, 39);
    (68736, 68786, 1, 64); (71840, 71871, 1, 32); (93760, 93791, 1, 32);
    (125184, 125217, 1, 34) ].

Definition title_table : list (Z * Z * Z * Z) :=
  [ (97, 122, 1, -32); (181, 181, 1, 743); (224, 246, 1, -32); (248, 254, 1, -32);
    (255, 255, 1, 121); (257, 303, 2, -1); (305, 305, 1, -232); (307, 311, 2, -1);
    (314, 328, 2, -1); (331, 375, 2, -1); (378, 382, 2, -1); (383, 383, 1, -300);
    (384, 384, 1, 195); (387, 389, 2, -1); (392, 392, 1, -1); (396, 396, 1, -1);
    (402, 402, 1, -1); (405, 405, 1, 97); (409, 409, 1, -1); (410, 410, 1, 163);
    (414, 414, 1, 130); (417, 421, 2, -1); (424, 424, 1, -1); (429, 429, 1, -1);
    (432, 432, 1, -1); (436, 438, 2, -1); (441, 441, 1, -1); (445, 445, 1, -1);
    (447, 447, 1, 56); (452, 452, 1, 1); (454, 454, 1, -1); (455, 455, 1, 1);
    (457, 457, 1, -1); (458, 458, 1, 1); (460, 476, 2, -1); (477, 477, 1, -79);
    (479, 495, 2, -1); (497, 497, 1, 1); (499, 501, 2, -1); (505, 543, 2, -1);
    (547, 563, 2, -1); (572, 572, 1, -1); (575, 576, 1, 10815); (578, 578, 1, -1);
    (583, 591, 2, -1); (592, 592, 1, 10783); (593, 593, 1, 10780);
    (594, 594, 1, 10782); (595, 595, 1, -210); (596, 596, 1, -206);
    (598, 599, 1, -205); (601, 601, 1, -202); (603, 603, 1, -203);
    (604, 604, 1, 42319); (608, 608, 1, -205); (609, 609, 1, 42315);
    (611, 611, 1, -207); (613, 613, 1, 42280); (614, 614, 1, 42308);
    (616, 616, 1, -209); (617, 617, 1, -211); (618, 618, 1, 42308);
    (619, 619, 1, 10743); (620, 620, 1, 42305); (623, 623, 1, -211);
    (625, 625, 1, 10749); (626, 626, 1, -213); (629, 629, 1, -214);
    (637, 637, 1, 10727); (640, 640, 1, -218); (642, 642, 1, 42307);
    (643, 643, 1, -218); (647, 647, 1, 42282); (648, 648, 1, -218); (649, 649, 1, -69);
    (650, 651, 1, -217); (652, 652, 1, -71); (658, 658, 1, -219); (669, 669, 1, 42261);
    (670, 670, 1, 42258); (837, 837, 1, 84); (881, 883, 2, -1); (887, 887, 1, -1);
    (891, 893, 1, 130); (940, 940, 1, -38); (941, 943, 1, -37); (945, 961, 1, -32);
    (962, 962, 1, -31); (963, 971, 1, -32); (972, 972, 1, -64); (973, 974, 1, -63);
    (976, 976, 1, -62); (977, 977, 1, -57); (981, 981, 1, -47); (982, 982, 1, -54);
    (983, 983, 1, -8); (985, 1007, 2, -1); (1008, 1008, 1, -86); (1009, 1009, 1, -80);
    (1010, 1010, 1, 7); (1011, 1011, 1, -116); (1013, 1013, 1, -96);
    (1016, 1016, 1, -1); (1019, 1019, 1, -1); (1072, 1103, 1, -32);
    (1104, 1119, 1, -80); (1121, 1153, 2, -1); (1163, 1215, 2, -1);
    (1218, 1230, 2, -1); (1231, 1231, 1, -15); (1233, 1327, 2, -1);
    (1377, 1414, 1, -48); (5112, 5117, 1, -8); (7296, 7296, 1, -6254);
    (7297, 7297, 1, -6253); (7298, 7298, 1, -6244); (7299, 7300, 1, -6242);
    (7301, 7301, 1, -6243); (7302, 7302, 1, -6236); (7303, 7303, 1, -6181);
    (7304, 7304, 1, 35266); (7545, 7545, 1, 35332); (7549, 7549, 1, 3814);
    (7566, 7566, 1, 35384); (7681, 7829, 2, -1); (7835, 7835, 1, -59);
    (7841, 7935, 2, -1); (7936, 7943, 1, 8); (7952, 7957, 1, 8); (7968, 7975, 1, 8);
    (7984, 7991, 1, 8); (8000, 8005, 1, 8); (8017, 8023, 2, 8); (8032, 8039, 1, 8);
    (8048, 8049, 1, 74); (8050, 8053, 1, 86); (8054, 8055, 1, 100);
    (8056, 8057, 1, 128); (8058, 8059, 1, 112); (8060, 8061, 1, 126);
    (8064, 8071, 1, 8); (8080, 8087, 1, 8); (8096, 8103, 1, 8); (8112, 8113, 1, 8);
    (8115, 8115, 1, 9); (8126, 8126, 1, -7205); (8131, 8131, 1, 9); (8144, 8145, 1, 8);
    (8160, 8161, 1, 8); (8165, 8165, 1, 7); (8179, 8179, 1, 9); (8526, 8526, 1, -28);
    (8560, 8575, 1, -16); (8580, 8580, 1, -1); (9424, 9449, 1, -26);
    (11312, 11359, 1, -48); (11361, 11361, 1, -1); (11365, 11365, 1, -10795);
    (11366, 11366, 1, -10792); (11368, 11372, 2, -1); (11379, 11379, 1, -1);
    (11382, 11382, 1, -1); (11393, 11491, 2, -1); (11500, 11502, 2, -1);
    (11507, 11507, 1, -1); (11520, 11557, 1, -7264); (11559, 11559, 1, -7264);
    (11565, 11565, 1, -7264); (42561, 42605, 2, -1); (42625, 42651, 2, -1);
    (42787, 42799, 2, -1); (42803, 42863, 2, -1); (42874, 42876, 2, -1);
    (42879, 42887, 2, -1); (42892, 42892, 1, -1); (42897, 42899, 2, -1);
    (42900, 42900, 1, 48); (42903, 42921, 2, -1); (42933, 42947, 2, -1);
    (42952, 42954, 2, -1); (42961, 42961, 1, -1); (42967, 42969, 2, -1);
    (42998, 42998, 1, -1); (43859, 43859, 1, -928); (43888, 43967, 1, -38864);
    (65345, 65370, 1, -32); (66600, 66639, 1, -40); (66776, 66811, 1, -40);
    (66967, 66977, 1, -39); (66979, 66993, 1, -39); (66995, 67001, 1, -39);
    (67003, 67004, 1, -39); (68800, 68850, 1, -64); (71872, 71903, 1, -32);
    (93792, 93823, 1, -32); (125218, 125251, 1, -34) ].

(** The code points whose title case is more than one code point. *)
Definition title_special : list (Z * list Z) :=
  [ (223, [83; 115]); (329, [700; 78]); (496, [74; 780]); (912, [921; 776; 769]);
    (944, [933; 776; 769]); (1415, [1333; 1410]); (7830, [72; 817]); (7831, [84; 776]);
    (7832, [87; 778]); (7833, [89; 778]); (7834, [65; 702]); (8016, [933; 787]);
    (8018, [933; 787; 768]); (8020, [933; 787; 769]); (8022, [933; 787; 834]);
    (8114, [8122; 837]); (8116, [902; 837]); (8118, [913; 834]);
    (8119, [913; 834; 837]); (8130, [8138; 837]); (8132, [905; 837]);
    (8134, [919; 834]); (8135, [919; 834; 837]); (8146, [921; 776; 768]);
    (8147, [921; 776; 769]); (8150, [921; 834]); (8151, [921; 776; 834]);
    (8162, [933; 776; 768]); (8163, [933; 776; 769]); (8164, [929; 787]);
    (8166, [933; 834]); (8167, [933; 776; 834]); (8178, [8186; 837]);
    (8180, [911; 837]); (8182, [937; 834]); (8183, [937; 834; 837]);
    (64256, [70; 102]); (64257, [70; 105]); (64258, [70; 108]);
    (64259, [70; 102; 105]); (64260, [70; 102; 108]); (64261, [83; 116]);
    (64262, [83; 116]); (64275, [1348; 1398]); (64276, [1348; 1381]);
    (64277, [1348; 1387]); (64278, [1358; 1398]); (64279, [1348; 1389]) ].

(** The property Case_Ignorable. *)
Definition case_ignorable_table : list (Z * Z) :=
  [ (39, 39); (46, 46); (58, 58); (94, 94); (96, 96); (168, 168); (173, 173);
    (175, 175); (180, 180); (183, 184); (688, 879); (884, 885); (890, 890); (900, 901);
    (903, 903); (1155, 1161); (1369, 1369); (1375, 1375); (1425, 1469); (1471, 1471);
    (1473, 1474); (1476, 1477); (1479, 1479); (1524, 1524); (1536, 1541); (1552, 1562);
    (1564, 1564); (1600, 1600); (1611, 1631); (1648, 1648); (1750, 1757); (1759, 1768);
    (1770, 1773); (1807, 1807); (1809, 1809); (1840, 1866); (1958, 1968); (2027, 2037);
    (2042, 2042); (2045, 2045); (2070, 2093); (2137, 2139); (2184, 2184); (2192, 2193);
    (2200, 2207); (2249, 2306); (2362, 2362); (2364, 2364); (2369, 2376); (2381, 2381);
    (2385, 2391); (2402, 2403); (2417, 2417); (2433, 2433); (2492, 2492); (2497, 2500);
    (2509, 2509); (2530, 2531); (2558, 2558); (2561, 2562); (2620, 2620); (2625, 2626);
    (2631, 2632); (2635, 2637); (2641, 2641); (2672, 2673); (2677, 2677); (2689, 2690);
    (2748, 2748); (2753, 2757); (2759, 2760); (2765, 2765); (2786, 2787); (2810, 2815);
    (2817, 2817); (2876, 2876); (2879, 2879); (2881, 2884); (2893, 2893); (2901, 2902);
    (2914, 2915); (2946, 2946); (3008, 3008); (3021, 3021); (3072, 3072); (3076, 3076);
    (3132, 3132); (3134, 3136); (3142, 3144); (3146, 3149); (3157, 3158); (3170, 3171);
    (3201, 3201); (3260, 3260); (3263, 3263); (3270, 3270); (3276, 3277); (3298, 3299);
    (3328, 3329); (3387, 3388); (3393, 3396); (3405, 3405); (3426, 3427); (3457, 3457);
    (3530, 3530); (3538, 3540); (3542, 3542); (3633, 3633); (3636, 3642); (3654, 3662);
    (3761, 3761); (3764, 3772); (3782, 3782); (3784, 3789); (3864, 3865); (3893, 3893);
    (3895, 3895); (3897, 3897); (3953, 3966); (3968, 3972); (3974, 3975); (3981, 3991);
    (3993, 4028); (4038, 4038); (4141, 4144); (4146, 4151); (4153, 4154); (4157, 4158);
    (4184, 4185); (4190, 4192); (4209, 4212); (4226, 4226); (4229, 4230); (4237, 4237);
    (4253, 4253); (4348, 4348); (4957, 4959); (5906, 5908); (5938, 5939); (5970, 5971);
    (6002, 6003); (6068, 6069); (6071, 6077); (6086, 6086); (6089, 6099); (6103, 6103);
    (6109, 6109); (6155, 6159); (6211, 6211); (6277, 6278); (6313, 6313); (6432, 6434);
    (6439, 6440); (6450, 6450); (6457, 6459); (6679, 6680); (6683, 6683); (6742, 6742);
    (6744, 6750); (6752, 6752); (6754, 6754); (6757, 6764); (6771, 6780); (6783, 6783);
    (6823, 6823); (6832, 6862); (6912, 6915); (6964, 6964); (6966, 6970); (6972, 6972);
    (6978, 6978); (7019, 7027); (7040, 7041); (7074, 7077); (7080, 7081); (7083, 7085);
    (7142, 7142); (7144, 7145); (7149, 7149); (7151, 7153); (7212, 7219); (7222, 7223);
    (7288, 7293); (7376, 7378); (7380, 7392); (7394, 7400); (7405, 7405); (7412, 7412);
    (7416, 7417); (7468, 7530); (7544, 7544); (7579, 7679); (8125, 8125); (8127, 8129);
    (8141, 8143); (8157, 8159); (8173, 8175); (8189, 8190); (8203, 8207); (8216, 8217);
    (8228, 8228); (8231, 8231); (8234, 8238); (8288, 8292); (8294, 8303); (8305, 8305);
    (8319, 8319); (8336, 8348); (8400, 8432); (11388, 11389); (11503, 11505);
    (11631, 11631); (11647, 11647); (11744, 11775); (11823, 11823); (12293, 12293);
    (12330, 12333); (12337, 12341); (12347, 12347); (12441, 12446); (12540, 12542);
    (40981, 40981); (42232, 42237); (42508, 42508); (42607, 42610); (42612, 42621);
    (42623, 42623); (42652, 42655); (42736, 42737); (42752, 42785); (42864, 42864);
    (42888, 42890); (42994, 42996); (43000, 43001); (43010, 43010); (43014, 43014);
    (43019, 43019); (43045, 43046); (43052, 43052); (43204, 43205); (43232, 43249);
    (43263, 43263); (43302, 43309); (43335, 43345); (43392, 43394); (43443, 43443);
    (43446, 43449); (43452, 43453); (43471, 43471); (43493, 43494); (43561, 43566);
    (43569, 43570); (43573, 43574); (43587, 43587); (43596, 43596); (43632, 43632);
    (43644, 43644); (43696, 43696); (43698, 43700); (43703, 43704); (43710, 43711);
    (43713, 43713); (43741, 43741); (43756, 43757); (43763, 43764); (43766, 43766);
    (43867, 43871); (43881, 43883); (44005, 44005); (44008, 44008); (44013, 44013);
    (64286, 64286); (64434, 64450); (65024, 65039); (65043, 65043); (65056, 65071);
    (65106, 65106); (65109, 65109); (65279, 65279); (65287, 65287); (65294, 65294);
    (65306, 65306); (65342, 65342); (65344, 65344); (65392, 65392); (65438, 65439);
    (65507, 65507); (65529, 65531); (66045, 66045); (66272, 66272); (66422, 66426);
    (67456, 67461); (67463, 67504); (67506, 67514); (68097, 68099); (68101, 68102);
    (68108, 68111); (68152, 68154); (68159, 68159); (68325, 68326); (68900, 68903);
    (69291, 69292); (69446, 69456); (69506, 69509); (69633, 69633); (69688, 69702);
    (69744, 69744); (69747, 69748); (69759, 69761); (69811, 69814); (69817, 69818);
    (69821, 69821); (69826, 69826); (69837, 69837); (69888, 69890); (69927, 69931);
    (69933, 69940); (70003, 70003); (70016, 70017); (70070, 70078); (70089, 70092);
    (70095, 70095); (70191, 70193); (70196, 70196); (70198, 70199); (70206, 70206);
    (70367, 70367); (70371, 70378); (70400, 70401); (70459, 70460); (70464, 70464);
    (70502, 70508); (70512, 70516); (70712, 70719); (70722, 70724); (70726, 70726);
    (70750, 70750); (70835, 70840); (70842, 70842); (70847, 70848); (70850, 70851);
    (71090, 71093); (71100, 71101); (71103, 71104); (71132, 71133); (71219, 71226);
    (71229, 71229); (71231, 71232); (71339, 71339); (71341, 71341); (71344, 71349);
    (71351, 71351); (71453, 71455); (71458, 71461); (71463, 71467); (71727, 71735);
    (71737, 71738); (71995, 71996); (71998, 71998); (72003, 72003); (72148, 72151);
    (72154, 72155); (72160, 72160); (72193, 72202); (72243, 72248); (72251, 72254);
    (72263, 72263); (72273, 72278); (72281, 72283); (72330, 72342); (72344, 72345);
    (72752, 72758); (72760, 72765); (72767, 72767); (72850, 72871); (72874, 72880);
    (72882, 72883); (72885, 72886); (73009, 73014); (73018, 73018); (73020, 73021);
    (73023, 73029); (73031, 73031); (73104, 73105); (73109, 73109); (73111, 73111);
    (73459, 73460); (78896, 78904); (92912, 92916); (92976, 92982); (92992, 92995);
    (94031, 94031); (94095, 94111); (94176, 94177); (94179, 94180); (110576, 110579);
    (110581, 110587); (110589, 110590); (113821, 113822); (113824, 113827);
    (118528, 118573); (118576, 118598); (119143, 119145); (119155, 119170);
    (119173, 119179); (119210, 119213); (119362, 119364); (121344, 121398);
    (121403, 121452); (121461, 121461); (121476, 121476); (121499, 121503);
    (121505, 121519); (122880, 122886); (122888, 122904); (122907, 122913);
    (122915, 122916); (122918, 122922); (123184, 123197); (123566, 123566);
    (123628, 123631); (125136, 125142); (125252, 125259); (127995, 127999);
    (917505, 917505); (917536, 917631); (917760, 917999) ].

(** The property Cased. *)
Definition cased_table : list (Z * Z) :=
  [ (65, 90); (97, 122); (170, 170); (181, 181); (186, 186); (192, 214); (216, 246);
    (248, 442); (444, 447); (452, 659); (661, 696); (704, 705); (736, 740); (837, 837);
    (880, 883); (886, 887); (890, 893); (895, 895); (902, 902); (904, 906); (908, 908);
    (910, 929); (931, 1013); (1015, 1153); (1162, 1327); (1329, 1366); (1376, 1416);
    (4256, 4293); (4295, 4295); (4301, 4301); (4304, 4346); (4349, 4351); (5024, 5109);
    (5112, 5117); (7296, 7304); (7312, 7354); (7357, 7359); (7424, 7615); (7680, 7957);
    (7960, 7965); (7968, 8005); (8008, 8013); (8016, 8023); (8025, 8025); (8027, 8027);
    (8029, 8029); (8031, 8061); (8064, 8116); (8118, 8124); (8126, 8126); (8130, 8132);
    (8134, 8140); (8144, 8147); (8150, 8155); (8160, 8172); (8178, 8180); (8182, 8188);
    (8305, 8305); (8319, 8319); (8336, 8348); (8450, 8450); (8455, 8455); (8458, 8467);
    (8469, 8469); (8473, 8477); (8484, 8484); (8486, 8486); (8488, 8488); (8490, 8493);
    (8495, 8500); (8505, 8505); (8508, 8511); (8517, 8521); (8526, 8526); (8544, 8575);
    (8579, 8580); (9398, 9449); (11264, 11492); (11499, 11502); (11506, 11507);
    (11520, 11557); (11559, 11559); (11565, 11565); (42560, 42605); (42624, 42653);
    (42786, 42887); (42891, 42894); (42896, 42954); (42960, 42961); (42963, 42963);
    (42965, 42969); (42997, 42998); (43000, 43002); (43824, 43866); (43868, 43880);
    (43888, 43967); (64256, 64262); (64275, 64279); (65313, 65338); (65345, 65370);
    (66560, 66639); (66736, 66771); (66776, 66811); (66928, 66938); (66940, 66954);
    (66956, 66962); (66964, 66965); (66967, 66977); (66979, 66993); (66995, 67001);
    (67003, 67004); (67456, 67456); (67459, 67461); (67463, 67504); (67506, 67514);
    (68736, 68786); (68800, 68850); (71840, 71903); (93760, 93823); (119808, 119892);
    (119894, 119964); (119966, 119967); (119970, 119970); (119973, 119974);
    (119977, 119980); (119982, 119993); (119995, 119995); (119997, 120003);
    (120005, 120069); (120071, 120074); (120077, 120084); (120086, 120092);
    (120094, 120121); (120123, 120126); (120128, 120132); (120134, 120134);
    (120138, 120144); (120146, 120485); (120488, 120512); (120514, 120538);
    (120540, 120570); (120572, 120596); (120598, 120628); (120630, 120654);
    (120656, 120686); (120688, 120712); (120714, 120744); (120746, 120770);
    (120772, 120779); (122624, 122633); (122635, 122654); (125184, 125251);
    (127280, 127305); (127312, 127337); (127344, 127369) ].

Fixpoint mapped (table : list (Z * Z * Z * Z)) (p : Z) : Z :=
  match table with
  | [] => p
  | (first, last, step, delta) :: rest =>
      if p <? first then p
      else if (p <=? last) && ((p - first) mod step =? 0) then p + delta
      else mapped rest p
  end.

Fixpoint within (table : list (Z * Z)) (p : Z) : bool :=
  match table with
  | [] => false
  | (first, last) :: rest =>
      if p <? first then false
      else if p <=? last then true
      else within rest p
  end.

Fixpoint special (table : list (Z * list Z)) (p : Z) : option (list Z) :=
  match table with
  | [] => None
  | (q, ps) :: rest =>
      if p <? q then None else if p =? q then Some ps else special rest p
  end.

Definition is_case_ignorable (p : Z) : bool := within case_ignorable_table p.
Definition is_cased (p : Z) : bool := within cased_table p.

(** The full lower case of a code point other than the capital sigma:
    U+0130 alone gives two code points. *)
Definition to_lower_full (p : Z) : list Z :=
  if p =? 304 then [105; 775] else [mapped lower_table p].

Definition to_title_full (p : Z) : list Z :=
  match special title_special p with
  | Some ps => ps
  | None => [mapped title_table p]
  end.

Fixpoint first_not_ignorable (ps : list Z) : option Z :=
  match ps with
  | [] => None
  | p :: rest => if is_case_ignorable p then first_not_ignorable rest else Some p
  end.

(** The capital sigma U+03A3 is in final position when a cased code point
    precedes it and none follows it, case-ignorable code points being
    skipped on both sides; [before] is the text before it, nearest first. *)
Definition final_sigma (before after : list Z) : bool :=
  match first_not_ignorable before with
  | Some p =>
      is_cased p
      && match first_not_ignorable after with
         | Some q => negb (is_cased q)
         | None => true
         end
  | None => false
  end.

Fixpoint lower_from (before ps : list Z) : list Z :=
  match ps with
  | [] => []
  | p :: rest =>
      (if p =? 931 then [ if final_sigma before rest then 962 else 963 ]
       else to_lower_full p)
        ++ lower_from (p :: before) rest
  end.

Definition lower (ps : list Z) : list Z := lower_from [] ps.

(** The first code point in title case, the rest in lower case. *)
Definition capitalize (ps : list Z) : list Z :=
  match ps with
  | [] => []
  | p :: rest => to_title_full p ++ lower_from [p] rest
  end.

End Unicode.

(* ===================================================================== *)
(** * Python built-ins used by the backend *)
(* ===================================================================== *)

Module Py.

(** Exceptions that the built-ins used here can raise. *)
Inductive exn := ValueError | OverflowError.

Inductive result (A : Type) : Type :=
| Ok (a : A)
| Raise (e : exn).
Arguments Ok {A} a.
Arguments Raise {A} e.

Definition bind {A B} (r : result A) (k : A -> result B) : result B :=
  match r with
  | Ok a => k a
  | Raise e => Raise e
  end.

(** A Python number as the scoring code handles it: [min(100, raw)] yields
    the [int] 100 or the [float] [raw]. *)
Inductive num :=
| PyInt (z : Z)
| PyFloat (f : float).

(** ** [str.lower] and [str.capitalize] *)

Definition lower (s : string) : string :=
  Unicode.encode (Unicode.lower (Unicode.decode s)).

Definition capitalize (s : string) : string :=
  Unicode.encode (Unicode.capitalize (Unicode.decode s)).

(** ** Exact value of a binary64 number and decimal rounding *)

(** [round_half_even a b] is the integer nearest to [a / b] (for [0 <= a],
    [0 < b]), ties going to the even neighbour. *)
Definition round_half_even (a b : Z) : Z :=
  let q := a / b in
  let r := a mod b in
  match 2 * r ?= b with
  | Lt => q
  | Gt => q + 1
  | Eq => if Z.even q then q else q + 1
  end.

(** [scaled_decimal nd m e] is [m * 2^e * 10^nd] rounded half-even to an
    integer: the digits of the magnitude [m * 2^e] kept by a correctly
    rounded conversion to [nd] decimal places. *)
Definition scaled_decimal (nd : Z) (m : positive) (e : Z) : Z :=
  if 0 <=? e then Zpos m * 2 ^ e * 10 ^ nd
  else round_half_even (Zpos m * 10 ^ nd) (2 ^ (- e)).

(** The binary64 number nearest to [n / 10^nd], with sign [s]
    (what [strtod] returns on the decimal string). *)
Definition SF_of_decimal (s : bool) (n : Z) (nd : Z) : spec_float :=
  match n with
  | Zpos p =>
      SFdiv prec emax (S754_finite s p 0) (S754_finite false (Z.to_pos (10 ^ nd)) 0)
  | _ => S754_zero s
  end.

(** [round(x, nd)] for a float [x] and [0 <= nd] small (2 and 4 here):
    infinities and NaN round to themselves; a finite [x] is converted to
    the correctly rounded decimal with [nd] places, which is read back as
    the nearest float. *)
Definition SFround (nd : Z) (x : spec_float) : spec_float :=
  match x with
  | S754_finite s m e => SF_of_decimal s (scaled_decimal nd m e) nd
  | _ => x
  end.

Definition round (x : float) (nd : Z) : float :=
  SF2Prim (SFround nd (Prim2SF x)).

(** ** [int(x)] *)

(** Truncation toward zero; [int] raises on infinities and NaN. *)
Definition SFtrunc (x : spec_float) : result Z :=
  match x with
  | S754_zero _ => Ok 0
  | S754_finite s m e =>
      let a := if 0 <=? e then Zpos m * 2 ^ e else Zpos m / 2 ^ (- e) in
      Ok (if s then - a else a)
  | S754_infinity _ => Raise OverflowError
  | S754_nan => Raise ValueError
  end.

Definition int (x : num) : result Z :=
  match x with
  | PyInt z => Ok z
  | PyFloat f => SFtrunc (Prim2SF f)
  end.

(** ** [min(a, b)] and [max(a, b)] on an [int] and a [float]

    [min(a, b)] keeps [a] unless [b < a]; [max(a, b)] keeps [a] unless
    [b > a].  An [int] that a float represents exactly is compared through
    that float. *)
Definition to_float (x : num) : float :=
  match x with
  | PyInt z => SF2Prim (binary_normalize prec emax z 0 false)
  | PyFloat f => f
  end.

Definition min (a b : num) : num :=
  if (to_float b <? to_float a)%float then b else a.

Definition max (a b : num) : num :=
  if (to_float a <? to_float b)%float then b else a.

(** ** [sum] of floats

    [sum] starts from the [int] 0 and adds the items from left to right;
    [0 + x] is computed as [0.0 + x].  (CPython from 3.12 on carries a
    compensation term through the additions, which can change the last bit
    of a sum of three or more items; a sum of at most two items is the same
    in both, and no property below depends on how a longer sum rounds.) *)
Definition sum (xs : list float) : float :=
  fold_left (fun acc x => (acc + x)%float) xs 0%float.

(** ** [format(x, ".2f")] *)

Definition two_digits (n : Z) : string :=
  if n <? 10 then ("0" ++ pretty n)%string else pretty n.

Definition format_2f (x : float) : string :=
  match Prim2SF x with
  | S754_nan => "nan"
  | S754_infinity s => if s then "-inf" else "inf"
  | S754_zero s => if s then "-0.00" else "0.00"
  | S754_finite s m e =>
      let n := scaled_decimal 2 m e in
      ((if s then "-" else EmptyString) ++ pretty (n / 100) ++ "." ++ two_digits (n mod 100))%string
  end.

(** ** [str(x)] of a float

    The shortest decimal that reads back as [x], written in positional
    notation when its decimal exponent lies in (-4, 16] and in scientific
    notation otherwise. *)

(** The binary64 number nearest to [c * 10^q], for [0 < c]. *)
Definition SF_of_scientific (c q : Z) : spec_float :=
  if 0 <=? q then binary_normalize prec emax (c * 10 ^ q) 0 false
  else SFdiv prec emax (S754_finite false (Z.to_pos c) 0)
                       (S754_finite false (Z.to_pos (10 ^ (- q))) 0).

(** [m * 2^e * 10^j] as a fraction. *)
Definition scaled_fraction (m : positive) (e : Z) (j : Z) : Z * Z :=
  let n := Zpos m * (if 0 <=? e then 2 ^ e else 1) * (if 0 <=? j then 10 ^ j else 1) in
  let d := (if 0 <=? e then 1 else 2 ^ (- e)) * (if 0 <=? j then 1 else 10 ^ (- j)) in
  (n, d).

(** The least [p' >= p] with [m * 2^e < 10^p']. *)
Fixpoint decimal_exponent (fuel : nat) (m : positive) (e : Z) (p : Z) : Z :=
  match fuel with
  | O => p
  | S fuel' =>
      let '(n, d) := scaled_fraction m e (- p) in
      if n <? d then p else decimal_exponent fuel' m e (p + 1)
  end.

(** The shortest decimal [c * 10^(-j)] that reads back as [m * 2^e], trying
    [k], [k + 1], ... significant digits (17 always suffice); of two
    candidates that read back, the nearer one. *)
Fixpoint shortest_decimal (fuel : nat) (m : positive) (e : Z) (p : Z) (k : Z)
    : Z * Z :=
  let j := k - p in
  let '(n, d) := scaled_fraction m e j in
  let lo := n / d in
  let hi := lo + 1 in
  let back c :=
    match SF_of_scientific c (- j) with
    | S754_finite _ m' e' => Pos.eqb m m' && (e =? e')
    | _ => false
    end in
  let ok_lo := (0 <? lo) && back lo in
  let ok_hi := back hi in
  match fuel with
  | O => (lo, j)
  | S fuel' =>
      if ok_lo && ok_hi then (if 2 * (n mod d) <=? d then (lo, j) else (hi, j))
      else if ok_lo then (lo, j)
      else if ok_hi then (hi, j)
      else shortest_decimal fuel' m e p (k + 1)
  end.

Fixpoint strip_zeros (fuel : nat) (c : Z) : Z :=
  match fuel with
  | O => c
  | S fuel' => if c mod 10 =? 0 then strip_zeros fuel' (c / 10) else c
  end.

Fixpoint zeros (n : nat) : string :=
  match n with
  | O => EmptyString
  | S n' => String "0" (zeros n')
  end.

Definition str_length (s : string) : Z := Z.of_nat (String.length s).

(** The digits and the layout for a positive finite number.  The search for
    the decimal exponent starts one below an under-estimate of the base-10
    logarithm, so a few steps reach it. *)
Definition str_finite (m : positive) (e : Z) : string :=
  let bits := Zpos (digits2_pos m) + e in
  let p := decimal_exponent 8 m e ((bits - 1) * 30103 / 100000 - 1) in
  let '(c, j) := shortest_decimal 17 m e p 1 in
  let decpt := str_length (pretty c) - j in
  let ds := pretty (strip_zeros 20 c) in
  let n := str_length ds in
  if (decpt <=? -4) || (16 <? decpt) then
    let ex := decpt - 1 in
    let fraction :=
      if 1 <? n then ("." ++ String.substring 1 (Z.to_nat (n - 1)) ds)%string
      else EmptyString in
    let sign := if ex <? 0 then "-"%string else "+"%string in
    let pad := if Z.abs ex <? 10 then "0"%string else EmptyString in
    (String.substring 0 1 ds ++ fraction ++ "e" ++ sign ++ pad ++ pretty (Z.abs ex))%string
  else if decpt <=? 0 then
    ("0." ++ zeros (Z.to_nat (- decpt)) ++ ds)%string
  else if n <=? decpt then
    (ds ++ zeros (Z.to_nat (decpt - n)) ++ ".0")%string
  else
    (String.substring 0 (Z.to_nat decpt) ds ++ "."
     ++ String.substring (Z.to_nat decpt) (Z.to_nat (n - decpt)) ds)%string.

Definition str_float (x : float) : string :=
  match Prim2SF x with
  | S754_nan => "nan"
  | S754_infinity s => if s then "-inf" else "inf"
  | S754_zero s => if s then "-0.0" else "0.0"
  | S754_finite s m e => ((if s then "-" else EmptyString) ++ str_finite m e)%string
  end.

End Py.

Import Py (Ok, Raise, PyInt, PyFloat).

(* ===================================================================== *)
(** * backend/carbon_engine.py *)
(* ===================================================================== *)

Module CarbonEngine.

(** Default emission factors, kg CO2e per unit. *)
Definition DEFAULT_EMISSION_FACTORS : gmap string (gmap string float) :=
  {[ "transport"%string :=
       ({[ "car"%string := 0.17%float; "bus"%string := 0.08%float;
           "train"%string := 0.03%float; "flight"%string := 0.24%float ]}
          : gmap string float);
     "food"%string :=
       {[ "beef"%string := 27.0%float; "chicken"%string := 6.9%float;
          "dairy"%string := 1.9%float; "vegetables"%string := 0.4%float;
          "rice"%string := 2.7%float ]};
     "energy"%string :=
       {[ "electricity"%string := 0.45%float; "gas"%string := 0.18%float ]} ]}.

(** [factors.get(key, 0.0)] *)
Definition factor_of (factors : gmap string float) (key : string) : float :=
  default 0.0%float (factors !! key).

Definition calculate_transport_emissions
    (mode : string) (distance_km : float) (factors : option (gmap string float)) : float :=
  let factors :=
    match factors with
    | None => DEFAULT_EMISSION_FACTORS !!! "transport"%string
    | Some fs => fs
    end in
  let factor := factor_of factors (Py.lower mode) in
  (distance_km * factor)%float.

Definition calculate_food_emissions
    (food_type : string) (quantity_kg : float) (factors : option (gmap string float)) : float :=
  let factors :=
    match factors with
    | None => DEFAULT_EMISSION_FACTORS !!! "food"%string
    | Some fs => fs
    end in
  let factor := factor_of factors (Py.lower food_type) in
  (quantity_kg * factor)%float.

Definition calculate_energy_emissions
    (energy_type : string) (kwh : float) (factors : option (gmap string float)) : float :=
  let factors :=
    match factors with
    | None => DEFAULT_EMISSION_FACTORS !!! "energy"%string
    | Some fs => fs
    end in
  let factor := factor_of factors (Py.lower energy_type) in
  (kwh * factor)%float.

(** The entry dictionaries [{'mode', 'distance'}], [{'type', 'quantity'}]
    and [{'type', 'kwh'}]. *)
Record transport_entry := { mode : string; distance : float }.
Record food_entry := { food_type : string; quantity : float }.
Record energy_entry := { energy_type : string; kwh : float }.

Record breakdown_t := { transport : float; food : float; energy : float }.
Record footprint := { total_kg_co2e : float; breakdown : breakdown_t }.

(** [custom_factors.get(category) if custom_factors else None]: an absent
    or empty table of tables gives [None]. *)
Definition custom_table
    (custom_factors : option (gmap string (gmap string float))) (category : string)
    : option (gmap string float) :=
  match custom_factors with
  | Some cf => if decide (cf = ∅) then None else cf !! category
  | None => None
  end.

Definition transport_total
    (transport_entries : list transport_entry)
    (custom_factors : option (gmap string (gmap string float))) : float :=
  let t_factors := custom_table custom_factors "transport" in
  Py.sum (map (fun e => calculate_transport_emissions (mode e) (distance e) t_factors)
              transport_entries).

Definition food_total
    (food_entries : list food_entry)
    (custom_factors : option (gmap string (gmap string float))) : float :=
  let f_factors := custom_table custom_factors "food" in
  Py.sum (map (fun e => calculate_food_emissions (food_type e) (quantity e) f_factors)
              food_entries).

Definition energy_total
    (energy_entries : list energy_entry)
    (custom_factors : option (gmap string (gmap string float))) : float :=
  let e_factors := custom_table custom_factors "energy" in
  Py.sum (map (fun e => calculate_energy_emissions (energy_type e) (kwh e) e_factors)
              energy_entries).

Definition calculate_total_footprint
    (transport_entries : list transport_entry)
    (food_entries : list food_entry)
    (energy_entries : list energy_entry)
    (custom_factors : option (gmap string (gmap string float))) : footprint :=
  let transport_total := transport_total transport_entries custom_factors in
  let food_total := food_total food_entries custom_factors in
  let energy_total := energy_total energy_entries custom_factors in
  let total := (transport_total + food_total + energy_total)%float in
  {| total_kg_co2e := Py.round total 4;
     breakdown := {| transport := Py.round transport_total 4;
                     food := Py.round food_total 4;
                     energy := Py.round energy_total 4 |} |}.

End CarbonEngine.

(* ===================================================================== *)
(** * backend/gamification.py *)
(* ===================================================================== *)

Module Gamification.

Definition DAILY_CARBON_GOAL_KG : float := 20.0%float.
Definition SCORE_MULTIPLIER : float := 5.0%float.

Definition STREAK_BONUS_MILESTONES : gmap Z Z := {[ 3 := 50; 7 := 150 ]}.

Definition LEVELS : list (Z * string) :=
  [ (0, "Seedling"%string);
    (500, "Sapling"%string);
    (1500, "Oak"%string);
    (3000, "Forest Guardian"%string);
    (5000, "Planet Hero"%string) ].

(** A catalog entry: the threshold keys are optional ([None]: the key is
    not in the dictionary). *)
Record badge_def := {
  id : string;
  name : string;
  description : string;
  transport_max : option float;
  min_streak : option Z;
  energy_max : option float
}.

Definition BADGE_DEFINITIONS : list badge_def :=
  [ {| id := "green_traveler"; name := "Green Traveler";
       description := "Transport footprint below 5kg.";
       transport_max := Some 5.0%float; min_streak := None; energy_max := None |};
    {| id := "eco_warrior"; name := "Eco Warrior";
       description := "Maintain a 7-day activity streak.";
       transport_max := None; min_streak := Some 7; energy_max := None |};
    {| id := "low_utility"; name := "Energy Saver";
       description := "Reduce daily energy use below 10kWh.";
       transport_max := None; min_streak := None; energy_max := Some 10.0%float |} ].

(** An earned badge, [{"id", "name", "description"}]. *)
Record badge := {
  badge_id : string;
  badge_name : string;
  badge_description : string
}.

Definition raw_score (total_carbon_kg : float) : float :=
  (100 - (total_carbon_kg * (100 / DAILY_CARBON_GOAL_KG)))%float.

Definition calculate_daily_score (total_carbon_kg : float) : Py.result Z :=
  Py.int (Py.max (PyInt 0) (Py.min (PyInt 100) (PyFloat (raw_score total_carbon_kg)))).

Definition calculate_weekly_streak (active_days_count : Z) : string * Z :=
  let bonus := default 0 (STREAK_BONUS_MILESTONES !! active_days_count) in
  let status :=
    if 7 <=? active_days_count then
      ("🔥 Master Streak: " ++ pretty active_days_count ++ " days!")%string
    else if 3 <=? active_days_count then
      ("✨ On Fire: " ++ pretty active_days_count ++ " days!")%string
    else
      ("Keep it up: " ++ pretty active_days_count ++ " days")%string in
  (status, bonus).

(** The body of the loop of [get_badges] up to the test of [is_earned]. *)
Definition is_earned
    (b : badge_def) (streak_days : Z) (transport_kg energy_kwh : float) : bool :=
  let is_earned := true in
  let is_earned :=
    match transport_max b with
    | Some mx => if (mx <? transport_kg)%float then false else is_earned
    | None => is_earned
    end in
  let is_earned :=
    match min_streak b with
    | Some mn => if streak_days <? mn then false else is_earned
    | None => is_earned
    end in
  let is_earned :=
    match energy_max b with
    | Some mx => if (mx <? energy_kwh)%float then false else is_earned
    | None => is_earned
    end in
  is_earned.

Definition earned_entry (b : badge_def) : badge :=
  {| badge_id := id b; badge_name := name b; badge_description := description b |}.

Fixpoint badges_loop
    (defs : list badge_def) (streak_days : Z) (transport_kg energy_kwh : float)
    (earned : list badge) : list badge :=
  match defs with
  | [] => earned
  | b :: rest =>
      let earned :=
        if is_earned b streak_days transport_kg energy_kwh
        then earned ++ [earned_entry b]
        else earned in
      badges_loop rest streak_days transport_kg energy_kwh earned
  end.

Definition get_badges
    (total_carbon_kg : float) (streak_days : Z) (transport_kg energy_kwh : float)
    : list badge :=
  badges_loop BADGE_DEFINITIONS streak_days transport_kg energy_kwh [].

Record progress := {
  level_name : string;
  level_number : Z;
  total_points : Z
}.

(** The loop of [get_progress_level]: [i] is the index of the head of
    [levels]; the [else] branch is the [break]. *)
Fixpoint level_loop
    (levels : list (Z * string)) (i : Z) (points : Z) (current : string * Z)
    : string * Z :=
  match levels with
  | [] => current
  | (threshold, name) :: rest =>
      if threshold <=? points
      then level_loop rest (i + 1) points (name, i + 1)
      else current
  end.

Definition get_progress_level (total_points : Z) : progress :=
  let current_level_name := match LEVELS with (_, n) :: _ => n | [] => EmptyString end in
  let level_num := 1 in
  let '(current_level_name, level_num) :=
    level_loop LEVELS 0 total_points (current_level_name, level_num) in
  {| level_name := current_level_name;
     level_number := level_num;
     total_points := total_points |}.

End Gamification.

(* ===================================================================== *)
(** * backend/recommendation_engine.py *)
(* ===================================================================== *)

Module RecommendationEngine.

Local Open Scope string_scope.

(** A breakdown dictionary, in insertion order (keys are distinct). *)
Definition dict := list (string * float).

(** [d.get(key, default)] *)
Fixpoint dict_get (d : dict) (key : string) (dflt : float) : float :=
  match d with
  | [] => dflt
  | (k, v) :: rest => if String.eqb k key then v else dict_get rest key dflt
  end.

(** [{k: v for k, v in carbon_breakdown.items() if k != 'total'}] *)
Definition categories (carbon_breakdown : dict) : dict :=
  List.filter (fun kv => negb (String.eqb (fst kv) "total")) carbon_breakdown.

(** The scan of [max(categories, key=categories.get)]: the running maximum
    is replaced only by an item whose value is strictly greater. *)
Fixpoint max_scan (best : string * float) (rest : dict) : string * float :=
  match rest with
  | [] => best
  | kv :: rest' => max_scan (if (snd best <? snd kv)%float then kv else best) rest'
  end.

Definition highest_category (carbon_breakdown : dict) : string :=
  match categories carbon_breakdown with
  | [] => "N/A"
  | kv :: rest => fst (max_scan kv rest)
  end.

Definition highest_value (carbon_breakdown : dict) : float :=
  dict_get (categories carbon_breakdown) (highest_category carbon_breakdown) 0.

Definition newline : string := String (ascii_of_nat 10) EmptyString.
Definition dquote : string := String (ascii_of_nat 34) EmptyString.

Fixpoint unlines (ls : list string) : string :=
  match ls with
  | [] => EmptyString
  | [l] => l
  | l :: rest => l ++ newline ++ unlines rest
  end.

(** The lines of the template, without the leading and the trailing
    newline that [strip] removes. *)
Definition prompt_lines
    (carbon_breakdown : dict) (activity_summary : string) : list string :=
  let highest_category := highest_category carbon_breakdown in
  let highest_value := highest_value carbon_breakdown in
    [ "Act as a Sustainability Expert and Carbon Footprint Consultant.";
      "Your goal is to analyze a user's carbon footprint data and provide actionable, realistic, and prioritized recommendations to reduce their environmental impact.";
      EmptyString;
      "### User Carbon Footprint Data (kg CO2e):";
      "- **Total Footprint**: " ++ Py.format_2f (dict_get carbon_breakdown "total" 0);
      "- **Transport**: " ++ Py.format_2f (dict_get carbon_breakdown "transport" 0);
      "- **Food**: " ++ Py.format_2f (dict_get carbon_breakdown "food" 0);
      "- **Energy**: " ++ Py.format_2f (dict_get carbon_breakdown "energy" 0);
      EmptyString;
      "### User's Recent Activity Summary:";
      dquote ++ activity_summary ++ dquote;
      EmptyString;
      "### Analysis:";
      "- The highest contributor to the user's footprint is **" ++ Py.capitalize highest_category ++ "** (" ++ Py.format_2f highest_value ++ " kg CO2e).";
      EmptyString;
      "### Task:";
      "Please provide 5–7 specific and realistic recommendations to reduce this carbon footprint. ";
      "For each recommendation, include:";
      "1. **Action**: A clear, actionable step.";
      "2. **Priority**: High, Medium, or Low (based on potential impact and ease of implementation).";
      "3. **Rationale**: A brief explanation of why this helps.";
      EmptyString;
      "### Output Style:";
      "- Use a professional yet encouraging tone.";
      "- Use clear bullet points.";
      "- Ensure recommendations are tailored to the provided data and habits.";
      "- Do not use generic advice; keep it specific to the identified problem areas.";
      EmptyString;
      "Recommendations:" ].

Definition build_recommendation_prompt
    (carbon_breakdown : dict) (activity_summary : string) : string :=
  unlines (prompt_lines carbon_breakdown activity_summary).

End RecommendationEngine.

(* ===================================================================== *)
(** * backend/demo_api.py *)
(* ===================================================================== *)

Module DemoApi.

Local Open Scope string_scope.

Record DemoRunRequest := {
  transport_mode : string;
  distance : float;
  food_type : string;
  food_quantity : float;
  energy_kwh : float
}.

Record DemoRunResponse := {
  transport_emission : float;
  food_emission : float;
  energy_emission : float;
  total_emission : float;
  daily_score : Z;
  badges : list Gamification.badge;
  recommendation_prompt : string
}.

(** Step 1 of the handler: the three emissions and their total. *)
Definition transport_emission_of (req : DemoRunRequest) : float :=
  CarbonEngine.calculate_transport_emissions (transport_mode req) (distance req) None.

Definition food_emission_of (req : DemoRunRequest) : float :=
  CarbonEngine.calculate_food_emissions (food_type req) (food_quantity req) None.

Definition energy_emission_of (req : DemoRunRequest) : float :=
  CarbonEngine.calculate_energy_emissions "electricity" (energy_kwh req) None.

Definition total_emission_of (req : DemoRunRequest) : float :=
  (transport_emission_of req + food_emission_of req + energy_emission_of req)%float.

(** The [breakdown] dictionary built for the recommendation engine. *)
Definition breakdown (req : DemoRunRequest) : RecommendationEngine.dict :=
  [ ("transport", Py.round (transport_emission_of req) 2);
    ("food", Py.round (food_emission_of req) 2);
    ("energy", Py.round (energy_emission_of req) 2);
    ("total", Py.round (total_emission_of req) 2) ].

(** Step 2: the badges, with the mock streak of one day. *)
Definition demo_badges (req : DemoRunRequest) : list Gamification.badge :=
  Gamification.get_badges
    (total_emission_of req) 1 (transport_emission_of req) (energy_kwh req).

(** Step 3: the habit summary; the f-string interpolates the floats with
    [str]. *)
Definition habit_summary (req : DemoRunRequest) : string :=
  "I traveled " ++ Py.str_float (distance req) ++ "km by " ++ transport_mode req
  ++ ", consumed " ++ Py.str_float (food_quantity req) ++ "kg of " ++ food_type req
  ++ ", and used " ++ Py.str_float (energy_kwh req) ++ "kWh of electricity.".

(** The handler; [Raise] stands for the [except] branch, which answers with
    status 500. *)
Definition run_integrated_demo (req : DemoRunRequest) : Py.result DemoRunResponse :=
  let transport_emission := transport_emission_of req in
  let food_emission := food_emission_of req in
  let energy_emission := energy_emission_of req in
  let total_emission := total_emission_of req in
  let breakdown := breakdown req in
  Py.bind (Gamification.calculate_daily_score total_emission) (fun daily_score =>
  let badges := demo_badges req in
  let recommendation_prompt :=
    RecommendationEngine.build_recommendation_prompt breakdown (habit_summary req) in
  Ok {| transport_emission := Py.round transport_emission 4;
        food_emission := Py.round food_emission 4;
        energy_emission := Py.round energy_emission 4;
        total_emission := Py.round total_emission 4;
        daily_score := daily_score;
        badges := badges;
        recommendation_prompt := recommendation_prompt |}).

End DemoApi.

(* ===================================================================== *)
(** * The vocabulary of the specification *)
(* ===================================================================== *)

Module Spec.

Local Open Scope string_scope.

(** The three emission categories and their calculators. *)
Inductive category := Transport | Food | Energy.

Definition category_key (c : category) : string :=
  match c with
  | Transport => "transport"
  | Food => "food"
  | Energy => "energy"
  end.

Definition emissions (c : category)
    : string -> float -> option (gmap string float) -> float :=
  match c with
  | Transport => CarbonEngine.calculate_transport_emissions
  | Food => CarbonEngine.calculate_food_emissions
  | Energy => CarbonEngine.calculate_energy_emissions
  end.

(** The factor table a call uses: the custom one when given, else the
    built-in table of the category. *)
Definition applicable_table (c : category) (factors : option (gmap string float))
    : gmap string float :=
  match factors with
  | Some fs => fs
  | None => CarbonEngine.DEFAULT_EMISSION_FACTORS !!! category_key c
  end.

(** The documented default factors, kg CO2e per unit. *)
Definition documented_factors (c : category) : list (string * float) :=
  match c with
  | Transport =>
      [ ("car", 0.17%float); ("bus", 0.08%float); ("train", 0.03%float);
        ("flight", 0.24%float) ]
  | Food =>
      [ ("beef", 27.0%float); ("chicken", 6.9%float); ("dairy", 1.9%float);
        ("vegetables", 0.4%float); ("rice", 2.7%float) ]
  | Energy =>
      [ ("electricity", 0.45%float); ("gas", 0.18%float) ]
  end.

(** A badge qualifies when every threshold it declares is satisfied:
    [transport_max]: the transport kg are at most it; [min_streak]: the
    streak days are at least it; [energy_max]: the energy kWh are at most
    it. *)
Definition threshold_satisfied
    (streak_days : Z) (transport_kg energy_kwh : float) (b : Gamification.badge_def)
    : bool :=
  match Gamification.transport_max b with
  | Some mx => (transport_kg <=? mx)%float
  | None => true
  end
  && match Gamification.min_streak b with
     | Some mn => (mn <=? streak_days)%Z
     | None => true
     end
  && match Gamification.energy_max b with
     | Some mx => (energy_kwh <=? mx)%float
     | None => true
     end.

(** No threshold that the badge declares is violated: the transport kg do
    not exceed [transport_max], the streak days are not below [min_streak],
    the energy kWh do not exceed [energy_max]. *)
Definition no_threshold_violated
    (streak_days : Z) (transport_kg energy_kwh : float) (b : Gamification.badge_def)
    : bool :=
  match Gamification.transport_max b with
  | Some mx => negb (mx <? transport_kg)%float
  | None => true
  end
  && match Gamification.min_streak b with
     | Some mn => negb (streak_days <? mn)%Z
     | None => true
     end
  && match Gamification.energy_max b with
     | Some mx => negb (mx <? energy_kwh)%float
     | None => true
     end.

(** Two amounts agree to four decimals when they differ by at most one
    unit of the fourth decimal. *)
Definition agree_to_4_decimals (a b : float) : bool :=
  (abs (a - b) <=? 0.0001)%float.

(** A level table is ascending when its thresholds strictly increase. *)
Definition ascending (levels : list (Z * string)) : Prop :=
  StronglySorted (fun a b => (fst a < fst b)%Z) levels.

End Spec.

(* ===================================================================== *)
(** * Concrete inputs *)
(* ===================================================================== *)

Module Samples.

Local Open Scope string_scope.

(** Three single-entry lists whose emissions sit just below a rounding
    boundary of the fourth decimal. *)
Definition near_tie_transport : list CarbonEngine.transport_entry :=
  [ {| CarbonEngine.mode := "bus";
       CarbonEngine.distance := 0.0006249999999999999%float |} ].

Definition near_tie_food : list CarbonEngine.food_entry :=
  [ {| CarbonEngine.food_type := "beef";
       CarbonEngine.quantity := 1.8518518518518517e-06%float |} ].

Definition near_tie_energy : list CarbonEngine.energy_entry :=
  [ {| CarbonEngine.energy_type := "electricity";
       CarbonEngine.kwh := 0.00033333333333333327%float |} ].

(** Three small entries with short decimals. *)
Definition small_transport : list CarbonEngine.transport_entry :=
  [ {| CarbonEngine.mode := "car"; CarbonEngine.distance := 0.0002%float |} ].

Definition small_food : list CarbonEngine.food_entry :=
  [ {| CarbonEngine.food_type := "rice"; CarbonEngine.quantity := 0.00001%float |} ].

Definition small_energy : list CarbonEngine.energy_entry :=
  [ {| CarbonEngine.energy_type := "electricity"; CarbonEngine.kwh := 0.0001%float |} ].

(** A demo request with three small emissions. *)
Definition small_request : DemoApi.DemoRunRequest :=
  {| DemoApi.transport_mode := "car";
     DemoApi.distance := 0.02%float;
     DemoApi.food_type := "rice";
     DemoApi.food_quantity := 0.001%float;
     DemoApi.energy_kwh := 0.01%float |}.

(** The sample breakdown of [recommendation_engine.py]. *)
Definition sample_breakdown : RecommendationEngine.dict :=
  [ ("transport", 45.5%float); ("food", 12.2%float); ("energy", 30.0%float);
    ("total", 87.7%float) ].

Definition sample_summary : string :=
  "I drive to work every day, eat meat three times a week, and leave my computer on overnight.".

End Samples.

(* ===================================================================== *)
(** * backend/carbon_engine.py on the entry dictionaries *)
(* ===================================================================== *)

(** [calculate_total_footprint] reads its entries with [e['mode']],
    [e['distance']], ...: the entries are dictionaries whose values the
    [/calculate-total] endpoint does not validate ([List[dict]]).  This
    module embeds the same code on such dictionaries, with the exceptions of
    the subscriptions, of [str.lower] and of the product. *)

Module Entries.

Local Open Scope string_scope.

(** A value decoded from JSON. *)
Inductive value :=
| VNone
| VBool (b : bool)
| VInt (z : Z)
| VFloat (x : float)
| VStr (s : string)
| VList (items : list value)
| VDict (items : list (string * value)).

Inductive exn :=
| KeyError (key : string)
| AttributeError
| TypeError
| OverflowError.

Inductive outcome (A : Type) : Type :=
| Returns (a : A)
| Raises (e : exn).
Arguments Returns {A} a.
Arguments Raises {A} e.

Definition bind {A B} (r : outcome A) (k : A -> outcome B) : outcome B :=
  match r with
  | Returns a => k a
  | Raises e => Raises e
  end.

#[global] Instance outcome_bind : MBind outcome := fun A B k r => bind r k.

(** [e[key]] *)
Definition getitem (e : gmap string value) (key : string) : outcome value :=
  match e !! key with
  | Some v => Returns v
  | None => Raises (KeyError key)
  end.

(** [v.lower()]: only a [str] has the method. *)
Definition lower (v : value) : outcome string :=
  match v with
  | VStr s => Returns (Py.lower s)
  | _ => Raises AttributeError
  end.

(** The conversion of an [int] operand of a float product: the nearest
    float, [OverflowError] when that is out of range. *)
Definition float_of_int (z : Z) : outcome float :=
  match binary_normalize prec emax z 0 false with
  | S754_infinity _ => Raises OverflowError
  | y => Returns (SF2Prim y)
  end.

(** [v * factor] for a float [factor]: floats multiply, an [int] or a
    [bool] is converted first, anything else is a [TypeError]. *)
Definition mul_float (v : value) (factor : float) : outcome float :=
  match v with
  | VFloat x => Returns (x * factor)%float
  | VInt z => x ← float_of_int z; Returns (x * factor)%float
  | VBool b => Returns ((if b then 1 else 0) * factor)%float
  | _ => Raises TypeError
  end.

Definition calculate_transport_emissions
    (mode distance_km : value) (factors : option (gmap string float)) : outcome float :=
  let factors :=
    match factors with
    | None => CarbonEngine.DEFAULT_EMISSION_FACTORS !!! "transport"
    | Some fs => fs
    end in
  lowered ← lower mode;
  let factor := CarbonEngine.factor_of factors lowered in
  mul_float distance_km factor.

Definition calculate_food_emissions
    (food_type quantity_kg : value) (factors : option (gmap string float)) : outcome float :=
  let factors :=
    match factors with
    | None => CarbonEngine.DEFAULT_EMISSION_FACTORS !!! "food"
    | Some fs => fs
    end in
  lowered ← lower food_type;
  let factor := CarbonEngine.factor_of factors lowered in
  mul_float quantity_kg factor.

Definition calculate_energy_emissions
    (energy_type kwh : value) (factors : option (gmap string float)) : outcome float :=
  let factors :=
    match factors with
    | None => CarbonEngine.DEFAULT_EMISSION_FACTORS !!! "energy"
    | Some fs => fs
    end in
  lowered ← lower energy_type;
  let factor := CarbonEngine.factor_of factors lowered in
  mul_float kwh factor.

(** One item of a generator: the two subscriptions, left to right, then the
    call. *)
Definition item
    (calculate : value -> value -> option (gmap string float) -> outcome float)
    (name_key quantity_key : string) (factors : option (gmap string float))
    (e : gmap string value) : outcome float :=
  name ← getitem e name_key;
  quantity ← getitem e quantity_key;
  calculate name quantity factors.

(** [sum] over a generator: the items are computed one at a time and added
    to the running total; the first exception ends the sum. *)
Fixpoint sum_items (f : gmap string value -> outcome float)
    (entries : list (gmap string value)) (acc : float) : outcome float :=
  match entries with
  | [] => Returns acc
  | e :: rest => x ← f e; sum_items f rest (acc + x)%float
  end.

Definition calculate_total_footprint
    (transport_entries food_entries energy_entries : list (gmap string value))
    (custom_factors : option (gmap string (gmap string float)))
    : outcome CarbonEngine.footprint :=
  let t_factors := CarbonEngine.custom_table custom_factors "transport" in
  let f_factors := CarbonEngine.custom_table custom_factors "food" in
  let e_factors := CarbonEngine.custom_table custom_factors "energy" in
  transport_total ← sum_items (item calculate_transport_emissions "mode" "distance" t_factors)
              transport_entries 0;
  food_total ← sum_items (item calculate_food_emissions "type" "quantity" f_factors)
              food_entries 0;
  energy_total ← sum_items (item calculate_energy_emissions "type" "kwh" e_factors)
              energy_entries 0;
  let total := (transport_total + food_total + energy_total)%float in
  Returns
    {| CarbonEngine.total_kg_co2e := Py.round total 4;
       CarbonEngine.breakdown :=
         {| CarbonEngine.transport := Py.round transport_total 4;
            CarbonEngine.food := Py.round food_total 4;
            CarbonEngine.energy := Py.round energy_total 4 |} |}.

(** The dictionaries of well-typed entries. *)
Definition of_transport_entry (e : CarbonEngine.transport_entry) : gmap string value :=
  {[ "mode" := VStr (CarbonEngine.mode e); "distance" := VFloat (CarbonEngine.distance e) ]}.

Definition of_food_entry (e : CarbonEngine.food_entry) : gmap string value :=
  {[ "type" := VStr (CarbonEngine.food_type e);
     "quantity" := VFloat (CarbonEngine.quantity e) ]}.

Definition of_energy_entry (e : CarbonEngine.energy_entry) : gmap string value :=
  {[ "type" := VStr (CarbonEngine.energy_type e); "kwh" := VFloat (CarbonEngine.kwh e) ]}.

(** A quantity that the product accepts. *)
Definition numeric (v : value) : bool :=
  match v with
  | VFloat _ | VBool _ => true
  | VInt z =>
      match binary_normalize prec emax z 0 false with
      | S754_infinity _ => false
      | _ => true
      end
  | _ => false
  end.

(** An entry that its item evaluates without an exception: the name key
    holds a string and the quantity key a number. *)
Definition well_formed (name_key quantity_key : string) (e : gmap string value) : Prop :=
  (exists s, e !! name_key = Some (VStr s))
  /\ (exists v, e !! quantity_key = Some v /\ numeric v = true).

End Entries.

(* ===================================================================== *)
(** * backend/main.py *)
(* ===================================================================== *)

Module Main.

Local Open Scope string_scope.

(** The request models; the two [type] fields are told apart by a prefix. *)
Record TransportRequest := { mode : string; distance : float }.
Record FoodRequest := { food_type : string; quantity : float }.
Record EnergyRequest := { energy_type : string; kwh : float }.

Record TotalCalculationRequest := {
  transport : list (gmap string Entries.value);
  food : list (gmap string Entries.value);
  energy : list (gmap string Entries.value)
}.

(** The answer [{"carbon_footprint_kg": ...}]. *)
Record FootprintResponse := { carbon_footprint_kg : float }.

Definition transport_emissions (req : TransportRequest) : FootprintResponse :=
  let result := CarbonEngine.calculate_transport_emissions (mode req) (distance req) None in
  {| carbon_footprint_kg := Py.round result 4 |}.

Definition food_emissions (req : FoodRequest) : FootprintResponse :=
  let result := CarbonEngine.calculate_food_emissions (food_type req) (quantity req) None in
  {| carbon_footprint_kg := Py.round result 4 |}.

Definition energy_emissions (req : EnergyRequest) : FootprintResponse :=
  let result := CarbonEngine.calculate_energy_emissions (energy_type req) (kwh req) None in
  {| carbon_footprint_kg := Py.round result 4 |}.

(** No handler catches an exception of the aggregate: [Raises] is answered
    with status 500. *)
Definition total_calculation (req : TotalCalculationRequest)
    : Entries.outcome CarbonEngine.footprint :=
  Entries.calculate_total_footprint (transport req) (food req) (energy req) None.

Definition health : list (string * string) := [ ("status", "ok") ].

End Main.

(* ===================================================================== *)
(** * Further vocabulary *)
(* ===================================================================== *)

Module Props.

(** A factor table whose factors are finite and not negative. *)
Definition good_table (t : gmap string float) : Prop :=
  forall (key : string) (f : float),
    t !! key = Some f -> (0 <=? f)%float = true /\ is_finite f = true.

(** A quantity that is finite and not negative. *)
Definition good_quantity (q : float) : Prop :=
  (0 <=? q)%float = true /\ is_finite q = true.

(** The sign of a number that is not NaN. *)
Definition SFsign (x : spec_float) : option bool :=
  match x with
  | S754_zero s | S754_infinity s | S754_finite s _ _ => Some s
  | S754_nan => None
  end.

(** Not NaN and not below zero ([-0.0] is not below zero). *)
Definition SFnonneg (x : spec_float) : bool :=
  match x with
  | S754_zero _ => true
  | S754_infinity s | S754_finite s _ _ => negb s
  | S754_nan => false
  end.

(** The breakdown component of a category. *)
Definition component (c : Spec.category) (r : CarbonEngine.footprint) : float :=
  match c with
  | Spec.Transport => CarbonEngine.transport (CarbonEngine.breakdown r)
  | Spec.Food => CarbonEngine.food (CarbonEngine.breakdown r)
  | Spec.Energy => CarbonEngine.energy (CarbonEngine.breakdown r)
  end.

(** The float [-0.0]. *)
Definition negative_zero (x : float) : Prop := Prim2SF x = S754_zero true.

(** The exact value of a finite float, in units of [2^-1074] (every finite
    float is a multiple of it); 0 for the others. *)
Definition SFscaled (x : spec_float) : Z :=
  match x with
  | S754_finite s m e => cond_Zopp s (Zpos m) * 2 ^ (e + 1074)
  | _ => 0
  end.

(** Zero, or finite and below [2^b] in magnitude. *)
Definition SFbelow (b : Z) (x : spec_float) : bool :=
  match x with
  | S754_zero _ => true
  | S754_finite _ m e => Zpos (digits2_pos m) + e <=? b
  | _ => false
  end.

Definition below (b : Z) (x : float) : bool := SFbelow b (Prim2SF x).

Definition signed (negative : bool) (n : Z) : Z := if negative then - n else n.

(** The number of units of the last of [nd] decimals in the correctly
    rounded decimal of a finite float. *)
Definition units (nd : Z) (x : spec_float) : Z :=
  match x with
  | S754_finite s m e => signed s (Py.scaled_decimal nd m e)
  | _ => 0
  end.

(** [y] is the decimal [k / 10^nd]: the float nearest to it, a zero of
    either sign when [k] is 0. *)
Definition is_decimal (nd : Z) (y : float) (k : Z) : Prop :=
  (0 <= k /\ y = SF2Prim (Py.SF_of_decimal false k nd))
  \/ (k <= 0 /\ y = SF2Prim (Py.SF_of_decimal true (- k) nd)).

(** The keys of a breakdown, in order. *)
Definition keys (d : RecommendationEngine.dict) : list string := map fst d.

(** The line of the prompt that names a category as the highest
    contributor, with its value. *)
Definition analysis_line (category : string) (value : float) : string :=
  ("- The highest contributor to the user's footprint is **"
   ++ Py.capitalize category ++ "** (" ++ Py.format_2f value ++ " kg CO2e).")%string.

(** The text of the prompt up to the figure of the total. *)
Definition opening : string :=
  RecommendationEngine.unlines
    [ "Act as a Sustainability Expert and Carbon Footprint Consultant.";
      "Your goal is to analyze a user's carbon footprint data and provide actionable, realistic, and prioritized recommendations to reduce their environmental impact.";
      EmptyString;
      "### User Carbon Footprint Data (kg CO2e):";
      "- **Total Footprint**: " ]%string.

(** The text of the prompt after the analysis line. *)
Definition closing : string :=
  RecommendationEngine.unlines
    [ EmptyString;
      "### Task:";
      "Please provide 5–7 specific and realistic recommendations to reduce this carbon footprint. ";
      "For each recommendation, include:";
      "1. **Action**: A clear, actionable step.";
      "2. **Priority**: High, Medium, or Low (based on potential impact and ease of implementation).";
      "3. **Rationale**: A brief explanation of why this helps.";
      EmptyString;
      "### Output Style:";
      "- Use a professional yet encouraging tone.";
      "- Use clear bullet points.";
      "- Ensure recommendations are tailored to the provided data and habits.";
      "- Do not use generic advice; keep it specific to the identified problem areas.";
      EmptyString;
      "Recommendations:" ]%string.

(** The prompt names [category] with [value]: its analysis line, on a line
    of its own, is the one of that category and value, and the closing text
    follows it. *)
Definition names (prompt category : string) (value : float) : Prop :=
  exists before : string,
    prompt = (before ++ RecommendationEngine.newline ++ analysis_line category value
              ++ RecommendationEngine.newline ++ closing)%string.

(** The prompt shows the four figures: it opens with the fixed text, the
    total, and the lines of transport, food and energy. *)
Definition shows (prompt total transport food energy : string) : Prop :=
  exists after : string,
    prompt = (opening ++ total ++ RecommendationEngine.newline
              ++ "- **Transport**: " ++ transport ++ RecommendationEngine.newline
              ++ "- **Food**: " ++ food ++ RecommendationEngine.newline
              ++ "- **Energy**: " ++ energy ++ RecommendationEngine.newline
              ++ after)%string.

End Props.

(* ===================================================================== *)
(** * The built-ins on known values *)
(* ===================================================================== *)

Module PyFacts.

Local Open Scope string_scope.

Example round_half_below : Py.round 2.675 2 = 2.67%float.
Proof. vm_compute. reflexivity. Qed.

Example round_tie_to_even : Py.round 0.125 2 = 0.12%float /\ Py.round 0.375 2 = 0.38%float.
Proof. split; vm_compute; reflexivity. Qed.

Example round_keeps_sign : Py.round (-0.00001) 4 = (-0)%float.
Proof. vm_compute. reflexivity. Qed.

Example round_large : Py.round 1e16 4 = 1e16%float.
Proof. vm_compute. reflexivity. Qed.

Example round_special :
  Py.round infinity 4 = infinity /\ Py.round nan 2 = nan.
Proof. split; vm_compute; reflexivity. Qed.

Example format_2f_values :
  map Py.format_2f [ 87.7; 45.5; 2.675; 0.125; -0.001; 0; 1234.5; infinity; nan ]%float
  = [ "87.70"; "45.50"; "2.67"; "0.12"; "-0.00"; "0.00"; "1234.50"; "inf"; "nan" ].
Proof. vm_compute. reflexivity. Qed.

Example int_truncates :
  Py.int (PyFloat 99.5) = Ok 99 /\ Py.int (PyFloat (-2.5)) = Ok (-2)
  /\ Py.int (PyFloat 1e16) = Ok 10000000000000000.
Proof. repeat split; vm_compute; reflexivity. Qed.

Example int_raises :
  Py.int (PyFloat nan) = Raise Py.ValueError
  /\ Py.int (PyFloat infinity) = Raise Py.OverflowError.
Proof. split; vm_compute; reflexivity. Qed.

Example str_float_values :
  map Py.str_float
      [ 0.1; 12.5; 100; 0.02; 0.0001; 0.00001; 1e15; 1e16; 0.30000000000000004;
        -3.5; neg_zero; infinity; nan ]%float
  = [ "0.1"; "12.5"; "100.0"; "0.02"; "0.0001"; "1e-05"; "1000000000000000.0";
      "1e+16"; "0.30000000000000004"; "-3.5"; "-0.0"; "inf"; "nan" ].
Proof. vm_compute. reflexivity. Qed.

Example lower_values :
  Py.lower "CaR" = "car" /\ Py.lower "Electricity" = "electricity"
  /\ Py.lower "e-bike 2" = "e-bike 2".
Proof. repeat split. Qed.

(** Beyond ASCII: the Kelvin sign U+212A lowers to the letter k, accented
    capitals to their small letters, U+0130 to two code points, and the
    capital sigma to the final or the medial small sigma. *)
Example lower_unicode :
  Py.lower "CHICKEN" = "chicken"
  /\ Py.lower "CAFÉ" = "café"
  /\ Py.lower "İ" = "i̇"
  /\ Py.lower "ΟΔΟΣ ΣΑΣ" = "οδος σας"
  /\ Py.lower "中文 🔥 X" = "中文 🔥 x".
Proof. repeat split; vm_compute; reflexivity. Qed.

Example capitalize_values :
  Py.capitalize "transport" = "Transport" /\ Py.capitalize "N/A" = "N/a".
Proof. split; reflexivity. Qed.

(** Title case of the first code point: a sharp s gives two letters, the
    digraph U+01C6 its title form U+01C5. *)
Example capitalize_unicode :
  Py.capitalize "éTAGE" = "Étage"
  /\ Py.capitalize "ßA" = "Ssa"
  /\ Py.capitalize "ǆ" = "ǅ".
Proof. repeat split; vm_compute; reflexivity. Qed.

Example sum_left_to_right :
  Py.sum [ 0.1; 0.2; 0.3 ]%float = (0.1 + 0.2 + 0.3)%float /\ Py.sum [] = 0%float.
Proof. split; reflexivity. Qed.

Example min_max_values :
  Py.max (PyInt 0) (Py.min (PyInt 100) (PyFloat 63.5)) = PyFloat 63.5
  /\ Py.max (PyInt 0) (Py.min (PyInt 100) (PyFloat 250)) = PyInt 100
  /\ Py.max (PyInt 0) (Py.min (PyInt 100) (PyFloat (-50))) = PyInt 0
  /\ Py.max (PyInt 0) (Py.min (PyInt 100) (PyFloat nan)) = PyInt 100.
Proof. repeat split; vm_compute; reflexivity. Qed.

End PyFacts.

(* ===================================================================== *)
(** * Facts about binary64 numbers *)
(* ===================================================================== *)

Module FloatFacts.

Lemma Prim2SF_zero : Prim2SF 0%float = S754_zero false.
Proof. vm_compute. reflexivity. Qed.

Lemma Prim2SF_hundred :
  Prim2SF 100%float = S754_finite false 7036874417766400 (-46).
Proof. vm_compute. reflexivity. Qed.

Lemma SFcompare_refl (x : spec_float) :
  x <> S754_nan -> SFcompare x x = Some Eq.
Proof.
  destruct x as [s|s| |s m e]; simpl; try congruence; destruct s;
    try reflexivity; intros _;
    rewrite Z.compare_refl, Pos.compare_cont_refl; reflexivity.
Qed.

(** [is_nan] and [is_finite] read on the specification side. *)
Lemma is_nan_spec (x : float) :
  is_nan x = match Prim2SF x with S754_nan => true | _ => false end.
Proof.
  unfold is_nan. rewrite FloatAxioms.eqb_spec. unfold SFeqb.
  destruct (Prim2SF x) as [s|s| |s m e] eqn:E; try reflexivity.
  - destruct s; reflexivity.
  - rewrite SFcompare_refl by discriminate. reflexivity.
Qed.

Lemma is_finite_spec (x : float) :
  is_finite x =
  match Prim2SF x with
  | S754_zero _ | S754_finite _ _ _ => true
  | _ => false
  end.
Proof.
  unfold is_finite, is_infinity. rewrite is_nan_spec, FloatAxioms.eqb_spec, abs_spec.
  replace (Prim2SF infinity) with (S754_infinity false) by (vm_compute; reflexivity).
  destruct (Prim2SF x) as [s|s| |s m e]; reflexivity.
Qed.

(** Every mantissa of a binary64 number has at most 53 bits. *)
Lemma digits2_pos_bound (m : positive) : Zpos m < 2 ^ Zpos (digits2_pos m).
Proof.
  induction m as [m IH|m IH|]; simpl digits2_pos.
  - rewrite Pos2Z.inj_succ, Z.pow_succ_r by lia. lia.
  - rewrite Pos2Z.inj_succ, Z.pow_succ_r by lia. lia.
  - reflexivity.
Qed.

Lemma valid_mantissa_bound (s : bool) (m : positive) (e : Z) :
  valid_binary (S754_finite s m e) = true -> Zpos m < 9007199254740992.
Proof.
  simpl. unfold bounded, canonical_mantissa, fexp.
  rewrite andb_true_iff, Z.eqb_eq. intros [Hc _].
  pose proof (digits2_pos_bound m) as Hd.
  assert (Zpos (digits2_pos m) <= 53) as Hle by (unfold prec in Hc; lia).
  change 9007199254740992 with (2 ^ 53).
  eapply Z.lt_le_trans; [exact Hd|].
  apply Z.pow_le_mono_r; [reflexivity|exact Hle].
Qed.

(** ** The order of [SFcompare] *)

Ltac split_compares :=
  repeat match goal with
    | |- context [Z.compare ?x ?y] => destruct (Z.compare_spec x y)
    | |- context [Pos.compare_cont Eq ?x ?y] =>
        change (Pos.compare_cont Eq x y) with (Pos.compare x y);
        destruct (Pos.compare_spec x y)
    end.

Lemma SFcompare_antisym (x y : spec_float) (c : comparison) :
  SFcompare x y = Some c -> SFcompare y x = Some (CompOpp c).
Proof.
  destruct x as [sx|sx| |sx mx ex], y as [sy|sy| |sy my ey]; simpl;
    try discriminate;
    try destruct sx; try destruct sy; simpl;
    try (intros [= <-]; reflexivity).
  all: split_compares; simpl; intros [= <-]; simpl; try reflexivity; lia.
Qed.

Lemma SFleb_SFltb_trans (a b c : spec_float) :
  SFleb a b = true -> SFltb b c = true -> SFltb a c = true.
Proof.
  unfold SFleb, SFltb.
  destruct a as [sa|sa| |sa ma ea], b as [sb|sb| |sb mb eb], c as [sc|sc| |sc mc ec];
    simpl; try discriminate;
    try destruct sa; try destruct sb; try destruct sc; simpl;
    try discriminate; try reflexivity.
  all: split_compares; simpl; intros; try discriminate; try reflexivity; lia.
Qed.

Lemma SFltb_finite_pos (m1 : positive) (e1 : Z) (m2 : positive) (e2 : Z) :
  SFltb (S754_finite false m1 e1) (S754_finite false m2 e2) = true ->
  e1 < e2 \/ (e1 = e2 /\ Zpos m1 < Zpos m2).
Proof.
  unfold SFltb, SFcompare.
  destruct (Z.compare_spec e1 e2) as [He|He|He]; try discriminate; [|lia].
  destruct (Pos.compare_cont Eq m1 m2) eqn:Hm; try discriminate.
  intros _. right. split; [exact He|]. apply Pos2Z.pos_lt_pos. exact Hm.
Qed.

(** ** The same facts on primitive floats *)

Lemma ltb_of_leb_false (a b : float) :
  (a <=? b)%float = true -> (b <? a)%float = false.
Proof.
  rewrite FloatAxioms.leb_spec, FloatAxioms.ltb_spec. unfold SFleb, SFltb.
  destruct (SFcompare (Prim2SF a) (Prim2SF b)) as [c|] eqn:Hc; [|discriminate].
  rewrite (SFcompare_antisym _ _ _ Hc). destruct c; easy.
Qed.

Lemma ltb_negb_leb (a b : float) :
  is_nan a = false -> is_nan b = false ->
  (b <? a)%float = negb (a <=? b)%float.
Proof.
  rewrite !is_nan_spec, FloatAxioms.leb_spec, FloatAxioms.ltb_spec. unfold SFleb, SFltb.
  intros Ha Hb.
  destruct (SFcompare (Prim2SF a) (Prim2SF b)) as [c|] eqn:Hc.
  - rewrite (SFcompare_antisym _ _ _ Hc). destruct c; reflexivity.
  - destruct (Prim2SF a), (Prim2SF b); simpl in Hc; discriminate.
Qed.

Lemma leb_ltb_trans (a b c : float) :
  (a <=? b)%float = true -> (b <? c)%float = true -> (a <? c)%float = true.
Proof. rewrite FloatAxioms.leb_spec, !FloatAxioms.ltb_spec. apply SFleb_SFltb_trans. Qed.

Lemma ltb_leb (a b : float) :
  (a <? b)%float = true -> (a <=? b)%float = true.
Proof.
  rewrite FloatAxioms.leb_spec, FloatAxioms.ltb_spec. unfold SFleb, SFltb.
  destruct (SFcompare (Prim2SF a) (Prim2SF b)) as [[]|]; easy.
Qed.

Lemma leb_not_nan (a b : float) :
  (a <=? b)%float = true -> is_nan a = false /\ is_nan b = false.
Proof.
  rewrite !is_nan_spec, FloatAxioms.leb_spec. unfold SFleb.
  destruct (Prim2SF a), (Prim2SF b); simpl; try discriminate; auto.
Qed.

Lemma ltb_trans (a b c : float) :
  (a <? b)%float = true -> (b <? c)%float = true -> (a <? c)%float = true.
Proof. intros Hab. apply leb_ltb_trans, ltb_leb, Hab. Qed.

Lemma leb_of_ltb_false (a b : float) :
  is_nan a = false -> is_nan b = false ->
  (a <? b)%float = false -> (b <=? a)%float = true.
Proof.
  intros Ha Hb H. rewrite (ltb_negb_leb b a Hb Ha) in H.
  destruct (b <=? a)%float; [reflexivity|discriminate].
Qed.

(** ** Decimal rounding in exact arithmetic *)

Lemma round_half_even_error (a d : Z) :
  0 < d -> 2 * Z.abs (a - d * Py.round_half_even a d) <= d.
Proof.
  intros Hd. unfold Py.round_half_even.
  pose proof (Z.div_mod a d ltac:(lia)) as Ha.
  pose proof (Z.mod_pos_bound a d Hd) as Hr.
  destruct (Z.compare_spec (2 * (a mod d)) d) as [H|H|H];
    [destruct (Z.even (a / d))| |]; lia.
Qed.

(** Rounding a sum of three amounts and summing the three rounded amounts
    differ by at most two units. *)
Lemma round_half_even_sum3 (a1 a2 a3 d : Z) :
  0 < d ->
  Z.abs (Py.round_half_even (a1 + a2 + a3) d
         - (Py.round_half_even a1 d + Py.round_half_even a2 d
            + Py.round_half_even a3 d))
  <= 2.
Proof.
  intros Hd.
  pose proof (round_half_even_error (a1 + a2 + a3) d Hd).
  pose proof (round_half_even_error a1 d Hd).
  pose proof (round_half_even_error a2 d Hd).
  pose proof (round_half_even_error a3 d Hd).
  nia.
Qed.

(** ** Multiplication by the factor 0.0 *)

Lemma mul_zero_finite (q : float) :
  is_finite q = true -> (q * 0 = 0 \/ q * 0 = -0)%float.
Proof.
  rewrite is_finite_spec. intros Hf.
  assert (exists s, Prim2SF (q * 0)%float = S754_zero s) as [s Hs].
  { rewrite mul_spec, Prim2SF_zero.
    destruct (Prim2SF q) as [s|s| |s m e]; try discriminate; simpl; eauto. }
  rewrite <- (SF2Prim_Prim2SF (q * 0)%float), Hs.
  destruct s; simpl; auto.
Qed.

Lemma mul_zero_not_finite (q : float) :
  is_finite q = false -> (q * 0)%float = nan.
Proof.
  rewrite is_finite_spec. intros Hf.
  rewrite <- (SF2Prim_Prim2SF (q * 0)%float), mul_spec, Prim2SF_zero.
  destruct (Prim2SF q) as [s|s| |s m e]; try discriminate; reflexivity.
Qed.

(** ** Truncation of a float strictly between 0 and 100 *)

Lemma trunc_between (raw : float) :
  (0 <? raw)%float = true -> (raw <? 100)%float = true ->
  exists n, Py.SFtrunc (Prim2SF raw) = Ok n /\ 0 <= n < 100.
Proof.
  rewrite 2!FloatAxioms.ltb_spec, Prim2SF_zero, Prim2SF_hundred.
  pose proof (Prim2SF_valid raw) as Hv.
  destruct (Prim2SF raw) as [s|s| |s m e]; try (destruct s; discriminate);
    [discriminate|].
  destruct s; [discriminate|]. intros _ Hlt.
  apply valid_mantissa_bound in Hv.
  apply SFltb_finite_pos in Hlt.
  unfold Py.SFtrunc.
  assert ((0 <=? e) = false) as -> by lia.
  eexists; split; [reflexivity|].
  assert (0 < 2 ^ (- e)) as Hpos by (apply Z.pow_pos_nonneg; lia).
  split; [apply Z.div_pos; lia|].
  apply Z.div_lt_upper_bound; [lia|].
  destruct Hlt as [He|[-> Hm]].
  - assert (2 ^ 47 <= 2 ^ (- e)) as Hp by (apply Z.pow_le_mono_r; lia).
    change (2 ^ 47) with 140737488355328 in Hp. lia.
  - change (2 ^ (- -46)) with 70368744177664. lia.
Qed.

End FloatFacts.

(* ===================================================================== *)
(** * Emission calculators *)
(* ===================================================================== *)

Module CarbonEngineFacts.

Import Spec CarbonEngine.

Lemma default_table_keys (c : category) (key : string) :
  key ∈ dom (DEFAULT_EMISSION_FACTORS !!! category_key c) ->
  exists f, In (key, f) (documented_factors c).
Proof.
  destruct c; vm_compute category_key.
  - replace (DEFAULT_EMISSION_FACTORS !!! "transport"%string)
      with ({[ "car"%string := 0.17%float; "bus"%string := 0.08%float;
               "train"%string := 0.03%float; "flight"%string := 0.24%float ]}
             : gmap string float) by reflexivity.
    rewrite !dom_insert_L, ?dom_singleton_L. set_unfold. simpl.
    intuition (subst; eauto 10).
  - replace (DEFAULT_EMISSION_FACTORS !!! "food"%string)
      with ({[ "beef"%string := 27.0%float; "chicken"%string := 6.9%float;
               "dairy"%string := 1.9%float; "vegetables"%string := 0.4%float;
               "rice"%string := 2.7%float ]}
             : gmap string float) by reflexivity.
    rewrite !dom_insert_L, ?dom_singleton_L. set_unfold. simpl.
    intuition (subst; eauto 10).
  - replace (DEFAULT_EMISSION_FACTORS !!! "energy"%string)
      with ({[ "electricity"%string := 0.45%float; "gas"%string := 0.18%float ]}
             : gmap string float) by reflexivity.
    rewrite !dom_insert_L, ?dom_singleton_L. set_unfold. simpl.
    intuition (subst; eauto 10).
Qed.

Lemma documented_factor_lookup (c : category) (key : string) (f : float) :
  In (key, f) (documented_factors c) ->
  factor_of (DEFAULT_EMISSION_FACTORS !!! category_key c) key = f.
Proof.
  destruct c; simpl; intros H;
    repeat destruct H as [[= <- <-]|H]; try contradiction; reflexivity.
Qed.

(** Each calculator multiplies the quantity by the factor found in the
    applicable table under the lower-cased type, 0.0 when it is absent. *)
Lemma emissions_unfold (c : category) (activity : string) (q : float)
    (factors : option (gmap string float)) :
  emissions c activity q factors
  = (q * factor_of (applicable_table c factors) (Py.lower activity))%float.
Proof. destruct c, factors; reflexivity. Qed.

Lemma factor_of_absent (t : gmap string float) (key : string) :
  key ∉ dom t -> factor_of t key = 0%float.
Proof.
  intros H. apply not_elem_of_dom in H. unfold factor_of. rewrite H. reflexivity.
Qed.

(** Every documented factor is the binary64 number nearest to its decimal. *)
Lemma documented_factors_decimal :
  map (fun kf => Prim2SF (snd kf)) (documented_factors Transport ++
                                    documented_factors Food ++
                                    documented_factors Energy)
  = map (fun nd => SFdiv prec emax (S754_finite false (fst nd) 0)
                                   (S754_finite false (snd nd) 0))
        [ (17, 100); (8, 100); (3, 100); (24, 100);
          (27, 1); (69, 10); (19, 10); (4, 10); (27, 10);
          (45, 100); (18, 100) ]%positive.
Proof. vm_compute. reflexivity. Qed.

(** C1. For every activity type whose lower-cased form is a key of the
    default table of its category, and every quantity (in particular every
    non-negative one), the calculator called without a custom table returns
    the quantity times the documented factor of that type.  The match is the
    one of [str.lower]: it ignores the case of every letter, not only of the
    ASCII ones. *)
Theorem C1_default_factor_product (c : category) (activity : string) (q : float) :
  Py.lower activity ∈ dom (DEFAULT_EMISSION_FACTORS !!! category_key c) ->
  exists f, In (Py.lower activity, f) (documented_factors c)
            /\ emissions c activity q None = (q * f)%float.
Proof.
  intros Hkey.
  destruct (default_table_keys c _ Hkey) as [f Hf].
  exists f. split; [exact Hf|].
  rewrite emissions_unfold. simpl applicable_table.
  rewrite (documented_factor_lookup c _ f Hf). reflexivity.
Qed.

Lemma C1_witness :
  (exists f, In ("car"%string, f) (documented_factors Transport)
             /\ calculate_transport_emissions "CaR" 12.5%float None = (12.5 * f)%float)
  /\ (exists f, In ("chicken"%string, f) (documented_factors Food)
                /\ calculate_food_emissions "CHICKEN" 2%float None = (2 * f)%float).
Proof.
  split.
  - apply (C1_default_factor_product Transport "CaR" 12.5%float).
    vm_compute. reflexivity.
  - apply (C1_default_factor_product Food "CHICKEN" 2%float).
    vm_compute. reflexivity.
Defined.

(** The type written with the Kelvin sign U+212A for its K is chicken. *)
Example kelvin_sign_is_k :
  calculate_food_emissions "chicKen" 2%float None = 13.8%float.
Proof. vm_compute. reflexivity. Qed.

(** An infinite or NaN quantity of an unknown type gives NaN. *)
Lemma unknown_type_not_finite (c : category) (activity : string) (q : float)
    (factors : option (gmap string float)) :
  Py.lower activity ∉ dom (applicable_table c factors) ->
  is_finite q = false ->
  emissions c activity q factors = nan.
Proof.
  intros Hkey Hq. rewrite emissions_unfold, (factor_of_absent _ _ Hkey).
  apply FloatFacts.mul_zero_not_finite, Hq.
Qed.

(** C2 (amended). For every activity type whose lower-cased form is not a
    key of the applicable table (default or custom), the calculator returns:
    for a finite quantity, negative ones included, a zero ([0.0], or [-0.0]
    which compares equal to it); for an infinite or NaN quantity, NaN, which
    is not equal to [0.0].  The calculators are total functions: no call
    raises. *)
Theorem C2_unknown_type_zero_or_nan (c : category) (activity : string) (q : float)
    (factors : option (gmap string float)) :
  Py.lower activity ∉ dom (applicable_table c factors) ->
  (is_finite q = true ->
   (emissions c activity q factors = 0%float
    \/ emissions c activity q factors = (-0)%float)
   /\ (emissions c activity q factors =? 0)%float = true)
  /\ (is_finite q = false ->
      emissions c activity q factors = nan
      /\ (emissions c activity q factors =? 0)%float = false).
Proof.
  intros Hkey. split; intros Hq.
  - rewrite emissions_unfold, (factor_of_absent _ _ Hkey).
    destruct (FloatFacts.mul_zero_finite q Hq) as [-> | ->]; split; auto.
  - rewrite (unknown_type_not_finite c activity q factors Hkey Hq).
    split; reflexivity.
Qed.

Lemma C2_witness :
  ((calculate_food_emissions "Tofu" (-3.5)%float None = 0%float
    \/ calculate_food_emissions "Tofu" (-3.5)%float None = (-0)%float)
   /\ (calculate_food_emissions "Tofu" (-3.5)%float None =? 0)%float = true)
  /\ calculate_energy_emissions "Solar" neg_infinity None = nan.
Proof.
  split.
  - apply (C2_unknown_type_zero_or_nan Food "Tofu" (-3.5)%float None).
    + vm_compute. intros H. discriminate H.
    + vm_compute. reflexivity.
  - apply (C2_unknown_type_zero_or_nan Energy "Solar" neg_infinity None).
    + vm_compute. intros H. discriminate H.
    + vm_compute. reflexivity.
Defined.

(** A transport mode that the default table does not list, with the
    distance infinity (the JSON number 1e999): the result is NaN, not 0.0. *)
Lemma C2_counterexample :
  (Py.lower "scooter" ∉ dom (applicable_table Transport None))
  /\ calculate_transport_emissions "scooter" infinity None = nan
  /\ (calculate_transport_emissions "scooter" infinity None =? 0)%float = false.
Proof.
  split; [vm_compute; intros H; discriminate H|].
  split; vm_compute; reflexivity.
Qed.

(** ** The aggregate *)

(** With short decimals: a total of 0.0001 against components that are
    all 0.0. *)
Lemma total_above_rounded_components :
  total_kg_co2e (calculate_total_footprint Samples.small_transport
                   Samples.small_food Samples.small_energy None)
  = 0.0001%float
  /\ breakdown (calculate_total_footprint Samples.small_transport
                  Samples.small_food Samples.small_energy None)
     = {| transport := 0.0; food := 0.0; energy := 0.0 |}.
Proof. split; vm_compute; reflexivity. Qed.

(** In exact arithmetic two units are reached: 0.5 + 0.5 + 0.5. *)
Lemma round_half_even_sum3_tight :
  Py.round_half_even (5 + 5 + 5) 10
  - (Py.round_half_even 5 10 + Py.round_half_even 5 10 + Py.round_half_even 5 10)
  = 2.
Proof. reflexivity. Qed.

End CarbonEngineFacts.

(* ===================================================================== *)
(** * Scoring, streaks, badges and levels *)
(* ===================================================================== *)

Module GamificationFacts.

Import Gamification.

Lemma to_float_0 : Py.to_float (PyInt 0) = 0%float.
Proof. vm_compute. reflexivity. Qed.

Lemma to_float_100 : Py.to_float (PyInt 100) = 100%float.
Proof. vm_compute. reflexivity. Qed.

Lemma zero_lt_hundred : (0 <? 100)%float = true.
Proof. vm_compute. reflexivity. Qed.

(** The score by cases on the raw score, as the code computes it. *)
Lemma daily_score_cases (x : float) :
  calculate_daily_score x =
    if (raw_score x <? 100)%float
    then if (0 <? raw_score x)%float
         then Py.SFtrunc (Prim2SF (raw_score x))
         else Ok 0
    else Ok 100.
Proof.
  unfold calculate_daily_score, Py.min, Py.max.
  rewrite to_float_0, to_float_100.
  change (Py.to_float (PyFloat (raw_score x))) with (raw_score x).
  destruct (raw_score x <? 100)%float.
  - change (Py.to_float (PyFloat (raw_score x))) with (raw_score x).
    destruct (0 <? raw_score x)%float; reflexivity.
  - rewrite to_float_100, zero_lt_hundred. reflexivity.
Qed.

(** The score is total, lies in [0, 100], and is the clamped raw score
    truncated toward zero. *)
Lemma daily_score_spec (x : float) :
  exists n : Z,
    calculate_daily_score x = Ok n
    /\ 0 <= n <= 100
    /\ ((100 <=? raw_score x)%float = true -> n = 100)
    /\ ((raw_score x <=? 0)%float = true -> n = 0)
    /\ ((0 <? raw_score x)%float = true -> (raw_score x <? 100)%float = true ->
        Py.int (PyFloat (raw_score x)) = Ok n)
    /\ (is_nan (raw_score x) = true -> n = 100).
Proof.
  rewrite daily_score_cases.
  assert (Hnan : forall b : bool,
             is_nan (raw_score x) = true -> (raw_score x <? 100)%float = b ->
             b = false).
  { intros b H <-. rewrite FloatFacts.is_nan_spec in H.
    rewrite FloatAxioms.ltb_spec.
    destruct (Prim2SF (raw_score x)); try discriminate. reflexivity. }
  destruct (raw_score x <? 100)%float eqn:H100.
  - destruct (0 <? raw_score x)%float eqn:H0.
    + destruct (FloatFacts.trunc_between _ H0 H100) as (n & Hn & Hr).
      exists n.
      split; [exact Hn|]. split; [lia|].
      split; [|split; [|split]].
      * intros H. apply FloatFacts.ltb_of_leb_false in H. congruence.
      * intros H. apply FloatFacts.ltb_of_leb_false in H. congruence.
      * intros _ _. exact Hn.
      * intros H. discriminate (Hnan true H eq_refl).
    + exists 0.
      split; [reflexivity|]. split; [lia|].
      split; [|split; [|split]].
      * intros H. apply FloatFacts.ltb_of_leb_false in H. congruence.
      * reflexivity.
      * intros H. discriminate H.
      * intros H. discriminate (Hnan true H eq_refl).
  - exists 100.
    split; [reflexivity|]. split; [lia|].
    split; [|split; [|split]].
    + reflexivity.
    + intros H.
      pose proof (FloatFacts.leb_ltb_trans (raw_score x) 0 100 H zero_lt_hundred).
      congruence.
    + intros _ H. discriminate H.
    + reflexivity.
Qed.

(** C3. The daily score is computed from
    [raw = 100 - total_carbon_kg * (100 / 20.0)]: it is 100 when
    [100 <= raw], 0 when [raw <= 0], and [raw] truncated toward zero when
    [0 < raw < 100]; for every float (NaN, whose score is 100, and the
    infinities included) the call returns an integer between 0 and 100;
    the scores of 0, 10, 20 and 30 kg are 100, 50, 0 and 0. *)
Theorem C3_daily_score :
  (forall x : float,
      let raw := (100 - x * (100 / 20.0))%float in
      exists n : Z,
        calculate_daily_score x = Ok n
        /\ 0 <= n <= 100
        /\ ((100 <=? raw)%float = true -> n = 100)
        /\ ((raw <=? 0)%float = true -> n = 0)
        /\ ((0 <? raw)%float = true -> (raw <? 100)%float = true ->
            Py.int (PyFloat raw) = Ok n)
        /\ (is_nan raw = true -> n = 100))
  /\ calculate_daily_score 0 = Ok 100
  /\ calculate_daily_score 10 = Ok 50
  /\ calculate_daily_score 20 = Ok 0
  /\ calculate_daily_score 30 = Ok 0.
Proof.
  split; [|repeat split; vm_compute; reflexivity].
  intros x raw. exact (daily_score_spec x).
Qed.

(** 63.5 is truncated, not rounded. *)
Example daily_score_truncates : calculate_daily_score 7.3 = Ok 63.
Proof. vm_compute. reflexivity. Qed.

Lemma C3_witness :
  exists n : Z,
    calculate_daily_score 7.3 = Ok n /\ 0 <= n <= 100
    /\ Py.int (PyFloat (100 - 7.3 * (100 / 20.0))%float) = Ok n.
Proof.
  destruct (proj1 C3_daily_score 7.3%float) as (n & Hs & Hr & _ & _ & Hi & _).
  exists n. split; [exact Hs|]. split; [exact Hr|].
  apply Hi; vm_compute; reflexivity.
Defined.

(** ** Streaks *)

Lemma streak_bonus_lookup (n : Z) :
  STREAK_BONUS_MILESTONES !! n =
    if decide (n = 3) then Some 50 else if decide (n = 7) then Some 150 else None.
Proof.
  unfold STREAK_BONUS_MILESTONES.
  destruct (decide (n = 3)) as [->|H3]; [reflexivity|].
  rewrite lookup_insert_ne by congruence.
  destruct (decide (n = 7)) as [->|H7]; [reflexivity|].
  apply lookup_singleton_ne. congruence.
Qed.

(** C4. The bonus is an exact-match look-up: 50 for 3 active days, 150 for
    7, and 0 for every other count (8 or 10 included); the status uses the
    master-streak wording with the day count from 7 days on, the on-fire
    wording from 3 to 6 days, and the keep-it-up wording below. *)
Theorem C4_weekly_streak (n : Z) :
  (n = 3 -> snd (calculate_weekly_streak n) = 50)
  /\ (n = 7 -> snd (calculate_weekly_streak n) = 150)
  /\ (n <> 3 -> n <> 7 -> snd (calculate_weekly_streak n) = 0)
  /\ (7 <= n ->
      fst (calculate_weekly_streak n)
      = ("🔥 Master Streak: " ++ pretty n ++ " days!")%string)
  /\ (3 <= n < 7 ->
      fst (calculate_weekly_streak n)
      = ("✨ On Fire: " ++ pretty n ++ " days!")%string)
  /\ (n < 3 ->
      fst (calculate_weekly_streak n)
      = ("Keep it up: " ++ pretty n ++ " days")%string).
Proof.
  unfold calculate_weekly_streak. cbn [fst snd].
  rewrite streak_bonus_lookup.
  repeat split.
  - intros ->. reflexivity.
  - intros ->. reflexivity.
  - intros H3 H7. rewrite !decide_False by assumption. reflexivity.
  - intros H. destruct (Z.leb_spec 7 n); [reflexivity|lia].
  - intros H. destruct (Z.leb_spec 7 n); [lia|].
    destruct (Z.leb_spec 3 n); [reflexivity|lia].
  - intros H. destruct (Z.leb_spec 7 n); [lia|].
    destruct (Z.leb_spec 3 n); [lia|reflexivity].
Qed.

Lemma C4_witness :
  calculate_weekly_streak 3 = ("✨ On Fire: 3 days!"%string, 50)
  /\ calculate_weekly_streak 7 = ("🔥 Master Streak: 7 days!"%string, 150)
  /\ calculate_weekly_streak 10 = ("🔥 Master Streak: 10 days!"%string, 0)
  /\ calculate_weekly_streak 8 = ("🔥 Master Streak: 8 days!"%string, 0)
  /\ calculate_weekly_streak 2 = ("Keep it up: 2 days"%string, 0).
Proof.
  pose proof (C4_weekly_streak 3) as (B3 & _ & _ & _ & S3 & _).
  pose proof (C4_weekly_streak 7) as (_ & B7 & _ & S7 & _ & _).
  pose proof (C4_weekly_streak 10) as (_ & _ & B10 & S10 & _ & _).
  pose proof (C4_weekly_streak 8) as (_ & _ & B8 & S8 & _ & _).
  pose proof (C4_weekly_streak 2) as (_ & _ & B2 & _ & _ & S2).
  repeat split; apply injective_projections; cbn [fst snd];
    first [ apply B3 | apply B7 | apply B10 | apply B8 | apply B2
          | rewrite S3 by lia | rewrite S7 by lia | rewrite S10 by lia
          | rewrite S8 by lia | rewrite S2 by lia ];
    solve [ reflexivity | lia ].
Defined.

(** ** Badges *)

(** The loop appends, in catalog order, the entry of every definition that
    passes the test. *)
Lemma badges_loop_filter (defs : list badge_def) (streak_days : Z)
    (transport_kg energy_kwh : float) (earned : list badge) :
  badges_loop defs streak_days transport_kg energy_kwh earned
  = earned ++ map earned_entry
                (List.filter (fun b => is_earned b streak_days transport_kg energy_kwh)
                             defs).
Proof.
  revert earned. induction defs as [|b rest IH]; intros earned; simpl.
  - rewrite app_nil_r. reflexivity.
  - rewrite IH. destruct (is_earned b streak_days transport_kg energy_kwh); simpl.
    + rewrite <- app_assoc. reflexivity.
    + reflexivity.
Qed.

(** On numbers, failing no test is satisfying every declared threshold. *)
Lemma is_earned_satisfied (b : badge_def) (streak_days : Z)
    (transport_kg energy_kwh : float) :
  is_nan transport_kg = false -> is_nan energy_kwh = false ->
  (forall mx, transport_max b = Some mx -> is_nan mx = false) ->
  (forall mx, energy_max b = Some mx -> is_nan mx = false) ->
  is_earned b streak_days transport_kg energy_kwh
  = Spec.threshold_satisfied streak_days transport_kg energy_kwh b.
Proof.
  intros Ht He Hbt Hbe. unfold is_earned, Spec.threshold_satisfied.
  destruct (transport_max b) as [tm|]; destruct (min_streak b) as [ms|];
    destruct (energy_max b) as [em|];
    rewrite ?(FloatFacts.ltb_negb_leb transport_kg tm Ht (Hbt _ eq_refl)),
            ?(FloatFacts.ltb_negb_leb energy_kwh em He (Hbe _ eq_refl)),
            ?(Z.ltb_antisym ms streak_days);
    repeat match goal with
      | |- context [(?a <=? ?b)%float] => destruct (a <=? b)%float
      | |- context [(?a <=? ?b)%Z] => destruct (a <=? b)%Z
      end; reflexivity.
Qed.

Lemma catalog_thresholds_are_numbers (b : badge_def) :
  In b BADGE_DEFINITIONS ->
  (forall mx, transport_max b = Some mx -> is_nan mx = false)
  /\ (forall mx, energy_max b = Some mx -> is_nan mx = false).
Proof.
  simpl. intros [<-|[<-|[<-|[]]]]; split; intros mx [= <-]; reflexivity.
Qed.

(** [total_carbon_kg] is not read. *)
Lemma get_badges_ignores_total (total total' : float) (streak_days : Z)
    (transport_kg energy_kwh : float) :
  get_badges total streak_days transport_kg energy_kwh
  = get_badges total' streak_days transport_kg energy_kwh.
Proof. reflexivity. Qed.

Lemma is_earned_not_violated (b : badge_def) (streak_days : Z)
    (transport_kg energy_kwh : float) :
  is_earned b streak_days transport_kg energy_kwh
  = Spec.no_threshold_violated streak_days transport_kg energy_kwh b.
Proof.
  unfold is_earned, Spec.no_threshold_violated.
  destruct (transport_max b) as [tm|]; destruct (min_streak b) as [ms|];
    destruct (energy_max b) as [em|];
    repeat match goal with
      | |- context [(?a <? ?b)%float] => destruct (a <? b)%float
      | |- context [(?a <? ?b)%Z] => destruct (a <? b)%Z
      end; reflexivity.
Qed.

(** C5 (amended). For all inputs [get_badges] returns, in catalog order,
    exactly the catalog badges none of whose declared thresholds is violated
    (the transport kg do not exceed [transport_max], the streak days are not
    below [min_streak], the energy kWh do not exceed [energy_max]), and the
    result does not depend on [total_carbon_kg]; when the transport and
    energy metrics are numbers these are the badges whose every declared
    threshold is satisfied; 10 kg, a 7-day streak, 2 kg of transport and
    5 kWh earn Green Traveler, Eco Warrior and Energy Saver. *)
Theorem C5_badges :
  (forall (total : float) (streak_days : Z) (transport_kg energy_kwh : float),
      get_badges total streak_days transport_kg energy_kwh
      = map earned_entry
          (List.filter (Spec.no_threshold_violated streak_days transport_kg energy_kwh)
                       BADGE_DEFINITIONS))
  /\ (forall (total : float) (streak_days : Z) (transport_kg energy_kwh : float),
         is_nan transport_kg = false -> is_nan energy_kwh = false ->
         get_badges total streak_days transport_kg energy_kwh
         = map earned_entry
             (List.filter (Spec.threshold_satisfied streak_days transport_kg energy_kwh)
                          BADGE_DEFINITIONS))
  /\ (forall (total total' : float) (streak_days : Z) (transport_kg energy_kwh : float),
         get_badges total streak_days transport_kg energy_kwh
         = get_badges total' streak_days transport_kg energy_kwh)
  /\ map badge_name (get_badges 10 7 2 5)
     = ["Green Traveler"; "Eco Warrior"; "Energy Saver"]%string.
Proof.
  split; [|split; [|split]].
  - intros total streak_days transport_kg energy_kwh.
    unfold get_badges. rewrite badges_loop_filter. cbn [app]. f_equal.
    apply filter_ext_in. intros b _. apply is_earned_not_violated.
  - intros total streak_days transport_kg energy_kwh Ht He.
    unfold get_badges. rewrite badges_loop_filter. cbn [app]. f_equal.
    apply filter_ext_in. intros b Hb.
    destruct (catalog_thresholds_are_numbers b Hb) as [Hbt Hbe].
    apply is_earned_satisfied; assumption.
  - intros. apply get_badges_ignores_total.
  - vm_compute. reflexivity.
Qed.

Lemma C5_witness :
  get_badges 10 7 2 5
  = map earned_entry
      (List.filter (Spec.threshold_satisfied 7 2 5) BADGE_DEFINITIONS)
  /\ map badge_id (get_badges 3 2 6.5 9)
     = map id (List.filter (Spec.threshold_satisfied 2 6.5 9) BADGE_DEFINITIONS).
Proof.
  split.
  - apply (proj1 (proj2 C5_badges) 10%float 7 2%float 5%float); vm_compute; reflexivity.
  - rewrite (proj1 (proj2 C5_badges) 3%float 2 6.5%float 9%float); vm_compute; reflexivity.
Defined.

(** A transport metric that is NaN: Green Traveler is returned although
    [nan <= 5.0] is false, so that the badges are not those whose every
    declared threshold is satisfied. *)
Lemma C5_counterexample :
  map badge_id (get_badges 10 0 nan 50) = ["green_traveler"]%string
  /\ (nan <=? 5.0)%float = false
  /\ List.filter (Spec.threshold_satisfied 0 nan 50) BADGE_DEFINITIONS = []
  /\ get_badges 10 0 nan 50
     <> map earned_entry
          (List.filter (Spec.threshold_satisfied 0 nan 50) BADGE_DEFINITIONS).
Proof.
  repeat split; try (vm_compute; reflexivity).
  vm_compute. intros H. discriminate H.
Qed.

(** A transport or energy metric that is NaN fails no test. *)
Lemma nan_metric_earns_badge :
  map badge_id (get_badges 0 0 nan nan) = ["green_traveler"; "low_utility"]%string.
Proof. vm_compute. reflexivity. Qed.

(** ** Levels *)

Lemma LEVELS_ascending : Spec.ascending LEVELS.
Proof.
  unfold Spec.ascending, LEVELS.
  repeat (constructor; [|repeat (constructor; [simpl; lia|]); constructor]).
  constructor.
Qed.

(** On an ascending table the scan either finds every threshold above the
    points and keeps [current], or stops on the entry of the highest
    threshold that does not exceed the points, at position [i + k + 1]. *)
Lemma level_loop_spec (levels : list (Z * string)) :
  Spec.ascending levels ->
  forall (i points : Z) (current : string * Z),
    ((forall t n, In (t, n) levels -> points < t)
     /\ level_loop levels i points current = current)
    \/ (exists (k : nat) (t : Z),
          nth_error levels k = Some (t, fst (level_loop levels i points current))
          /\ snd (level_loop levels i points current) = i + Z.of_nat k + 1
          /\ t <= points
          /\ forall t' n', In (t', n') levels -> t' <= points -> t' <= t).
Proof.
  induction 1 as [|[t name] rest Hsorted IH Hhead]; intros i points current.
  - left. split; [intros t n []|reflexivity].
  - rewrite Stdlib.Lists.List.Forall_forall in Hhead. cbn [level_loop].
    destruct (Z.leb_spec t points) as [Hle|Hgt].
    + right. destruct (IH (i + 1) points (name, i + 1)) as [[Habove ->]|Hfound].
      * exists 0%nat, t. cbn [nth_error fst snd]. repeat split; try lia.
        intros t' n' [[= <- <-]|Hin] Ht'; [lia|].
        specialize (Habove _ _ Hin). lia.
      * destruct Hfound as (k & t0 & Hnth & Hnum & Hle0 & Hmax).
        exists (S k), t0. cbn [nth_error]. repeat split; try assumption; try lia.
        intros t' n' [[= <- <-]|Hin] Ht'; [|eauto].
        apply nth_error_In in Hnth. specialize (Hhead _ Hnth). simpl in Hhead. lia.
    + left. split; [|reflexivity].
      intros t' n' [[= <- <-]|Hin]; [lia|].
      specialize (Hhead _ Hin). simpl in Hhead. lia.
Qed.

Lemma get_progress_level_loop (points : Z) :
  level_name (get_progress_level points)
  = fst (level_loop LEVELS 0 points ("Seedling"%string, 1))
  /\ level_number (get_progress_level points)
     = snd (level_loop LEVELS 0 points ("Seedling"%string, 1))
  /\ total_points (get_progress_level points) = points.
Proof.
  unfold get_progress_level. cbn [LEVELS].
  destruct (level_loop _ 0 points _) as [n k]. repeat split.
Qed.

(** C6. The level is the entry of the highest threshold of the table
    (0 Seedling, 500 Sapling, 1500 Oak, 3000 Forest Guardian, 5000 Planet
    Hero) that does not exceed the points, and the level number is its
    1-based position; below the first threshold the level is the first
    entry's name with number 1; 2000 points are level 3, Oak. *)
Theorem C6_progress_level (points : Z) :
  LEVELS = [ (0, "Seedling"); (500, "Sapling"); (1500, "Oak");
             (3000, "Forest Guardian"); (5000, "Planet Hero") ]%string
  /\ total_points (get_progress_level points) = points
  /\ (points < 0 ->
      level_name (get_progress_level points) = "Seedling"%string
      /\ level_number (get_progress_level points) = 1)
  /\ (0 <= points ->
      exists t : Z,
        1 <= level_number (get_progress_level points)
        /\ nth_error LEVELS (Z.to_nat (level_number (get_progress_level points) - 1))
           = Some (t, level_name (get_progress_level points))
        /\ t <= points
        /\ forall t' n', In (t', n') LEVELS -> t' <= points -> t' <= t)
  /\ level_name (get_progress_level 2000) = "Oak"%string
  /\ level_number (get_progress_level 2000) = 3.
Proof.
  destruct (get_progress_level_loop points) as (-> & -> & Htot).
  split; [reflexivity|]. split; [exact Htot|].
  split; [|split; [|split; reflexivity]].
  - intros Hneg. cbn [LEVELS level_loop].
    destruct (Z.leb_spec 0 points); [lia|]. split; reflexivity.
  - intros Hpos.
    destruct (level_loop_spec LEVELS LEVELS_ascending 0 points ("Seedling"%string, 1))
      as [[Habove _]|(k & t & Hnth & Hnum & Hle & Hmax)].
    + specialize (Habove 0 "Seedling"%string (or_introl eq_refl)). lia.
    + exists t. rewrite Hnum.
      replace (Z.to_nat (0 + Z.of_nat k + 1 - 1)) with k by lia.
      repeat split; try assumption; lia.
Qed.

Lemma C6_witness :
  level_name (get_progress_level 2000) = "Oak"%string
  /\ level_number (get_progress_level 2000) = 3
  /\ level_name (get_progress_level (-5)) = "Seedling"%string
  /\ level_number (get_progress_level (-5)) = 1
  /\ exists t : Z,
       nth_error LEVELS (Z.to_nat (level_number (get_progress_level 2000) - 1))
       = Some (t, level_name (get_progress_level 2000))
       /\ t <= 2000.
Proof.
  pose proof (C6_progress_level 2000) as (_ & _ & _ & H & Hn & Hk).
  pose proof (C6_progress_level (-5)) as (_ & _ & Hneg & _).
  destruct (H ltac:(lia)) as (t & _ & Hnth & Hle & _).
  destruct (Hneg ltac:(lia)) as [Hs H1].
  repeat split; try assumption. exists t. split; assumption.
Defined.

End GamificationFacts.

(* ===================================================================== *)
(** * The recommendation prompt *)
(* ===================================================================== *)

Module RecommendationFacts.

Import RecommendationEngine.
Local Open Scope string_scope.

Definition is_number (kv : string * float) : Prop := is_nan (snd kv) = false.

(** The scan returns the first entry of greatest value: every entry
    before it is strictly smaller, every entry after it is at most
    equal. *)
Lemma max_scan_first_greatest (rest : dict) :
  forall best : string * float,
    Forall is_number (best :: rest) ->
    exists l1 l2 : dict,
      best :: rest = (l1 ++ max_scan best rest :: l2)%list
      /\ Forall (fun kv => (snd kv <? snd (max_scan best rest))%float = true) l1
      /\ Forall (fun kv => (snd kv <=? snd (max_scan best rest))%float = true) l2.
Proof.
  induction rest as [|kv rest IH]; intros best Hnum.
  - exists [], []. repeat split; constructor.
  - inversion Hnum as [|? ? Hb Hrest]; subst.
    inversion Hrest as [|? ? Hkv Hrest']; subst.
    cbn [max_scan]. destruct (snd best <? snd kv)%float eqn:Hlt.
    + destruct (IH kv Hrest) as (l1 & l2 & Heq & H1 & H2).
      exists (best :: l1), l2. split; [simpl; f_equal; exact Heq|].
      split; [|exact H2]. constructor; [|exact H1].
      destruct l1 as [|x l1].
      * injection Heq as <- _. exact Hlt.
      * injection Heq as <- _. inversion H1; subst.
        eapply FloatFacts.ltb_trans; eassumption.
    + assert (Hle : (snd kv <=? snd best)%float = true)
        by (apply FloatFacts.leb_of_ltb_false; assumption).
      assert (Hnum' : Forall is_number (best :: rest)) by (constructor; assumption).
      destruct (IH best Hnum') as (l1 & l2 & Heq & H1 & H2).
      destruct l1 as [|x l1].
      * injection Heq as Hr Hl2. exists [], (kv :: l2).
        split; [simpl; rewrite <- Hr, <- Hl2; reflexivity|].
        split; [constructor|]. constructor; [|exact H2].
        rewrite <- Hr. exact Hle.
      * injection Heq as <- Hl. inversion H1 as [|? ? Hbr H1']; subst.
        exists (best :: kv :: l1), l2.
        split; [simpl; rewrite <- Hl; reflexivity|].
        split; [|exact H2]. constructor; [exact Hbr|].
        constructor; [|exact H1'].
        eapply FloatFacts.leb_ltb_trans; eassumption.
Qed.

(** ** The text of the prompt *)

Lemma append_assoc (a b c : string) : ((a ++ b) ++ c = a ++ (b ++ c))%string.
Proof.
  induction a as [|x a IH]; [reflexivity|].
  change (String x ((a ++ b) ++ c) = String x (a ++ (b ++ c)))%string.
  rewrite IH. reflexivity.
Qed.

Lemma unlines_cons (l : string) (rest : list string) :
  rest <> [] -> unlines (l :: rest) = (l ++ newline ++ unlines rest)%string.
Proof. destruct rest; [contradiction|reflexivity]. Qed.

Lemma unlines_app (l1 l2 : list string) :
  l1 <> [] -> l2 <> [] ->
  unlines (l1 ++ l2)%list = (unlines l1 ++ newline ++ unlines l2)%string.
Proof.
  intros H1 H2. induction l1 as [|l l1 IH]; [contradiction|].
  destruct l1 as [|l' l1].
  - cbn [app]. apply unlines_cons, H2.
  - change ((l :: l' :: l1) ++ l2)%list with (l :: ((l' :: l1) ++ l2))%list.
    rewrite unlines_cons by discriminate. rewrite IH by discriminate.
    rewrite (unlines_cons l (l' :: l1)) by discriminate.
    rewrite !append_assoc. reflexivity.
Qed.

(** The prompt that the function returns names the category and the value
    that it has computed. *)
Lemma prompt_names (bd : dict) (activity_summary : string) :
  Props.names (build_recommendation_prompt bd activity_summary)
              (highest_category bd) (highest_value bd).
Proof.
  exists (unlines (firstn 13 (prompt_lines bd activity_summary))).
  unfold build_recommendation_prompt.
  rewrite <- (firstn_skipn 13 (prompt_lines bd activity_summary)) at 1.
  rewrite unlines_app.
  - reflexivity.
  - unfold prompt_lines. cbv zeta. cbn [firstn]. discriminate.
  - unfold prompt_lines. cbv zeta. cbn [skipn]. discriminate.
Qed.

(** The prompt that the function returns shows the four figures of the
    breakdown, 0 standing for a missing key. *)
Lemma prompt_shows (bd : dict) (activity_summary : string) :
  Props.shows (build_recommendation_prompt bd activity_summary)
              (Py.format_2f (dict_get bd "total" 0))
              (Py.format_2f (dict_get bd "transport" 0))
              (Py.format_2f (dict_get bd "food" 0))
              (Py.format_2f (dict_get bd "energy" 0)).
Proof.
  exists (unlines (skipn 8 (prompt_lines bd activity_summary))).
  unfold build_recommendation_prompt.
  rewrite <- (firstn_skipn 8 (prompt_lines bd activity_summary)) at 1.
  rewrite unlines_app.
  - rewrite <- (firstn_skipn 4 (firstn 8 (prompt_lines bd activity_summary))).
    rewrite unlines_app.
    + unfold Props.opening.
      change [ "Act as a Sustainability Expert and Carbon Footprint Consultant.";
               "Your goal is to analyze a user's carbon footprint data and provide actionable, realistic, and prioritized recommendations to reduce their environmental impact.";
               EmptyString;
               "### User Carbon Footprint Data (kg CO2e):";
               "- **Total Footprint**: " ]
        with ([ "Act as a Sustainability Expert and Carbon Footprint Consultant.";
                "Your goal is to analyze a user's carbon footprint data and provide actionable, realistic, and prioritized recommendations to reduce their environmental impact.";
                EmptyString;
                "### User Carbon Footprint Data (kg CO2e):" ]
                ++ [ "- **Total Footprint**: " ])%list.
      rewrite unlines_app by discriminate.
      unfold prompt_lines. cbv zeta. cbn [firstn skipn].
      rewrite !unlines_cons by discriminate. cbn [unlines].
      rewrite !append_assoc. reflexivity.
    + unfold prompt_lines. cbv zeta. cbn [firstn]. discriminate.
    + unfold prompt_lines. cbv zeta. cbn [firstn skipn]. discriminate.
  - unfold prompt_lines. cbv zeta. cbn [firstn]. discriminate.
  - unfold prompt_lines. cbv zeta. cbn [skipn]. discriminate.
Qed.

(** ** The category that the prompt names *)

(** C8 (amended). For a breakdown with the keys transport, food, energy
    (and total) in that order, the prompt that [build_recommendation_prompt]
    returns names the category chosen by a scan from left to right that
    replaces its choice only by a strictly greater value ([total] is not
    compared); when the three values are numbers this category has the
    greatest of the three values and every category before it in the order
    is strictly smaller, so that ties go to the first key; the sample
    breakdown (45.5, 12.2, 30.0, total 87.7) names Transport. *)
Theorem C8_highest_category (t f e tot : float) (activity_summary : string) :
  let bd := [ ("transport", t); ("food", f); ("energy", e); ("total", tot) ] in
  (exists (c : string) (v : float),
      Props.names (build_recommendation_prompt bd activity_summary) c v
      /\ ((c = "transport" /\ v = t
           /\ (t <? f)%float = false /\ (t <? e)%float = false)
          \/ (c = "food" /\ v = f
              /\ (t <? f)%float = true /\ (f <? e)%float = false)
          \/ (c = "energy" /\ v = e
              /\ (if (t <? f)%float then (f <? e)%float else (t <? e)%float) = true))
      /\ (is_nan t = false -> is_nan f = false -> is_nan e = false ->
          (c = "transport" /\ (f <=? t)%float = true /\ (e <=? t)%float = true)
          \/ (c = "food" /\ (t <? f)%float = true /\ (e <=? f)%float = true)
          \/ (c = "energy" /\ (t <? e)%float = true /\ (f <? e)%float = true)))
  /\ Props.names (build_recommendation_prompt Samples.sample_breakdown
                                              Samples.sample_summary)
                 "transport" 45.5
  /\ Props.analysis_line "transport" 45.5
     = "- The highest contributor to the user's footprint is **Transport** (45.50 kg CO2e).".
Proof.
  intros bd.
  split; [|split; [exact (prompt_names Samples.sample_breakdown Samples.sample_summary)
                  |vm_compute; reflexivity]].
  exists (highest_category bd), (highest_value bd).
  split; [apply prompt_names|].
  assert (Hc : (highest_category bd, highest_value bd)
               = (if (t <? f)%float
                  then if (f <? e)%float then ("energy", e) else ("food", f)
                  else if (t <? e)%float then ("energy", e) else ("transport", t))).
  { unfold highest_value, highest_category.
    change (categories bd) with [ ("transport", t); ("food", f); ("energy", e) ].
    cbn [max_scan snd].
    destruct (t <? f)%float; cbn [snd]; destruct (_ <? e)%float; reflexivity. }
  destruct (t <? f)%float eqn:Htf.
  - destruct (f <? e)%float eqn:Hfe; injection Hc as -> ->.
    + split; [right; right; repeat split; assumption|].
      intros Ht Hf He. right; right. repeat split; try assumption.
      eapply FloatFacts.ltb_trans; eassumption.
    + split; [right; left; repeat split; assumption|].
      intros Ht Hf He. right; left. repeat split; try assumption.
      apply FloatFacts.leb_of_ltb_false; assumption.
  - destruct (t <? e)%float eqn:Hte; injection Hc as -> ->.
    + split; [right; right; repeat split; assumption|].
      intros Ht Hf He. right; right. repeat split; try assumption.
      eapply FloatFacts.leb_ltb_trans; [|eassumption].
      apply FloatFacts.leb_of_ltb_false; assumption.
    + split; [left; repeat split; assumption|].
      intros Ht Hf He. left. repeat split;
        apply FloatFacts.leb_of_ltb_false; assumption.
Qed.

Lemma C8_witness :
  exists (c : string) (v : float),
    Props.names (build_recommendation_prompt
                   [ ("transport", 3.5%float); ("food", 3.5%float);
                     ("energy", 1.0%float); ("total", 8.0%float) ] "two equal")
                c v
    /\ c = "transport".
Proof.
  destruct (C8_highest_category 3.5 3.5 1.0 8.0 "two equal")
    as [(c & v & Hn & _ & Hnum) _].
  exists c, v. split; [exact Hn|].
  destruct (Hnum eq_refl eq_refl eq_refl) as [H|[H|H]].
  - apply H.
  - destruct H as (_ & H & _). vm_compute in H. discriminate H.
  - destruct H as (_ & H & _). vm_compute in H. discriminate H.
Defined.

(** A transport value that is NaN: the prompt names Transport, although
    food, 5.0, is the numerically largest value and is not at most NaN. *)
Lemma C8_counterexample :
  Props.names (build_recommendation_prompt
                 [ ("transport", nan); ("food", 5.0%float);
                   ("energy", 1.0%float); ("total", 6.0%float) ] EmptyString)
              "transport" nan
  /\ Props.analysis_line "transport" nan
     = "- The highest contributor to the user's footprint is **Transport** (nan kg CO2e)."
  /\ (5.0 <=? nan)%float = false
  /\ (1.0 <=? 5.0)%float = true.
Proof.
  split; [|repeat split; vm_compute; reflexivity].
  exact (prompt_names [ ("transport", nan); ("food", 5.0%float);
                        ("energy", 1.0%float); ("total", 6.0%float) ] EmptyString).
Qed.

(** A tie between transport and food names transport. *)
Lemma tie_goes_to_first_key :
  highest_category [ ("transport", 3.5%float); ("food", 3.5%float);
                     ("energy", 1.0%float); ("total", 8.0%float) ] = "transport".
Proof. vm_compute. reflexivity. Qed.

(** A NaN in first position is never replaced. *)
Lemma nan_first_is_named :
  highest_category [ ("transport", nan); ("food", 5.0%float);
                     ("energy", 1.0%float); ("total", 6.0%float) ] = "transport".
Proof. vm_compute. reflexivity. Qed.

End RecommendationFacts.

(* ===================================================================== *)
(** * The integrated demo flow *)
(* ===================================================================== *)

Module DemoFacts.

Import DemoApi.
Local Open Scope string_scope.

(** The handler never takes the [except] branch, and what it returns. *)
Lemma run_integrated_demo_ok (req : DemoRunRequest) :
  exists n : Z,
    Gamification.calculate_daily_score (total_emission_of req) = Ok n
    /\ 0 <= n <= 100
    /\ run_integrated_demo req
       = Ok {| transport_emission := Py.round (transport_emission_of req) 4;
               food_emission := Py.round (food_emission_of req) 4;
               energy_emission := Py.round (energy_emission_of req) 4;
               total_emission := Py.round (total_emission_of req) 4;
               daily_score := n;
               badges := demo_badges req;
               recommendation_prompt :=
                 RecommendationEngine.build_recommendation_prompt
                   (breakdown req) (habit_summary req) |}.
Proof.
  destruct (GamificationFacts.daily_score_spec (total_emission_of req))
    as (n & Hn & Hr & _).
  exists n. split; [exact Hn|]. split; [exact Hr|].
  unfold run_integrated_demo. rewrite Hn. reflexivity.
Qed.

Example habit_summary_small_request :
  habit_summary Samples.small_request
  = "I traveled 0.02km by car, consumed 0.001kg of rice, and used 0.01kWh of electricity.".
Proof. vm_compute. reflexivity. Qed.

Example demo_small_request_scores :
  exists resp : DemoRunResponse,
    run_integrated_demo Samples.small_request = Ok resp
    /\ daily_score resp = 99
    /\ total_emission resp = 0.0106%float
    /\ map Gamification.badge_name (badges resp) = [ "Green Traveler"; "Energy Saver" ].
Proof. eexists. split; [vm_compute; reflexivity|]. repeat split. Qed.

(** C9 (amended). For every demo request, the [total] of the breakdown
    handed to the prompt builder is the sum of the three unrounded
    category emissions, rounded to 2 decimals after the sum; the three
    category entries are the emissions rounded to 2 decimals each; the
    prompt displays that total to 2 decimals. *)
Theorem C9_prompt_total_from_unrounded (req : DemoRunRequest) :
  let te := transport_emission_of req in
  let fe := food_emission_of req in
  let ee := energy_emission_of req in
  breakdown req = [ ("transport", Py.round te 2); ("food", Py.round fe 2);
                    ("energy", Py.round ee 2);
                    ("total", Py.round (te + fe + ee) 2) ]
  /\ RecommendationEngine.dict_get (breakdown req) "total" 0
     = Py.round (te + fe + ee) 2
  /\ (exists resp : DemoRunResponse,
        run_integrated_demo req = Ok resp
        /\ recommendation_prompt resp
           = RecommendationEngine.build_recommendation_prompt
               (breakdown req) (habit_summary req)
        /\ total_emission resp = Py.round (te + fe + ee) 4)
  /\ nth_error (RecommendationEngine.prompt_lines
                  (breakdown req) (habit_summary req)) 4
     = Some ("- **Total Footprint**: "
             ++ Py.format_2f (Py.round (te + fe + ee) 2)).
Proof.
  cbv zeta. split; [reflexivity|]. split; [reflexivity|]. split; [|reflexivity].
  destruct (run_integrated_demo_ok req) as (n & _ & _ & Hrun).
  eexists. split; [exact Hrun|]. split; reflexivity.
Qed.

(** The category emissions round to 0.00 each, their sum is 0.0, and the
    breakdown total is 0.01. *)
Lemma C9_counterexample :
  RecommendationEngine.dict_get (breakdown Samples.small_request) "total" 0
  = 0.01%float
  /\ (Py.round (transport_emission_of Samples.small_request) 2
      + Py.round (food_emission_of Samples.small_request) 2
      + Py.round (energy_emission_of Samples.small_request) 2)%float
     = 0.0%float
  /\ (RecommendationEngine.dict_get (breakdown Samples.small_request) "total" 0
      =? Py.round (transport_emission_of Samples.small_request) 2
         + Py.round (food_emission_of Samples.small_request) 2
         + Py.round (energy_emission_of Samples.small_request) 2)%float
     = false
  /\ firstn 4 (skipn 4 (RecommendationEngine.prompt_lines
                          (breakdown Samples.small_request) EmptyString))
     = [ "- **Total Footprint**: 0.01"; "- **Transport**: 0.00";
         "- **Food**: 0.00"; "- **Energy**: 0.00" ].
Proof. repeat split; vm_compute; reflexivity. Qed.

(** With a streak of one day the Eco Warrior test fails, whatever the
    other metrics. *)
Lemma eco_warrior_needs_streak (transport_kg energy_kwh : float) (b : Gamification.badge) :
  In b (Gamification.get_badges 0 1 transport_kg energy_kwh) ->
  Gamification.badge_id b <> "eco_warrior".
Proof.
  unfold Gamification.get_badges. rewrite GamificationFacts.badges_loop_filter.
  cbn [app Gamification.BADGE_DEFINITIONS List.filter Gamification.is_earned
       Gamification.transport_max Gamification.min_streak Gamification.energy_max].
  change (1 <? 7)%Z with true. cbv iota.
  destruct (5 <? transport_kg)%float; destruct (10 <? energy_kwh)%float;
    cbn [map In]; intros H;
    repeat destruct H as [<-|H]; try contradiction; discriminate.
Qed.

(** C10. Every demo request is answered with a composite object whose
    badges, computed with the fixed streak of 1 day against Eco Warrior's
    threshold of 7, never contain the badge with id [eco_warrior]. *)
Theorem C10_demo_never_eco_warrior (req : DemoRunRequest) :
  exists resp : DemoRunResponse,
    run_integrated_demo req = Ok resp
    /\ badges resp
       = Gamification.get_badges (total_emission_of req) 1
           (transport_emission_of req) (energy_kwh req)
    /\ (forall b, In b (badges resp) -> Gamification.badge_id b <> "eco_warrior")
    /\ (forall d, In d Gamification.BADGE_DEFINITIONS ->
                  Gamification.id d = "eco_warrior" ->
                  Gamification.min_streak d = Some 7).
Proof.
  destruct (run_integrated_demo_ok req) as (n & _ & _ & Hrun).
  eexists. split; [exact Hrun|]. cbn [badges]. split; [reflexivity|]. split.
  - intros b Hb. eapply eco_warrior_needs_streak.
    rewrite (GamificationFacts.get_badges_ignores_total 0 (total_emission_of req)).
    exact Hb.
  - intros d [<-|[<-|[<-|[]]]]; cbn; intros H; first [discriminate H|reflexivity].
Qed.

Lemma C10_witness :
  exists resp : DemoRunResponse,
    run_integrated_demo Samples.small_request = Ok resp
    /\ ~ In "eco_warrior" (map Gamification.badge_id (badges resp)).
Proof.
  destruct (C10_demo_never_eco_warrior Samples.small_request)
    as (resp & Hrun & _ & Hnot & _).
  exists resp. split; [exact Hrun|].
  intros Hin. apply in_map_iff in Hin. destruct Hin as (b & Hid & Hb).
  exact (Hnot b Hb Hid).
Defined.

End DemoFacts.

(* ===================================================================== *)
(** * Signs through rounding *)
(* ===================================================================== *)

Module FloatSignFacts.

Import Props.

Lemma shr_1_nonneg (r : shr_record) : 0 <= shr_m r -> 0 <= shr_m (shr_1 r).
Proof.
  destruct r as [m b1 b2]. simpl. intros Hm.
  destruct m as [|[p|p|]|p]; simpl; lia.
Qed.

Lemma iter_pos_invariant {A} (P : A -> Prop) (f : A -> A) :
  (forall a, P a -> P (f a)) ->
  forall (n : positive) (a : A), P a -> P (SpecFloat.iter_pos f n a).
Proof.
  intros Hf. induction n as [n IH|n IH|]; intros a Ha; simpl; auto.
Qed.

Lemma shr_nonneg (r : shr_record) (e n : Z) :
  0 <= shr_m r -> 0 <= shr_m (fst (shr r e n)).
Proof.
  intros Hr. destruct n as [|p|p]; simpl; try exact Hr.
  apply (iter_pos_invariant (fun r => 0 <= shr_m r)); [apply shr_1_nonneg|exact Hr].
Qed.

Lemma shr_record_of_loc_m (m : Z) (l : location) : shr_m (shr_record_of_loc m l) = m.
Proof. destruct l as [|[]]; reflexivity. Qed.

Lemma shr_fexp_nonneg (m e : Z) (l : location) :
  0 <= m -> 0 <= shr_m (fst (shr_fexp prec emax m e l)).
Proof.
  intros Hm. unfold shr_fexp. apply shr_nonneg. rewrite shr_record_of_loc_m. exact Hm.
Qed.

Lemma round_nearest_even_nonneg (m : Z) (l : location) :
  0 <= m -> 0 <= round_nearest_even m l.
Proof.
  intros Hm. destruct l as [|[]]; simpl; try lia. destruct (Z.even m); lia.
Qed.

(** Rounding a magnitude keeps the sign it is given and never gives NaN. *)
Lemma binary_round_aux_sign (s : bool) (mx ex : Z) (lx : location) :
  0 <= mx -> SFsign (binary_round_aux prec emax s mx ex lx) = Some s.
Proof.
  intros Hm. unfold binary_round_aux.
  pose proof (shr_fexp_nonneg mx ex lx Hm) as H1.
  destruct (shr_fexp prec emax mx ex lx) as [mrs' e']. simpl in H1.
  pose proof (shr_fexp_nonneg _ e' loc_Exact
                (round_nearest_even_nonneg _ (loc_of_shr_record mrs') H1)) as H2.
  destruct (shr_fexp prec emax _ e' loc_Exact) as [mrs'' e'']. simpl in H2.
  destruct (shr_m mrs'') as [|m|m]; [reflexivity| |lia].
  destruct (e'' <=? emax - prec); reflexivity.
Qed.

Lemma binary_round_aux_opp (s : bool) (mx ex : Z) (lx : location) :
  binary_round_aux prec emax (negb s) mx ex lx
  = SFopp (binary_round_aux prec emax s mx ex lx).
Proof.
  unfold binary_round_aux.
  destruct (shr_fexp prec emax mx ex lx) as [mrs' e'].
  destruct (shr_fexp prec emax _ e' loc_Exact) as [mrs'' e''].
  destruct (shr_m mrs'') as [|m|m]; try reflexivity.
  destruct (e'' <=? emax - prec); reflexivity.
Qed.

Lemma SFmul_opp (x y : spec_float) :
  SFmul prec emax (SFopp x) y = SFopp (SFmul prec emax x y).
Proof.
  destruct x as [sx|sx| |sx mx ex], y as [sy|sy| |sy my ey]; simpl;
    try reflexivity; try (destruct sx, sy; reflexivity).
  rewrite <- binary_round_aux_opp. destruct sx, sy; reflexivity.
Qed.

Lemma mul_opp (x y : float) : (- x * y = - (x * y))%float.
Proof.
  apply Prim2SF_inj.
  rewrite FloatAxioms.opp_spec, !FloatAxioms.mul_spec, FloatAxioms.opp_spec.
  apply SFmul_opp.
Qed.

Lemma leb_zero_spec (x : float) : (0 <=? x)%float = SFnonneg (Prim2SF x).
Proof.
  rewrite FloatAxioms.leb_spec, FloatFacts.Prim2SF_zero.
  destruct (Prim2SF x) as [s|s| |s m e]; try reflexivity; destruct s; reflexivity.
Qed.

Lemma SFnonneg_sign (x : spec_float) : SFsign x = Some false -> SFnonneg x = true.
Proof. destruct x as [s|s| |s m e]; simpl; intros [= ->]; reflexivity. Qed.

Lemma SFmul_nonneg (x y : spec_float) :
  SFnonneg x = true -> SFnonneg y = true ->
  (forall s, x <> S754_infinity s) -> (forall s, y <> S754_infinity s) ->
  SFnonneg (SFmul prec emax x y) = true.
Proof.
  intros Hx Hy Hfx Hfy.
  destruct x as [sx|sx| |sx mx ex]; try discriminate;
    [|exfalso; eapply Hfx; reflexivity|];
    (destruct y as [sy|sy| |sy my ey]; try discriminate;
     [|exfalso; eapply Hfy; reflexivity|]);
    try reflexivity.
  simpl in Hx, Hy. destruct sx, sy; try discriminate.
  apply SFnonneg_sign. unfold SFmul. apply binary_round_aux_sign. lia.
Qed.

Lemma binary_normalize_nonneg (m e : Z) :
  0 <= m -> SFsign (binary_normalize prec emax m e false) = Some false.
Proof.
  intros Hm. destruct m as [|p|p]; [reflexivity| |lia].
  unfold binary_normalize, binary_round.
  destruct (shl_align p e _) as [mz ez]. apply binary_round_aux_sign. lia.
Qed.

Lemma SFadd_nonneg (x y : spec_float) :
  SFnonneg x = true -> SFnonneg y = true -> SFnonneg (SFadd prec emax x y) = true.
Proof.
  intros Hx Hy.
  destruct x as [sx|sx| |sx mx ex]; try discriminate;
    destruct y as [sy|sy| |sy my ey]; try discriminate;
    simpl in Hx, Hy; try (destruct sx; try discriminate);
    try (destruct sy; try discriminate); try reflexivity.
  apply SFnonneg_sign. unfold SFadd. apply binary_normalize_nonneg.
  cbn [cond_Zopp]. lia.
Qed.

Lemma SFdiv_core_nonneg (m1 e1 m2 e2 : Z) :
  0 <= m1 -> 0 < m2 -> 0 <= fst (fst (SFdiv_core_binary prec emax m1 e1 m2 e2)).
Proof.
  intros H1 H2. unfold SFdiv_core_binary.
  set (s := e1 - e2 - _).
  set (m' := match s with Z0 => m1 | Zpos _ => Z.shiftl m1 s | Zneg _ => 0 end).
  assert (Hm' : 0 <= m').
  { subst m'. destruct s; try lia. apply Z.shiftl_nonneg. exact H1. }
  pose proof (Z.div_pos m' m2 Hm' H2) as Hq. unfold Z.div in Hq.
  destruct (Z.div_eucl m' m2) as [q r]. exact Hq.
Qed.

Lemma SFround_nonneg (nd : Z) (x : spec_float) :
  SFnonneg x = true -> SFnonneg (Py.SFround nd x) = true.
Proof.
  destruct x as [s|s| |s m e]; simpl; try (intros H; exact H).
  destruct s; [discriminate|]. intros _.
  unfold Py.SF_of_decimal. destruct (Py.scaled_decimal nd m e) as [|p|p]; try reflexivity.
  apply SFnonneg_sign. unfold SFdiv.
  pose proof (SFdiv_core_nonneg (Zpos p) 0 (Zpos (Z.to_pos (10 ^ nd))) 0
                ltac:(lia) ltac:(lia)) as Hq.
  destruct (SFdiv_core_binary _ _ _ _ _ _) as [[mz ez] lz]. simpl in Hq.
  apply binary_round_aux_sign. exact Hq.
Qed.

Lemma SFldexp_sign (x : spec_float) (e : Z) (s : bool) :
  SFsign x = Some s -> SFsign (SFldexp prec emax x e) = Some s.
Proof.
  destruct x as [sx|sx| |sx mx ex]; simpl; try (intros H; exact H).
  intros [= ->]. unfold binary_round.
  destruct (shl_align mx (ex + e) _) as [mz ez]. apply binary_round_aux_sign. lia.
Qed.

Lemma SF2Prim_nonneg (y : spec_float) :
  SFnonneg y = true -> SFnonneg (Prim2SF (SF2Prim y)) = true.
Proof.
  destruct y as [s|s| |s m e]; simpl SFnonneg.
  - intros _. destruct s; vm_compute; reflexivity.
  - destruct s; [discriminate|]. intros _. vm_compute. reflexivity.
  - discriminate.
  - destruct s; [discriminate|]. intros _. unfold SF2Prim.
    rewrite Z_ldexp_spec. apply SFnonneg_sign, SFldexp_sign.
    rewrite FloatAxioms.of_uint63_spec. apply binary_normalize_nonneg.
    apply Uint63.to_Z_bounded.
Qed.

Lemma round_nonneg (x : float) (nd : Z) :
  (0 <=? x)%float = true -> (0 <=? Py.round x nd)%float = true.
Proof.
  rewrite !leb_zero_spec. intros Hx. unfold Py.round.
  apply SF2Prim_nonneg, SFround_nonneg, Hx.
Qed.

Lemma add_nonneg (x y : float) :
  (0 <=? x)%float = true -> (0 <=? y)%float = true -> (0 <=? x + y)%float = true.
Proof.
  rewrite !leb_zero_spec, FloatAxioms.add_spec. apply SFadd_nonneg.
Qed.

Lemma mul_nonneg (x y : float) :
  (0 <=? x)%float = true -> is_finite x = true ->
  (0 <=? y)%float = true -> is_finite y = true ->
  (0 <=? x * y)%float = true.
Proof.
  rewrite !leb_zero_spec, !FloatFacts.is_finite_spec, FloatAxioms.mul_spec.
  intros Hx Hfx Hy Hfy. apply SFmul_nonneg; try assumption.
  - intros s E. rewrite E in Hfx. discriminate.
  - intros s E. rewrite E in Hfy. discriminate.
Qed.

Lemma fold_add_nonneg (xs : list float) (acc : float) :
  (0 <=? acc)%float = true ->
  Forall (fun x => (0 <=? x)%float = true) xs ->
  (0 <=? fold_left (fun acc x => (acc + x)%float) xs acc)%float = true.
Proof.
  revert acc. induction xs as [|x xs IH]; intros acc Hacc Hxs; simpl; [exact Hacc|].
  inversion Hxs; subst. apply IH; [apply add_nonneg|]; assumption.
Qed.

Lemma sum_nonneg (xs : list float) :
  Forall (fun x => (0 <=? x)%float = true) xs -> (0 <=? Py.sum xs)%float = true.
Proof. apply fold_add_nonneg. reflexivity. Qed.

(** [0.0 + x] is [x], except that [0.0 + -0.0] is [0.0]. *)
Lemma zero_add (x : float) :
  Prim2SF x <> S754_zero true -> (0 + x)%float = x.
Proof.
  intros Hx. apply Prim2SF_inj. rewrite FloatAxioms.add_spec, FloatFacts.Prim2SF_zero.
  destruct (Prim2SF x) as [s|s| |s m e]; try reflexivity.
  destruct s; [congruence|reflexivity].
Qed.

End FloatSignFacts.

(* ===================================================================== *)
(** * The error of a rounded sum *)
(* ===================================================================== *)

(** Rounding a magnitude to binary64 moves it by less than two units of the
    last place of the result; a float sum is the rounded exact sum. *)

Module FloatErrorFacts.

Import Props.

(** The weight of the exponent [e], in units of [2^-1074]. *)
Definition P (e : Z) : Z := 2 ^ (e + 1074).

Lemma digits2_upper (p : positive) : Zpos p < 2 ^ Zpos (digits2_pos p).
Proof.
  induction p as [p IH|p IH|]; simpl digits2_pos;
    rewrite ?Pos2Z.inj_succ, ?Z.pow_succ_r by lia; lia.
Qed.

Lemma digits2_lower (p : positive) : 2 ^ (Zpos (digits2_pos p) - 1) <= Zpos p.
Proof.
  induction p as [p IH|p IH|]; simpl digits2_pos.
  - rewrite Pos2Z.inj_succ.
    replace (Z.succ (Zpos (digits2_pos p)) - 1) with (Z.succ (Zpos (digits2_pos p) - 1)) by lia.
    rewrite Z.pow_succ_r by lia. lia.
  - rewrite Pos2Z.inj_succ.
    replace (Z.succ (Zpos (digits2_pos p)) - 1) with (Z.succ (Zpos (digits2_pos p) - 1)) by lia.
    rewrite Z.pow_succ_r by lia. lia.
  - simpl. lia.
Qed.

Lemma Zdigits2_le (m k : Z) : 0 <= m -> 0 <= k -> m < 2 ^ k -> Zdigits2 m <= k.
Proof.
  intros Hm Hk Hlt. destruct m as [|p|p]; simpl; [lia| |lia].
  pose proof (digits2_lower p) as Hl.
  destruct (Z_le_gt_dec (Zpos (digits2_pos p)) k) as [H|H]; [exact H|].
  assert (2 ^ k <= 2 ^ (Zpos (digits2_pos p) - 1)) by (apply Z.pow_le_mono_r; lia).
  lia.
Qed.

Lemma Zdigits2_nonneg (m : Z) : 0 <= Zdigits2 m.
Proof. destruct m; simpl; lia. Qed.

Lemma Zdigits2_lt (m : Z) : 0 <= m -> m < 2 ^ Zdigits2 m.
Proof.
  intros Hm. destruct m as [|p|p]; simpl; [lia|apply digits2_upper|lia].
Qed.

(** Shifting a magnitude right drops its low bits. *)
Lemma shr_1_div2 (r : shr_record) : 0 <= shr_m r -> shr_m (shr_1 r) = shr_m r / 2.
Proof.
  destruct r as [m b1 b2]. simpl. intros Hm.
  destruct m as [|[p|p|]|p]; cbn [shr_m]; try lia; try reflexivity.
  - apply Z.div_unique with (r := 1); lia.
  - apply Z.div_unique with (r := 0); lia.
Qed.

Lemma iter_shr_div (n : positive) (r : shr_record) :
  0 <= shr_m r -> shr_m (SpecFloat.iter_pos shr_1 n r) = shr_m r / 2 ^ Zpos n.
Proof.
  revert r. induction n as [n IH|n IH|]; intros r Hr; simpl SpecFloat.iter_pos.
  - assert (H1 : 0 <= shr_m (shr_1 r)) by (rewrite shr_1_div2 by lia; apply Z.div_pos; lia).
    assert (H2 : 0 <= shr_m (SpecFloat.iter_pos shr_1 n (shr_1 r))).
    { rewrite IH by lia. apply Z.div_pos; [lia|]. apply Z.pow_pos_nonneg; lia. }
    rewrite IH by lia. rewrite IH by lia. rewrite shr_1_div2 by lia.
    assert (Hp : 0 < 2 ^ Zpos n) by (apply Z.pow_pos_nonneg; lia).
    assert (Hpow : 2 ^ Zpos n~1 = 2 * 2 ^ Zpos n * 2 ^ Zpos n).
    { rewrite (Pos2Z.inj_xI n).
      replace (2 * Zpos n + 1) with (1 + Zpos n + Zpos n) by lia.
      rewrite 2!Z.pow_add_r by lia. reflexivity. }
    rewrite Hpow. rewrite !Z.div_div by lia. f_equal. lia.
  - assert (H2 : 0 <= shr_m (SpecFloat.iter_pos shr_1 n r)).
    { rewrite IH by lia. apply Z.div_pos; [lia|]. apply Z.pow_pos_nonneg; lia. }
    rewrite IH by lia. rewrite IH by lia.
    assert (Hp : 0 < 2 ^ Zpos n) by (apply Z.pow_pos_nonneg; lia).
    assert (Hpow : 2 ^ Zpos n~0 = 2 ^ Zpos n * 2 ^ Zpos n).
    { rewrite (Pos2Z.inj_xO n).
      replace (2 * Zpos n) with (Zpos n + Zpos n) by lia.
      rewrite Z.pow_add_r by lia. reflexivity. }
    rewrite Hpow. rewrite !Z.div_div by lia. reflexivity.
  - rewrite shr_1_div2 by lia. reflexivity.
Qed.

Lemma shr_spec (r : shr_record) (e n : Z) :
  0 <= shr_m r ->
  snd (shr r e n) = e + Z.max n 0
  /\ shr_m (fst (shr r e n)) = shr_m r / 2 ^ Z.max n 0.
Proof.
  intros Hr. destruct n as [|p|p]; simpl.
  - split; [lia|]. rewrite Z.div_1_r. reflexivity.
  - split; [reflexivity|]. apply iter_shr_div, Hr.
  - split; [lia|]. rewrite Z.div_1_r. reflexivity.
Qed.

Lemma shr_fexp_spec (m e : Z) (l : location) :
  0 <= m ->
  let n := Z.max (fexp prec emax (Zdigits2 m + e) - e) 0 in
  snd (shr_fexp prec emax m e l) = e + n
  /\ shr_m (fst (shr_fexp prec emax m e l)) = m / 2 ^ n.
Proof.
  intros Hm n. unfold shr_fexp.
  pose proof (shr_spec (shr_record_of_loc m l) e (fexp prec emax (Zdigits2 m + e) - e)) as H.
  rewrite FloatSignFacts.shr_record_of_loc_m in H. apply H, Hm.
Qed.

Lemma round_nearest_even_bounds (m : Z) (l : location) :
  m <= round_nearest_even m l <= m + 1.
Proof. destruct l as [|[]]; simpl; try lia. destruct (Z.even m); lia. Qed.

Lemma fexp_mono (a b : Z) : a <= b -> fexp prec emax a <= fexp prec emax b.
Proof. unfold fexp, emin, prec, emax. lia. Qed.

Lemma fexp_eq (a : Z) : fexp prec emax a = Z.max (a - 53) (-1074).
Proof. reflexivity. Qed.

Lemma P_pos (e : Z) : -1074 <= e -> 0 < P e.
Proof. intros. unfold P. apply Z.pow_pos_nonneg; lia. Qed.

Lemma P_add (e n : Z) : -1074 <= e -> 0 <= n -> P (e + n) = 2 ^ n * P e.
Proof.
  intros. unfold P. replace (e + n + 1074) with (n + (e + 1074)) by lia.
  apply Z.pow_add_r; lia.
Qed.

Lemma P_mono (a b : Z) : -1074 <= a -> a <= b -> P a <= P b.
Proof. intros. unfold P. apply Z.pow_le_mono_r; lia. Qed.

(** The rounding of a magnitude [mx * 2^ex]. *)
Lemma binary_round_aux_error (s : bool) (mx ex : Z) (lx : location) (G : Z) :
  0 <= mx -> -1074 <= ex -> Zdigits2 mx + ex <= G ->
  let E := Z.max ex (fexp prec emax (G + 1)) in
  E <= emax - prec ->
  binary_round_aux prec emax s mx ex lx = S754_zero s /\ mx * P ex <= 2 * P E
  \/ exists (m : positive) (e : Z),
       binary_round_aux prec emax s mx ex lx = S754_finite s m e
       /\ ex <= e <= E
       /\ Z.abs (Zpos m * P e - mx * P ex) <= 2 * P E
       /\ Zpos m * P e <= mx * P ex + P E.
Proof.
  intros Hm Hex HG E HE. unfold binary_round_aux.
  destruct (shr_fexp_spec mx ex lx Hm) as [He' Hm1].
  destruct (shr_fexp prec emax mx ex lx) as [mrs' e']. cbn [fst snd] in He', Hm1.
  set (n1 := Z.max (fexp prec emax (Zdigits2 mx + ex) - ex) 0) in *.
  set (m1 := shr_m mrs') in *.
  pose proof (round_nearest_even_bounds m1 (loc_of_shr_record mrs')) as Hr.
  set (m1' := round_nearest_even m1 (loc_of_shr_record mrs')) in *.
  assert (Hn1 : 0 <= n1) by (unfold n1; lia).
  assert (Hp1 : 0 < 2 ^ n1) by (apply Z.pow_pos_nonneg; lia).
  assert (Hm1n : 0 <= m1) by (rewrite Hm1; apply Z.div_pos; lia).
  assert (Hm1' : 0 <= m1') by lia.
  destruct (shr_fexp_spec m1' e' loc_Exact Hm1') as [He'' Hm2].
  destruct (shr_fexp prec emax m1' e' loc_Exact) as [mrs'' e'']. cbn [fst snd] in He'', Hm2.
  set (n2 := Z.max (fexp prec emax (Zdigits2 m1' + e') - e') 0) in *.
  assert (Hn2 : 0 <= n2) by (unfold n2; lia).
  assert (Hp2 : 0 < 2 ^ n2) by (apply Z.pow_pos_nonneg; lia).
  (* the exponents *)
  assert (He'E : e' <= E).
  { rewrite He'. unfold n1, E.
    pose proof (fexp_mono (Zdigits2 mx + ex) (G + 1) ltac:(lia)). lia. }
  assert (He''E : e'' <= E).
  { rewrite He''. unfold n2.
    assert (fexp prec emax (Zdigits2 m1' + e') <= E); [|lia].
    destruct (Z.eq_dec m1' 0) as [H0|H0].
    - rewrite H0. simpl Zdigits2. unfold E in *. rewrite ?fexp_eq in *. lia.
    - assert (Hd : Zdigits2 m1' + e' <= Z.max (G + 1) (e' + 1)).
      { pose proof (Zdigits2_lt mx Hm) as Hlt.
        pose proof (Zdigits2_nonneg mx) as Hdn.
        destruct (Z_le_gt_dec n1 (Zdigits2 mx)) as [Hle|Hgt].
        - assert (m1 < 2 ^ (Zdigits2 mx - n1)).
          { rewrite Hm1. apply Z.div_lt_upper_bound; [lia|].
            rewrite <- Z.pow_add_r by lia.
            replace (n1 + (Zdigits2 mx - n1)) with (Zdigits2 mx) by lia. exact Hlt. }
          assert (Zdigits2 m1' <= Zdigits2 mx - n1 + 1).
          { apply Zdigits2_le; [lia|lia|].
            rewrite Z.pow_add_r by lia. lia. }
          lia.
        - assert (m1 = 0).
          { rewrite Hm1. apply Z.div_small. split; [lia|].
            assert (2 ^ Zdigits2 mx <= 2 ^ n1) by (apply Z.pow_le_mono_r; lia). lia. }
          assert (Zdigits2 m1' <= 1).
          { apply Zdigits2_le; [lia|lia|]. simpl. lia. }
          lia. }
      rewrite fexp_eq. unfold E in *. rewrite ?fexp_eq in *. lia. }
  assert (Hee' : ex <= e') by lia.
  assert (He'e'' : e' <= e'') by lia.
  (* the values *)
  assert (HP1 : P e' = 2 ^ n1 * P ex) by (rewrite He'; apply P_add; lia).
  assert (HP2 : P e'' = 2 ^ n2 * P e') by (rewrite He''; apply P_add; lia).
  pose proof (P_pos ex Hex) as HPex.
  pose proof (P_pos e' ltac:(lia)) as HPe'.
  pose proof (P_pos e'' ltac:(lia)) as HPe''.
  pose proof (P_mono e' E ltac:(lia) He'E) as HPE'.
  pose proof (P_mono e'' E ltac:(lia) He''E) as HPE''.
  set (m2 := shr_m mrs'') in *.
  assert (Ha1 : m1 * 2 ^ n1 <= mx < (m1 + 1) * 2 ^ n1).
  { rewrite Hm1. pose proof (Z.mul_div_le mx (2 ^ n1) Hp1).
    pose proof (Z.mul_succ_div_gt mx (2 ^ n1) Hp1). lia. }
  assert (Ha2 : m2 * 2 ^ n2 <= m1' < (m2 + 1) * 2 ^ n2).
  { rewrite Hm2. pose proof (Z.mul_div_le m1' (2 ^ n2) Hp2).
    pose proof (Z.mul_succ_div_gt m1' (2 ^ n2) Hp2). lia. }
  assert (Hm2n : 0 <= m2) by (rewrite Hm2; apply Z.div_pos; lia).
  assert (Hap : 0 < 2 ^ n1 * P ex) by (apply Z.mul_pos_pos; lia).
  assert (Hup : m2 * P e'' <= mx * P ex + P e').
  { rewrite HP2, HP1.
    assert (m2 * 2 ^ n2 * (2 ^ n1 * P ex) <= (m1 + 1) * (2 ^ n1 * P ex))
      by (apply Z.mul_le_mono_nonneg_r; lia).
    assert (m1 * 2 ^ n1 * P ex <= mx * P ex)
      by (apply Z.mul_le_mono_nonneg_r; lia).
    lia. }
  assert (Hlo : mx * P ex - P e' - P e'' < m2 * P e'').
  { rewrite HP2, HP1.
    assert (mx * P ex < (m1 + 1) * 2 ^ n1 * P ex)
      by (apply Z.mul_lt_mono_pos_r; lia).
    assert (m1 * (2 ^ n1 * P ex) <= m1' * (2 ^ n1 * P ex))
      by (apply Z.mul_le_mono_nonneg_r; lia).
    assert (m1' * (2 ^ n1 * P ex) < (m2 + 1) * 2 ^ n2 * (2 ^ n1 * P ex))
      by (apply Z.mul_lt_mono_pos_r; lia).
    lia. }
  destruct m2 as [|m|m] eqn:Em2; [left|right|lia].
  - split; [reflexivity|]. lia.
  - assert ((e'' <=? emax - prec) = true) as -> by (apply Z.leb_le; lia).
    exists m, e''. split; [reflexivity|]. split; [lia|]. split; lia.
Qed.

(** Aligning a mantissa to a smaller exponent keeps the value. *)
Lemma shl_align_spec (m : positive) (e e' : Z) :
  snd (shl_align m e e') = Z.min e e'
  /\ Zpos (fst (shl_align m e e')) = Zpos m * 2 ^ (e - Z.min e e').
Proof.
  unfold shl_align. destruct (e' - e) as [|d|d] eqn:Hd; cbn [fst snd].
  - split; [lia|]. replace (e - Z.min e e') with 0 by lia. lia.
  - split; [lia|]. replace (e - Z.min e e') with 0 by lia. lia.
  - split; [lia|]. replace (e - Z.min e e') with (Zpos d) by lia.
    change (Pos.iter xO m d) with (shift_pos d m).
    rewrite shift_pos_correct. rewrite Z.mul_comm. reflexivity.
Qed.

Lemma digits_of_bound (m : positive) (e G : Z) :
  -1074 <= e -> Zpos m * P e < 2 ^ (G + 1074) -> Zpos (digits2_pos m) + e <= G.
Proof.
  intros He H. pose proof (digits2_lower m) as Hl.
  pose proof (P_pos e He) as HP.
  assert (HG : 0 <= G + 1074).
  { destruct (Z_lt_le_dec (G + 1074) 0) as [Hneg|Hpos]; [|exact Hpos].
    rewrite (Z.pow_neg_r 2 (G + 1074) Hneg) in H. nia. }
  assert (Hlt : 2 ^ (Zpos (digits2_pos m) - 1 + (e + 1074)) < 2 ^ (G + 1074)).
  { rewrite (Z.pow_add_r 2 (Zpos (digits2_pos m) - 1) (e + 1074)) by lia. fold (P e).
    eapply Z.le_lt_trans; [|exact H]. apply Z.mul_le_mono_nonneg_r; [lia|exact Hl]. }
  apply Z.pow_lt_mono_r_iff in Hlt; lia.
Qed.

Lemma bound_of_digits (m : positive) (e G : Z) :
  -1074 <= e -> Zpos (digits2_pos m) + e <= G -> Zpos m * P e < 2 ^ (G + 1074).
Proof.
  intros He H. pose proof (digits2_upper m) as Hu.
  pose proof (P_pos e He) as HP.
  apply Z.lt_le_trans with (2 ^ Zpos (digits2_pos m) * P e).
  - apply Z.mul_lt_mono_pos_r; assumption.
  - unfold P. rewrite <- Z.pow_add_r by lia. apply Z.pow_le_mono_r; lia.
Qed.

Lemma binary_round_error (s : bool) (m : positive) (e G : Z) :
  -1074 <= e -> Zpos (digits2_pos m) + e <= G ->
  fexp prec emax (G + 1) <= emax - prec ->
  let E := fexp prec emax (G + 1) in
  binary_round prec emax s m e = S754_zero s /\ Zpos m * P e <= 2 * P E
  \/ exists (m' : positive) (e' : Z),
       binary_round prec emax s m e = S754_finite s m' e'
       /\ -1074 <= e' <= E
       /\ Z.abs (Zpos m' * P e' - Zpos m * P e) <= 2 * P E
       /\ Zpos m' * P e' <= Zpos m * P e + P E.
Proof.
  intros He HG HE E. unfold binary_round.
  set (t := fexp prec emax (Zpos (digits2_pos m) + e)).
  destruct (shl_align_spec m e t) as [Hez Hmz].
  destruct (shl_align m e t) as [mz ez]. cbn [fst snd] in Hez, Hmz.
  assert (Ht : -1074 <= t) by (unfold t; rewrite fexp_eq; lia).
  assert (Hez' : -1074 <= ez) by lia.
  assert (Hval : Zpos mz * P ez = Zpos m * P e).
  { rewrite Hmz. replace e with (ez + (e - ez)) at 3 by lia.
    rewrite P_add by lia. rewrite <- Hez. lia. }
  assert (Hdig : Zdigits2 (Zpos mz) + ez <= G).
  { cbn [Zdigits2]. apply digits_of_bound; [lia|]. rewrite Hval.
    apply bound_of_digits; assumption. }
  assert (HtE : t <= E) by (apply fexp_mono; lia).
  pose proof (binary_round_aux_error s (Zpos mz) ez loc_Exact G ltac:(lia) Hez' Hdig) as H.
  cbv zeta in H. replace (Z.max ez (fexp prec emax (G + 1))) with E in H by (unfold E; lia).
  rewrite Hval in H. destruct (H HE) as [[H0 Hb]|(m' & e' & Hr & Hrange & Herr & Hup)].
  - left. split; assumption.
  - right. exists m', e'. repeat split; try assumption; lia.
Qed.

Lemma below_of_bound (s : bool) (m : positive) (e G : Z) :
  -1074 <= e -> Zpos m * P e < 2 ^ (G + 1074) -> SFbelow G (S754_finite s m e) = true.
Proof. intros He H. simpl. apply Z.leb_le. apply digits_of_bound; assumption. Qed.

(** Rounding [M * 2^e], below [2^G] in magnitude, to binary64: the result is
    below [2^(G+1)] and less than two units of its last place away. *)
Lemma binary_normalize_error (M e G : Z) :
  -1074 <= e -> -1074 <= G -> Z.abs M * P e < 2 ^ (G + 1074) ->
  fexp prec emax (G + 1) <= emax - prec ->
  SFbelow (G + 1) (binary_normalize prec emax M e false) = true
  /\ Z.abs (SFscaled (binary_normalize prec emax M e false) - M * P e)
     <= 2 * P (fexp prec emax (G + 1)).
Proof.
  intros He HG HM HE.
  set (E := fexp prec emax (G + 1)).
  assert (HEG : -1074 <= E <= G) by (unfold E; rewrite fexp_eq; lia).
  pose proof (P_pos E ltac:(lia)) as HPE.
  assert (HPEG : P E <= 2 ^ (G + 1074)) by (unfold P; apply Z.pow_le_mono_r; lia).
  assert (Hdouble : 2 ^ (G + 1 + 1074) = 2 * 2 ^ (G + 1074)).
  { replace (G + 1 + 1074) with (Z.succ (G + 1074)) by lia. apply Z.pow_succ_r. lia. }
  assert (Hsign : forall (s : bool) (m : positive),
             Zpos m * P e < 2 ^ (G + 1074) ->
             SFbelow (G + 1) (binary_round prec emax s m e) = true
             /\ Z.abs (SFscaled (binary_round prec emax s m e) - cond_Zopp s (Zpos m) * P e)
                <= 2 * P E).
  { intros s m Hm.
    pose proof (digits_of_bound m e G He Hm) as Hd.
    destruct (binary_round_error s m e G He Hd HE)
      as [[-> Hb]|(m' & e' & -> & Hrange & Herr & Hup)];
      [fold E in Hb|fold E in Hrange, Herr, Hup].
    - split; [reflexivity|]. cbn [SFscaled]. pose proof (P_pos e He). destruct s; cbn [cond_Zopp]; rewrite ?Z.mul_opp_l; lia.
    - split.
      + apply below_of_bound; [lia|]. rewrite Hdouble. lia.
      + cbn [SFscaled]. fold (P e'). destruct s; cbn [cond_Zopp]; rewrite ?Z.mul_opp_l; lia. }
  destruct M as [|m|m]; cbn [binary_normalize].
  - split; [reflexivity|]. cbn [SFscaled]. rewrite Z.mul_0_l. change (Z.abs (0 - 0)) with 0. lia.
  - apply (Hsign false m). exact HM.
  - apply (Hsign true m). exact HM.
Qed.

Lemma valid_exponent (s : bool) (m : positive) (e : Z) :
  valid_binary (S754_finite s m e) = true -> -1074 <= e.
Proof.
  simpl. unfold bounded, canonical_mantissa. rewrite andb_true_iff, Z.eqb_eq.
  intros [Hc _]. rewrite fexp_eq in Hc. lia.
Qed.

Lemma below_mono (b b' : Z) (x : spec_float) :
  b <= b' -> SFbelow b x = true -> SFbelow b' x = true.
Proof.
  intros Hb. destruct x as [s|s| |s m e]; simpl; try easy.
  rewrite !Z.leb_le. lia.
Qed.

Lemma scaled_bound (b : Z) (x : spec_float) :
  valid_binary x = true -> SFbelow b x = true ->
  Z.abs (SFscaled x) < 2 ^ (b + 1074) \/ SFscaled x = 0.
Proof.
  intros Hv Hb. destruct x as [s|s| |s m e]; simpl; auto.
  left. pose proof (valid_exponent s m e Hv) as He.
  simpl in Hb. apply Z.leb_le in Hb.
  pose proof (bound_of_digits m e b He Hb) as H. unfold P in H.
  pose proof (P_pos e He) as HP. unfold P in HP.
  destruct s; cbn [cond_Zopp]; lia.
Qed.

(** The sum of two floats below [2^B] in magnitude: it is below [2^(B+2)]
    and differs from the exact sum by at most [2^(B-50)]. *)
Lemma SFadd_error (x y : spec_float) (B : Z) :
  valid_binary x = true -> valid_binary y = true ->
  SFbelow B x = true -> SFbelow B y = true ->
  -1074 <= B -> fexp prec emax (B + 2) <= emax - prec ->
  SFbelow (B + 2) (SFadd prec emax x y) = true
  /\ Z.abs (SFscaled (SFadd prec emax x y) - (SFscaled x + SFscaled y))
     <= 2 * P (fexp prec emax (B + 2)).
Proof.
  intros Hvx Hvy Hbx Hby HB HE.
  pose proof (P_pos (fexp prec emax (B + 2)) ltac:(rewrite fexp_eq; lia)) as HPE.
  destruct x as [sx|sx| |sx mx ex], y as [sy|sy| |sy my ey];
    try discriminate Hbx; try discriminate Hby.
  - split; [destruct sx, sy; reflexivity|].
    destruct sx, sy; cbn [SFadd SFscaled Z.add Z.sub Z.opp Z.abs]; lia.
  - cbn [SFadd]. split; [apply (below_mono B); [lia|exact Hby]|].
    replace (SFscaled (S754_finite sy my ey) - (SFscaled (S754_zero sx) + SFscaled (S754_finite sy my ey)))
      with 0 by (cbn [SFscaled]; lia). cbn [Z.abs]; lia.
  - cbn [SFadd]. split; [apply (below_mono B); [lia|exact Hbx]|].
    replace (SFscaled (S754_finite sx mx ex) - (SFscaled (S754_finite sx mx ex) + SFscaled (S754_zero sy)))
      with 0 by (cbn [SFscaled]; lia). cbn [Z.abs]; lia.
  - pose proof (valid_exponent sx mx ex Hvx) as Hex.
    pose proof (valid_exponent sy my ey Hvy) as Hey.
    cbn [SFadd]. cbv zeta.
    set (ez := Z.min ex ey).
    destruct (shl_align_spec mx ex ez) as [_ Hmx].
    destruct (shl_align_spec my ey ez) as [_ Hmy].
    replace (Z.min ex ez) with ez in Hmx by lia.
    replace (Z.min ey ez) with ez in Hmy by lia.
    set (M := cond_Zopp sx (Zpos (fst (shl_align mx ex ez)))
              + cond_Zopp sy (Zpos (fst (shl_align my ey ez)))).
    assert (Hvalx : Zpos (fst (shl_align mx ex ez)) * P ez = Zpos mx * P ex).
    { rewrite Hmx, <- Z.mul_assoc. f_equal.
      rewrite <- (P_add ez (ex - ez)) by lia. f_equal. lia. }
    assert (Hvaly : Zpos (fst (shl_align my ey ez)) * P ez = Zpos my * P ey).
    { rewrite Hmy, <- Z.mul_assoc. f_equal.
      rewrite <- (P_add ez (ey - ez)) by lia. f_equal. lia. }
    assert (HM : M * P ez = SFscaled (S754_finite sx mx ex) + SFscaled (S754_finite sy my ey)).
    { unfold M. cbn [SFscaled]. fold (P ex). fold (P ey).
      destruct sx, sy; cbn [cond_Zopp]; lia. }
    simpl in Hbx, Hby. apply Z.leb_le in Hbx, Hby.
    pose proof (bound_of_digits mx ex B Hex Hbx) as Hx.
    pose proof (bound_of_digits my ey B Hey Hby) as Hy.
    pose proof (P_pos ez ltac:(lia)) as HPz.
    assert (Hab : Z.abs M * P ez < 2 ^ (B + 1 + 1074)).
    { replace (B + 1 + 1074) with (Z.succ (B + 1074)) by lia.
      rewrite Z.pow_succ_r by lia.
      rewrite <- (Z.abs_eq (P ez)) by lia. rewrite <- Z.abs_mul.
      unfold M. rewrite Z.mul_add_distr_r.
      eapply Z.le_lt_trans; [apply Z.abs_triangle|].
      rewrite !Z.abs_mul, (Z.abs_eq (P ez)) by lia.
      destruct sx, sy; cbn [cond_Zopp]; rewrite ?Z.abs_opp, !Z.abs_eq by lia; lia. }
    pose proof (binary_normalize_error M ez (B + 1) ltac:(lia) ltac:(lia) Hab) as H.
    replace (B + 1 + 1) with (B + 2) in H by lia.
    destruct (H HE) as [Hb Herr]. split; [exact Hb|].
    rewrite <- HM. exact Herr.
Qed.

Lemma round_half_even_nonneg (a d : Z) : 0 <= a -> 0 < d -> 0 <= Py.round_half_even a d.
Proof.
  intros Ha Hd. unfold Py.round_half_even.
  pose proof (Z.div_pos a d Ha Hd).
  destruct (2 * (a mod d) ?= d); [destruct (Z.even (a / d))| |]; lia.
Qed.

Lemma scaled_decimal_nonneg (nd : Z) (m : positive) (e : Z) :
  0 <= nd -> 0 <= Py.scaled_decimal nd m e.
Proof.
  intros Hnd. unfold Py.scaled_decimal.
  assert (0 < 10 ^ nd) by (apply Z.pow_pos_nonneg; lia).
  destruct (0 <=? e) eqn:He.
  - apply Z.leb_le in He. assert (0 < 2 ^ e) by (apply Z.pow_pos_nonneg; lia). nia.
  - apply Z.leb_gt in He. apply round_half_even_nonneg; [nia|].
    apply Z.pow_pos_nonneg; lia.
Qed.

(** [round] returns the float of a decimal. *)
Lemma round_is_decimal (x : float) (nd : Z) :
  0 <= nd -> SFbelow 2000 (Prim2SF x) = true ->
  is_decimal nd (Py.round x nd) (units nd (Prim2SF x)).
Proof.
  intros Hnd Hb. unfold Py.round, is_decimal.
  destruct (Prim2SF x) as [s|s| |s m e]; try discriminate Hb; cbn [Py.SFround units].
  - destruct s; [right|left]; split; try lia; reflexivity.
  - pose proof (scaled_decimal_nonneg nd m e Hnd) as Hk.
    destruct s; cbn [signed]; [right|left]; split; try lia; [|reflexivity].
    rewrite Z.opp_involutive. reflexivity.
Qed.

(** The decimal with 4 places of a float is at most half a unit of the
    fourth decimal away from it. *)
Lemma units_error (x : spec_float) :
  valid_binary x = true ->
  2 * Z.abs (10 ^ 4 * SFscaled x - 2 ^ 1074 * units 4 x) <= 2 ^ 1074.
Proof.
  intros Hv. destruct x as [s|s| |s m e]; cbn [SFscaled units];
    try (rewrite Z.mul_0_r; cbn [Z.sub Z.opp Z.add Z.abs]; lia).
  pose proof (valid_exponent s m e Hv) as He.
  assert (Hmag : 2 * Z.abs (10 ^ 4 * (Zpos m * 2 ^ (e + 1074))
                            - 2 ^ 1074 * Py.scaled_decimal 4 m e) <= 2 ^ 1074).
  { unfold Py.scaled_decimal. destruct (0 <=? e) eqn:He0.
    - apply Z.leb_le in He0. rewrite Z.pow_add_r by lia.
      replace (10 ^ 4 * (Zpos m * (2 ^ e * 2 ^ 1074)) - 2 ^ 1074 * (Zpos m * 2 ^ e * 10 ^ 4))
        with 0 by ring.
      cbn [Z.abs]. lia.
    - apply Z.leb_gt in He0.
      assert (Hd : 0 < 2 ^ (- e)) by (apply Z.pow_pos_nonneg; lia).
      pose proof (FloatFacts.round_half_even_error (Zpos m * 10 ^ 4) (2 ^ (- e)) Hd) as Hr.
      assert (Hp : 0 < 2 ^ (e + 1074)) by (apply Z.pow_pos_nonneg; lia).
      assert (HD : 2 ^ 1074 = 2 ^ (- e) * 2 ^ (e + 1074)).
      { rewrite <- Z.pow_add_r by lia. f_equal. lia. }
      rewrite HD.
      replace (10 ^ 4 * (Zpos m * 2 ^ (e + 1074))
               - 2 ^ (- e) * 2 ^ (e + 1074)
                 * Py.round_half_even (Zpos m * 10 ^ 4) (2 ^ (- e)))
        with ((Zpos m * 10 ^ 4
               - 2 ^ (- e) * Py.round_half_even (Zpos m * 10 ^ 4) (2 ^ (- e)))
              * 2 ^ (e + 1074)) by ring.
      rewrite Z.abs_mul, (Z.abs_eq (2 ^ (e + 1074))) by lia.
      rewrite Z.mul_assoc. apply Z.mul_le_mono_nonneg_r; lia. }
  destruct s; cbn [cond_Zopp signed]; [|exact Hmag].
  replace (10 ^ 4 * (- Zpos m * 2 ^ (e + 1074)) - 2 ^ 1074 * - Py.scaled_decimal 4 m e)
    with (- (10 ^ 4 * (Zpos m * 2 ^ (e + 1074)) - 2 ^ 1074 * Py.scaled_decimal 4 m e))
    by ring.
  rewrite Z.abs_opp. exact Hmag.
Qed.

Lemma add_error (x y : float) (B : Z) :
  SFbelow B (Prim2SF x) = true -> SFbelow B (Prim2SF y) = true ->
  -1074 <= B -> fexp prec emax (B + 2) <= emax - prec ->
  SFbelow (B + 2) (Prim2SF (x + y)) = true
  /\ Z.abs (SFscaled (Prim2SF (x + y)) - (SFscaled (Prim2SF x) + SFscaled (Prim2SF y)))
     <= 2 * P (fexp prec emax (B + 2)).
Proof.
  intros Hx Hy HB HE. rewrite FloatAxioms.add_spec.
  apply SFadd_error; try assumption; apply Prim2SF_valid.
Qed.

(** Three sums below 2^30 in magnitude: the units of the rounded total and
    of the rounded components. *)
Lemma total_units (t f e : float) :
  SFbelow 30 (Prim2SF t) = true -> SFbelow 30 (Prim2SF f) = true ->
  SFbelow 30 (Prim2SF e) = true ->
  SFbelow 34 (Prim2SF (t + f + e)) = true
  /\ Z.abs (units 4 (Prim2SF (t + f + e))
            - (units 4 (Prim2SF t) + units 4 (Prim2SF f) + units 4 (Prim2SF e))) <= 2.
Proof.
  intros Ht Hf He.
  destruct (add_error t f 30 Ht Hf ltac:(lia) ltac:(rewrite fexp_eq; unfold emax, prec; lia))
    as [Hb1 Herr1].
  pose proof (below_mono 30 32 _ ltac:(lia) He) as He'.
  destruct (add_error (t + f) e 32 Hb1 He' ltac:(lia)
              ltac:(rewrite fexp_eq; unfold emax, prec; lia)) as [Hb2 Herr2].
  split; [exact Hb2|].
  change (30 + 2) with 32 in Herr1. change (32 + 2) with 34 in Herr2.
  change (fexp prec emax 32) with (-21) in Herr1.
  change (fexp prec emax 34) with (-19) in Herr2.
  unfold P in Herr1, Herr2.
  change (-21 + 1074) with 1053 in Herr1. change (-19 + 1074) with 1055 in Herr2.
  pose proof (units_error _ (Prim2SF_valid (t + f + e))) as Hs.
  pose proof (units_error _ (Prim2SF_valid t)) as Hut.
  pose proof (units_error _ (Prim2SF_valid f)) as Huf.
  pose proof (units_error _ (Prim2SF_valid e)) as Hue.
  set (zs := SFscaled (Prim2SF (t + f + e))) in *.
  set (z1 := SFscaled (Prim2SF (t + f))) in *.
  set (zt := SFscaled (Prim2SF t)) in *.
  set (zf := SFscaled (Prim2SF f)) in *.
  set (ze := SFscaled (Prim2SF e)) in *.
  set (ks := units 4 (Prim2SF (t + f + e))) in *.
  set (kt := units 4 (Prim2SF t)) in *.
  set (kf := units 4 (Prim2SF f)) in *.
  set (ke := units 4 (Prim2SF e)) in *.
  assert (H55 : 2 ^ 1055 = 4 * 2 ^ 1053) by reflexivity.
  assert (H74 : 2 ^ 1074 = 2097152 * 2 ^ 1053) by reflexivity.
  assert (Hq : 0 < 2 ^ 1053) by reflexivity.
  change (10 ^ 4) with 10000 in *.
  rewrite H55 in Herr2. rewrite H74 in Hs, Hut, Huf, Hue.
  generalize dependent (2 ^ 1053). intros q Herr1 Herr2 Hs Hut Huf Hue _ _ Hq.
  assert (Hmul : Z.abs (q * (ks - (kt + kf + ke))) < q * 3) by lia.
  rewrite Z.abs_mul, (Z.abs_eq q) in Hmul by lia.
  apply Z.mul_lt_mono_pos_l in Hmul; lia.
Qed.

End FloatErrorFacts.

(* ===================================================================== *)
(** * The total and the rounded components *)
(* ===================================================================== *)

Module AggregateFacts.

Import Spec CarbonEngine Props.

(** C7 (amended). For all entry lists and any optional custom table, the
    total is the sum of the three unrounded per-category sums, rounded to 4
    decimals only at output, and each breakdown component is its own
    unrounded sum rounded to 4 decimals; a per-category sum adds, from left
    to right, quantity times factor of the applicable table.  When the three
    unrounded sums are finite and below 2^30 kg in magnitude, the returned
    total and components are decimals with 4 places whose units of the
    fourth decimal differ by at most two: total and sum of the rounded
    components are at most 0.0002 apart (and can be). *)
Theorem C7_total_from_unrounded_sums
    (transport_entries : list transport_entry)
    (food_entries : list food_entry)
    (energy_entries : list energy_entry)
    (custom_factors : option (gmap string (gmap string float))) :
  let table c := applicable_table c (custom_table custom_factors (category_key c)) in
  let tt :=
    Py.sum (map (fun e => (distance e * factor_of (table Transport) (Py.lower (mode e)))%float)
                transport_entries) in
  let ft :=
    Py.sum (map (fun e => (quantity e * factor_of (table Food) (Py.lower (food_type e)))%float)
                food_entries) in
  let et :=
    Py.sum (map (fun e => (kwh e * factor_of (table Energy) (Py.lower (energy_type e)))%float)
                energy_entries) in
  let r := calculate_total_footprint transport_entries food_entries energy_entries
                                     custom_factors in
  total_kg_co2e r = Py.round (tt + ft + et) 4
  /\ transport (breakdown r) = Py.round tt 4
  /\ food (breakdown r) = Py.round ft 4
  /\ energy (breakdown r) = Py.round et 4
  /\ (below 30 tt = true -> below 30 ft = true -> below 30 et = true ->
      exists kS kT kF kE : Z,
        is_decimal 4 (total_kg_co2e r) kS
        /\ is_decimal 4 (transport (breakdown r)) kT
        /\ is_decimal 4 (food (breakdown r)) kF
        /\ is_decimal 4 (energy (breakdown r)) kE
        /\ Z.abs (kS - (kT + kF + kE)) <= 2).
Proof.
  cbv zeta.
  assert (Ht : transport_total transport_entries custom_factors
               = Py.sum (map (fun e => (distance e
                   * factor_of (applicable_table Transport
                                  (custom_table custom_factors "transport"))
                               (Py.lower (mode e)))%float) transport_entries)).
  { unfold transport_total. f_equal. }
  assert (Hf : food_total food_entries custom_factors
               = Py.sum (map (fun e => (quantity e
                   * factor_of (applicable_table Food
                                  (custom_table custom_factors "food"))
                               (Py.lower (food_type e)))%float) food_entries)).
  { unfold food_total. f_equal. }
  assert (He : energy_total energy_entries custom_factors
               = Py.sum (map (fun e => (kwh e
                   * factor_of (applicable_table Energy
                                  (custom_table custom_factors "energy"))
                               (Py.lower (energy_type e)))%float) energy_entries)).
  { unfold energy_total. f_equal. }
  unfold calculate_total_footprint. cbn [total_kg_co2e breakdown transport food energy].
  rewrite Ht, Hf, He. cbn [category_key].
  do 4 (split; [reflexivity|]).
  set (tt := Py.sum _). set (ft := Py.sum _). set (et := Py.sum _).
  unfold below. intros Hbt Hbf Hbe.
  destruct (FloatErrorFacts.total_units tt ft et Hbt Hbf Hbe) as [Hbs Hunits].
  exists (units 4 (Prim2SF (tt + ft + et))), (units 4 (Prim2SF tt)),
    (units 4 (Prim2SF ft)), (units 4 (Prim2SF et)).
  repeat split; try exact Hunits;
    apply FloatErrorFacts.round_is_decimal; try lia;
    eapply FloatErrorFacts.below_mono; try eassumption; lia.
Qed.

Lemma C7_witness :
  exists kS kT kF kE : Z,
    is_decimal 4 (total_kg_co2e (calculate_total_footprint Samples.near_tie_transport
                                   Samples.near_tie_food Samples.near_tie_energy None)) kS
    /\ is_decimal 4 (transport (breakdown (calculate_total_footprint
                                             Samples.near_tie_transport
                                             Samples.near_tie_food
                                             Samples.near_tie_energy None))) kT
    /\ is_decimal 4 (food (breakdown (calculate_total_footprint
                                        Samples.near_tie_transport
                                        Samples.near_tie_food
                                        Samples.near_tie_energy None))) kF
    /\ is_decimal 4 (energy (breakdown (calculate_total_footprint
                                          Samples.near_tie_transport
                                          Samples.near_tie_food
                                          Samples.near_tie_energy None))) kE
    /\ Z.abs (kS - (kT + kF + kE)) <= 2.
Proof.
  apply (C7_total_from_unrounded_sums Samples.near_tie_transport Samples.near_tie_food
           Samples.near_tie_energy None); vm_compute; reflexivity.
Defined.

(** The total and the sum of the rounded components two units of the
    fourth decimal apart: the total is 0.0003, the components are 0.0, 0.0
    and 0.0001. *)
Lemma C7_counterexample :
  total_kg_co2e (calculate_total_footprint Samples.near_tie_transport
                   Samples.near_tie_food Samples.near_tie_energy None)
  = 0.0003%float
  /\ breakdown (calculate_total_footprint Samples.near_tie_transport
                  Samples.near_tie_food Samples.near_tie_energy None)
     = {| transport := 0.0; food := 0.0; energy := 0.0001 |}
  /\ agree_to_4_decimals 0.0003 (0.0 + 0.0 + 0.0001) = false
  /\ is_decimal 4 0.0003 3 /\ is_decimal 4 0.0 0 /\ is_decimal 4 0.0001 1.
Proof.
  split; [vm_compute; reflexivity|]. split; [vm_compute; reflexivity|].
  split; [vm_compute; reflexivity|].
  repeat split; left; (split; [lia|vm_compute; reflexivity]).
Qed.

(** Without a bound on the sums the components need not add up at all: a
    total of 1.7e17 kg absorbs a food component of 2.7 kg. *)
Example large_total_absorbs_small_component :
  let r := calculate_total_footprint
             [ {| mode := "car"; distance := 1e18 |} ]
             [ {| food_type := "rice"; quantity := 1 |} ] [] None in
  total_kg_co2e r = transport (breakdown r)
  /\ transport (breakdown r) = 1.7e17%float
  /\ food (breakdown r) = 2.7%float
  /\ below 30 1.7e17 = false.
Proof. repeat split; vm_compute; reflexivity. Qed.

End AggregateFacts.

(* ===================================================================== *)
(** * More on the emission calculators *)
(* ===================================================================== *)

Module CarbonEngineMore.

Import Spec CarbonEngine Props.

Lemma default_tables_good (c : category) :
  good_table (DEFAULT_EMISSION_FACTORS !!! category_key c).
Proof.
  intros key f Hk.
  assert (Hdom : key ∈ dom (DEFAULT_EMISSION_FACTORS !!! category_key c))
    by (apply elem_of_dom; eauto).
  destruct (CarbonEngineFacts.default_table_keys c key Hdom) as [f' Hf'].
  pose proof (CarbonEngineFacts.documented_factor_lookup c key f' Hf') as Hl.
  unfold factor_of in Hl. rewrite Hk in Hl. simpl in Hl. subst f'.
  destruct c; simpl in Hf';
    repeat destruct Hf' as [[= <- <-]|Hf']; try contradiction; split; reflexivity.
Qed.

Lemma factor_of_good (t : gmap string float) (key : string) :
  good_table t ->
  (0 <=? factor_of t key)%float = true /\ is_finite (factor_of t key) = true.
Proof.
  intros Ht. unfold factor_of. destruct (t !! key) as [f|] eqn:E; simpl.
  - exact (Ht key f E).
  - split; reflexivity.
Qed.

Lemma applicable_table_good (c : category) (factors : option (gmap string float)) :
  (forall t, factors = Some t -> good_table t) ->
  good_table (applicable_table c factors).
Proof.
  intros H. destruct factors as [t|]; simpl; [apply H; reflexivity|].
  apply default_tables_good.
Qed.

Lemma emissions_nonneg (c : category) (activity : string) (q : float)
    (factors : option (gmap string float)) :
  (forall t, factors = Some t -> good_table t) ->
  good_quantity q ->
  (0 <=? emissions c activity q factors)%float = true.
Proof.
  intros Ht [Hq Hf]. rewrite CarbonEngineFacts.emissions_unfold.
  destruct (factor_of_good _ (Py.lower activity) (applicable_table_good c factors Ht))
    as [H0 Hfin].
  apply FloatSignFacts.mul_nonneg; assumption.
Qed.

(** X1. A negated quantity gives the negated emission, for every calculator,
    table, type and quantity: the calculators do not reject or clamp negative
    input. *)
Theorem X1_negated_quantity_negates (c : category) (activity : string) (q : float)
    (factors : option (gmap string float)) :
  emissions c activity (- q) factors = (- emissions c activity q factors)%float.
Proof. rewrite !CarbonEngineFacts.emissions_unfold. apply FloatSignFacts.mul_opp. Qed.

(** X2. With the default table, or a custom table whose factors are finite
    and not negative, a finite non-negative quantity never gives a negative
    or NaN emission. *)
Theorem X2_emission_not_negative (c : category) (activity : string) (q : float)
    (factors : option (gmap string float)) :
  (forall t, factors = Some t -> good_table t) ->
  (0 <=? q)%float = true -> is_finite q = true ->
  (0 <=? emissions c activity q factors)%float = true.
Proof. intros Ht Hq Hf. apply emissions_nonneg; [exact Ht|split; assumption]. Qed.

Lemma X2_witness :
  (0 <=? calculate_food_emissions "Beef" 1e300 None)%float = true.
Proof.
  apply (X2_emission_not_negative Food "Beef" 1e300%float None).
  - intros t H. discriminate H.
  - reflexivity.
  - reflexivity.
Defined.

Lemma custom_table_good (custom_factors : option (gmap string (gmap string float)))
    (key : string) :
  (forall cf k t, custom_factors = Some cf -> cf !! k = Some t -> good_table t) ->
  forall t, custom_table custom_factors key = Some t -> good_table t.
Proof.
  intros H t. unfold custom_table. destruct custom_factors as [cf|]; [|discriminate].
  destruct (decide (cf = ∅)); [discriminate|]. intros E. exact (H cf key t eq_refl E).
Qed.

(** X3. When every quantity is finite and not negative, and every custom
    factor (if a custom table is given) is finite and not negative, the total
    and the three breakdown components of the aggregate are not negative and
    not NaN. *)
Theorem X3_footprint_not_negative
    (transport_entries : list transport_entry)
    (food_entries : list food_entry)
    (energy_entries : list energy_entry)
    (custom_factors : option (gmap string (gmap string float))) :
  (forall cf k t, custom_factors = Some cf -> cf !! k = Some t -> good_table t) ->
  Forall (fun e => good_quantity (distance e)) transport_entries ->
  Forall (fun e => good_quantity (quantity e)) food_entries ->
  Forall (fun e => good_quantity (kwh e)) energy_entries ->
  let r := calculate_total_footprint transport_entries food_entries energy_entries
                                     custom_factors in
  (0 <=? total_kg_co2e r)%float = true
  /\ (0 <=? transport (breakdown r))%float = true
  /\ (0 <=? food (breakdown r))%float = true
  /\ (0 <=? energy (breakdown r))%float = true.
Proof.
  intros Hcf Ht Hf He.
  assert (Htt : (0 <=? transport_total transport_entries custom_factors)%float = true).
  { apply FloatSignFacts.sum_nonneg. apply Forall_map.
    eapply Forall_impl; [exact Ht|]. intros e Hq.
    apply (emissions_nonneg Transport); [|exact Hq].
    apply custom_table_good, Hcf. }
  assert (Hft : (0 <=? food_total food_entries custom_factors)%float = true).
  { apply FloatSignFacts.sum_nonneg. apply Forall_map.
    eapply Forall_impl; [exact Hf|]. intros e Hq.
    apply (emissions_nonneg Food); [|exact Hq].
    apply custom_table_good, Hcf. }
  assert (Het : (0 <=? energy_total energy_entries custom_factors)%float = true).
  { apply FloatSignFacts.sum_nonneg. apply Forall_map.
    eapply Forall_impl; [exact He|]. intros e Hq.
    apply (emissions_nonneg Energy); [|exact Hq].
    apply custom_table_good, Hcf. }
  cbv zeta. unfold calculate_total_footprint.
  cbn [total_kg_co2e breakdown transport food energy].
  repeat split; apply FloatSignFacts.round_nonneg;
    repeat apply FloatSignFacts.add_nonneg; assumption.
Qed.

Lemma X3_witness :
  (0 <=? total_kg_co2e
           (calculate_total_footprint
              [ {| mode := "car"; distance := 10 |}; {| mode := "flight"; distance := 100 |} ]
              [ {| food_type := "beef"; quantity := 0.5 |};
                {| food_type := "vegetables"; quantity := 2 |} ]
              [ {| energy_type := "electricity"; kwh := 50 |} ] None))%float = true.
Proof.
  apply (X3_footprint_not_negative
           [ {| mode := "car"; distance := 10 |}; {| mode := "flight"; distance := 100 |} ]
           [ {| food_type := "beef"; quantity := 0.5 |};
             {| food_type := "vegetables"; quantity := 2 |} ]
           [ {| energy_type := "electricity"; kwh := 50 |} ] None).
  - intros cf k t H. discriminate H.
  - repeat constructor.
  - repeat constructor.
  - repeat constructor.
Defined.

Lemma custom_table_absent (cf : gmap string (gmap string float)) (key : string) :
  cf !! key = None -> custom_table (Some cf) key = None.
Proof. intros H. unfold custom_table. destruct (decide (cf = ∅)); [reflexivity|exact H]. Qed.

(** X4. A custom table of tables that lacks a category leaves that category
    on the default factors: its breakdown component is the one computed
    without custom factors; an empty table of tables changes nothing at
    all. *)
Theorem X4_custom_fallback (c : category)
    (transport_entries : list transport_entry)
    (food_entries : list food_entry)
    (energy_entries : list energy_entry)
    (cf : gmap string (gmap string float)) :
  cf !! category_key c = None ->
  component c (calculate_total_footprint transport_entries food_entries energy_entries
                                         (Some cf))
  = component c (calculate_total_footprint transport_entries food_entries energy_entries
                                           None)
  /\ calculate_total_footprint transport_entries food_entries energy_entries (Some ∅)
     = calculate_total_footprint transport_entries food_entries energy_entries None.
Proof.
  intros Hc. split; [|reflexivity].
  destruct c; cbn [category_key] in Hc; unfold component, calculate_total_footprint;
    cbn [breakdown transport food energy];
    unfold transport_total, food_total, energy_total;
    rewrite (custom_table_absent cf _ Hc); reflexivity.
Qed.

Lemma X4_witness :
  transport (breakdown (calculate_total_footprint
                          [ {| mode := "car"; distance := 10 |} ] [] []
                          (Some {[ "food"%string := ({[ "beef"%string := 1%float ]}
                                                       : gmap string float) ]})))
  = 1.7%float.
Proof.
  assert (Hc : ({[ "food"%string := ({[ "beef"%string := 1%float ]} : gmap string float) ]}
                  : gmap string (gmap string float)) !! category_key Transport = None).
  { vm_compute. reflexivity. }
  destruct (X4_custom_fallback Transport [ {| mode := "car"; distance := 10 |} ] [] []
              {[ "food"%string := ({[ "beef"%string := 1%float ]} : gmap string float) ]}
              Hc) as [H _].
  cbn [component] in H. rewrite H. vm_compute. reflexivity.
Defined.

End CarbonEngineMore.

(* ===================================================================== *)
(** * The aggregate on unvalidated entries *)
(* ===================================================================== *)

Module EntriesFacts.

Import Entries.

Local Open Scope string_scope.

Lemma bind_returns {A B} (r : outcome A) (k : A -> outcome B) (b : B) :
  (x ← r; k x) = Returns b <-> exists a, r = Returns a /\ k a = Returns b.
Proof.
  unfold mbind, outcome_bind, bind. destruct r as [a|e]; split.
  - intros H. exists a. split; [reflexivity|exact H].
  - intros [a' [[= <-] H]]. exact H.
  - discriminate.
  - intros [a' [H _]]. discriminate H.
Qed.

Lemma mul_float_returns (q : value) (factor : float) :
  (exists x, mul_float q factor = Returns x) <-> numeric q = true.
Proof.
  destruct q as [|b|z|x|s|l|l]; simpl;
    try (split; [intros [x' H]; discriminate H | discriminate]);
    try (split; [reflexivity | intros _; eexists; reflexivity]).
  unfold float_of_int, mbind, outcome_bind, bind.
  destruct (binary_normalize prec emax z 0 false); simpl;
    try (split; [reflexivity | intros _; eexists; reflexivity]).
  split; [intros [x' H]; discriminate H | discriminate].
Qed.

Lemma lower_returns (n : value) :
  (exists s, lower n = Returns s) <-> exists s, n = VStr s.
Proof.
  destruct n as [|b|z|x|s|l|l]; simpl;
    try (split; intros [s' H]; discriminate H).
  split; intros _; eexists; reflexivity.
Qed.

(** What the three calculators have in common. *)
Definition calculator
    (calculate : value -> value -> option (gmap string float) -> outcome float) : Prop :=
  forall (n q : value) (factors : option (gmap string float)),
    exists t, calculate n q factors = (lowered ← lower n; mul_float q (t lowered)).

Lemma calculator_transport : calculator calculate_transport_emissions.
Proof. intros n q factors. eexists (fun lowered => _). reflexivity. Qed.

Lemma calculator_food : calculator calculate_food_emissions.
Proof. intros n q factors. eexists (fun lowered => _). reflexivity. Qed.

Lemma calculator_energy : calculator calculate_energy_emissions.
Proof. intros n q factors. eexists (fun lowered => _). reflexivity. Qed.

Lemma calculate_returns calculate (n q : value) (factors : option (gmap string float)) :
  calculator calculate ->
  (exists x, calculate n q factors = Returns x)
  <-> (exists s, n = VStr s) /\ numeric q = true.
Proof.
  intros Hc. destruct (Hc n q factors) as [t ->]. split.
  - intros [x H]. apply bind_returns in H. destruct H as [s [Hs Hm]]. split.
    + apply lower_returns. eauto.
    + apply (mul_float_returns q (t s)). eauto.
  - intros [[s ->] Hq]. simpl.
    apply (mul_float_returns q (t (Py.lower s))). exact Hq.
Qed.

Lemma item_returns calculate (name_key quantity_key : string)
    (factors : option (gmap string float)) (e : gmap string value) :
  calculator calculate ->
  (exists x, item calculate name_key quantity_key factors e = Returns x)
  <-> well_formed name_key quantity_key e.
Proof.
  intros Hc. unfold item, getitem, well_formed. split.
  - intros [x H]. apply bind_returns in H. destruct H as [n [Hn H]].
    apply bind_returns in H. destruct H as [q [Hq H]].
    destruct (e !! name_key) as [n'|]; [|discriminate Hn].
    destruct (e !! quantity_key) as [q'|]; [|discriminate Hq].
    injection Hn as ->. injection Hq as ->.
    destruct (proj1 (calculate_returns calculate n q factors Hc) (ex_intro _ x H))
      as [[s ->] Hnum].
    split; [exists s; reflexivity | exists q; split; [reflexivity|exact Hnum]].
  - intros [[s ->] [q [-> Hq]]]. simpl.
    apply (calculate_returns calculate (VStr s) q factors Hc).
    split; [exists s; reflexivity | exact Hq].
Qed.

Lemma sum_items_returns (f : gmap string value -> outcome float)
    (entries : list (gmap string value)) (acc : float) :
  (exists x, sum_items f entries acc = Returns x)
  <-> Forall (fun e => exists x, f e = Returns x) entries.
Proof.
  revert acc. induction entries as [|e rest IH]; intros acc; simpl.
  - split; [constructor | intros _; eexists; reflexivity].
  - split.
    + intros [x H]. apply bind_returns in H. destruct H as [y [Hy H]].
      constructor; [eauto | apply (IH (acc + y)%float); eauto].
    + intros H. inversion H as [|? ? [y Hy] Hrest]; subst.
      destruct (proj2 (IH (acc + y)%float) Hrest) as [x Hx].
      exists x. apply bind_returns. eauto.
Qed.

Lemma sum_items_map {A} (f : gmap string value -> outcome float) (g : A -> float)
    (d : A -> gmap string value) (l : list A) (acc : float) :
  (forall a, f (d a) = Returns (g a)) ->
  sum_items f (map d l) acc
  = Returns (fold_left (fun acc x => (acc + x)%float) (map g l) acc).
Proof.
  intros H. revert acc. induction l as [|a l IH]; intros acc; simpl; [reflexivity|].
  rewrite H. simpl. apply IH.
Qed.

Lemma sum_items_raises (f : gmap string value -> outcome float)
    (pre post : list (gmap string value)) (e : gmap string value) (acc : float)
    (err : exn) :
  Forall (fun d => exists x, f d = Returns x) pre ->
  f e = Raises err ->
  sum_items f (pre ++ e :: post) acc = Raises err.
Proof.
  intros Hpre He. revert acc. induction Hpre as [|d pre [x Hx] _ IH]; intros acc; simpl.
  - rewrite He. reflexivity.
  - rewrite Hx. simpl. apply IH.
Qed.

Lemma item_transport (t : option (gmap string float)) (e : CarbonEngine.transport_entry) :
  item calculate_transport_emissions "mode" "distance" t (of_transport_entry e)
  = Returns (CarbonEngine.calculate_transport_emissions
               (CarbonEngine.mode e) (CarbonEngine.distance e) t).
Proof.
  unfold item, getitem, of_transport_entry.
  rewrite lookup_insert_eq. simpl.
  rewrite lookup_insert_ne by discriminate. rewrite lookup_singleton_eq. reflexivity.
Qed.

Lemma item_food (t : option (gmap string float)) (e : CarbonEngine.food_entry) :
  item calculate_food_emissions "type" "quantity" t (of_food_entry e)
  = Returns (CarbonEngine.calculate_food_emissions
               (CarbonEngine.food_type e) (CarbonEngine.quantity e) t).
Proof.
  unfold item, getitem, of_food_entry.
  rewrite lookup_insert_eq. simpl.
  rewrite lookup_insert_ne by discriminate. rewrite lookup_singleton_eq. reflexivity.
Qed.

Lemma item_energy (t : option (gmap string float)) (e : CarbonEngine.energy_entry) :
  item calculate_energy_emissions "type" "kwh" t (of_energy_entry e)
  = Returns (CarbonEngine.calculate_energy_emissions
               (CarbonEngine.energy_type e) (CarbonEngine.kwh e) t).
Proof.
  unfold item, getitem, of_energy_entry.
  rewrite lookup_insert_eq. simpl.
  rewrite lookup_insert_ne by discriminate. rewrite lookup_singleton_eq. reflexivity.
Qed.

Lemma typed_footprint
    (transport_entries : list CarbonEngine.transport_entry)
    (food_entries : list CarbonEngine.food_entry)
    (energy_entries : list CarbonEngine.energy_entry)
    (custom_factors : option (gmap string (gmap string float))) :
  calculate_total_footprint (map of_transport_entry transport_entries)
                            (map of_food_entry food_entries)
                            (map of_energy_entry energy_entries) custom_factors
  = Returns (CarbonEngine.calculate_total_footprint
               transport_entries food_entries energy_entries custom_factors).
Proof.
  unfold calculate_total_footprint. cbv zeta.
  rewrite (sum_items_map _ _ _ transport_entries 0%float (item_transport _)). simpl.
  rewrite (sum_items_map _ _ _ food_entries 0%float (item_food _)). simpl.
  rewrite (sum_items_map _ _ _ energy_entries 0%float (item_energy _)). simpl.
  reflexivity.
Qed.

(** X5. On dictionaries that hold a string under the name key and a float
    under the quantity key, the aggregate raises nothing and returns the
    footprint computed from those names and quantities, with or without
    custom factors. *)
Theorem X5_typed_entries_return
    (transport_entries : list CarbonEngine.transport_entry)
    (food_entries : list CarbonEngine.food_entry)
    (energy_entries : list CarbonEngine.energy_entry)
    (custom_factors : option (gmap string (gmap string float))) :
  calculate_total_footprint (map of_transport_entry transport_entries)
                            (map of_food_entry food_entries)
                            (map of_energy_entry energy_entries) custom_factors
  = Returns (CarbonEngine.calculate_total_footprint
               transport_entries food_entries energy_entries custom_factors).
Proof. apply typed_footprint. Qed.

(** X6. The aggregate returns a footprint exactly when every transport
    entry holds a string under 'mode' and a number under 'distance', every
    food entry a string under 'type' and a number under 'quantity', and every
    energy entry a string under 'type' and a number under 'kwh'; otherwise it
    raises.  A number is a float, a bool, or an int within the range of a
    float. *)
Theorem X6_returns_iff_well_formed
    (transport_entries food_entries energy_entries : list (gmap string value))
    (custom_factors : option (gmap string (gmap string float))) :
  (exists r, calculate_total_footprint transport_entries food_entries energy_entries
                                       custom_factors = Returns r)
  <-> Forall (well_formed "mode" "distance") transport_entries
      /\ Forall (well_formed "type" "quantity") food_entries
      /\ Forall (well_formed "type" "kwh") energy_entries.
Proof.
  unfold calculate_total_footprint. cbv zeta.
  assert (Hsum : forall calculate nk qk t l,
             calculator calculate ->
             (exists x, sum_items (item calculate nk qk t) l 0%float = Returns x)
             <-> Forall (well_formed nk qk) l).
  { intros calculate nk qk t l Hc. rewrite sum_items_returns.
    split; intros H; (eapply Forall_impl; [exact H|]); intros e He;
      apply (item_returns calculate nk qk t e Hc); exact He. }
  split.
  - intros [r H].
    apply bind_returns in H. destruct H as [tt [Ht H]].
    apply bind_returns in H. destruct H as [ft [Hf H]].
    apply bind_returns in H. destruct H as [et [He H]].
    repeat split.
    + apply (Hsum _ _ _ (CarbonEngine.custom_table custom_factors "transport") _
                  calculator_transport). eauto.
    + apply (Hsum _ _ _ (CarbonEngine.custom_table custom_factors "food") _
                  calculator_food). eauto.
    + apply (Hsum _ _ _ (CarbonEngine.custom_table custom_factors "energy") _
                  calculator_energy). eauto.
  - intros [Ht [Hf He]].
    apply (Hsum _ _ _ (CarbonEngine.custom_table custom_factors "transport") _
                calculator_transport) in Ht.
    apply (Hsum _ _ _ (CarbonEngine.custom_table custom_factors "food") _
                calculator_food) in Hf.
    apply (Hsum _ _ _ (CarbonEngine.custom_table custom_factors "energy") _
                calculator_energy) in He.
    destruct Ht as [tt ->], Hf as [ft ->], He as [et ->]. simpl. eexists. reflexivity.
Qed.

Lemma well_formed_returns calculate (name_key quantity_key : string)
    (factors : option (gmap string float)) (l : list (gmap string value)) :
  calculator calculate ->
  Forall (well_formed name_key quantity_key) l ->
  Forall (fun d => exists x, item calculate name_key quantity_key factors d = Returns x) l.
Proof.
  intros Hc H. eapply Forall_impl; [exact H|]. intros e He.
  apply (item_returns calculate name_key quantity_key factors e Hc). exact He.
Qed.

(** X7. When the entries before it are well formed, a transport entry
    without the key 'mode' makes the aggregate raise KeyError('mode'), and one
    with 'mode' but without 'distance' KeyError('distance'), whatever is
    stored under 'mode' and whatever the later entries and the food and energy
    lists hold. *)
Theorem X7_missing_key_raises_KeyError
    (pre post food_entries energy_entries : list (gmap string value))
    (e : gmap string value)
    (custom_factors : option (gmap string (gmap string float))) :
  Forall (well_formed "mode" "distance") pre ->
  (e !! "mode" = None ->
   calculate_total_footprint (pre ++ e :: post) food_entries energy_entries custom_factors
   = Raises (KeyError "mode"))
  /\ (is_Some (e !! "mode") -> e !! "distance" = None ->
      calculate_total_footprint (pre ++ e :: post) food_entries energy_entries
                                custom_factors
      = Raises (KeyError "distance")).
Proof.
  intros Hpre.
  pose proof (well_formed_returns _ _ _ (CarbonEngine.custom_table custom_factors "transport")
                _ calculator_transport Hpre) as Hp.
  split.
  - intros Hm. unfold calculate_total_footprint. cbv zeta.
    rewrite (sum_items_raises _ pre post e 0%float (KeyError "mode") Hp); [reflexivity|].
    unfold item, getitem. rewrite Hm. reflexivity.
  - intros [n Hn] Hd. unfold calculate_total_footprint. cbv zeta.
    rewrite (sum_items_raises _ pre post e 0%float (KeyError "distance") Hp); [reflexivity|].
    unfold item, getitem. rewrite Hn, Hd. reflexivity.
Qed.

Lemma X7_witness :
  calculate_total_footprint
    ([ of_transport_entry {| CarbonEngine.mode := "car"; CarbonEngine.distance := 10 |} ]
       ++ {[ "distance" := VFloat 3 ]} :: [])
    [ ∅ ] [] None
  = Raises (KeyError "mode").
Proof.
  assert (Hpre : Forall (well_formed "mode" "distance")
                   [ of_transport_entry
                       {| CarbonEngine.mode := "car"; CarbonEngine.distance := 10 |} ]).
  { constructor; [|constructor]. split.
    - exists "car". vm_compute. reflexivity.
    - exists (VFloat 10). split; vm_compute; reflexivity. }
  apply (X7_missing_key_raises_KeyError _ [] [ ∅ ] [] {[ "distance" := VFloat 3 ]} None Hpre).
  vm_compute. reflexivity.
Defined.

(** X8. When the entries before it are well formed and a transport entry has
    both keys, a 'mode' that is not a string makes the aggregate raise
    AttributeError, even when 'distance' is not a number; with a string
    'mode', a 'distance' that is not a number raises OverflowError when it is
    an int (one beyond the range of a float) and TypeError otherwise. *)
Theorem X8_wrong_type_raises
    (pre post food_entries energy_entries : list (gmap string value))
    (e : gmap string value) (n q : value)
    (custom_factors : option (gmap string (gmap string float))) :
  Forall (well_formed "mode" "distance") pre ->
  e !! "mode" = Some n ->
  e !! "distance" = Some q ->
  ((forall s, n <> VStr s) ->
   calculate_total_footprint (pre ++ e :: post) food_entries energy_entries custom_factors
   = Raises AttributeError)
  /\ ((exists s, n = VStr s) -> numeric q = false ->
      calculate_total_footprint (pre ++ e :: post) food_entries energy_entries
                                custom_factors
      = Raises (match q with VInt _ => OverflowError | _ => TypeError end)).
Proof.
  intros Hpre Hn Hq.
  pose proof (well_formed_returns _ _ _ (CarbonEngine.custom_table custom_factors "transport")
                _ calculator_transport Hpre) as Hp.
  assert (Hraise : forall err,
             item calculate_transport_emissions "mode" "distance"
                  (CarbonEngine.custom_table custom_factors "transport") e = Raises err ->
             calculate_total_footprint (pre ++ e :: post) food_entries energy_entries
                                       custom_factors = Raises err).
  { intros err He. unfold calculate_total_footprint. cbv zeta.
    rewrite (sum_items_raises _ pre post e 0%float err Hp He). reflexivity. }
  assert (Hitem : item calculate_transport_emissions "mode" "distance"
                    (CarbonEngine.custom_table custom_factors "transport") e
                  = calculate_transport_emissions n q
                      (CarbonEngine.custom_table custom_factors "transport")).
  { unfold item, getitem. rewrite Hn, Hq. reflexivity. }
  split.
  - intros Hns. apply Hraise. rewrite Hitem.
    destruct n as [|b|z|x|s|l|l]; try reflexivity.
    exfalso. exact (Hns s eq_refl).
  - intros [s ->] Hnum. apply Hraise. rewrite Hitem.
    destruct q as [|b|z|x|s'|l|l]; try reflexivity; try discriminate Hnum.
    unfold calculate_transport_emissions, mul_float, float_of_int. simpl in Hnum |- *.
    destruct (binary_normalize prec emax z 0 false); try discriminate Hnum. reflexivity.
Qed.

Lemma X8_witness :
  calculate_total_footprint
    ([] ++ {[ "mode" := VInt 7; "distance" := VStr "far" ]} :: []) [] [] None
  = Raises AttributeError
  /\ calculate_total_footprint
       ([] ++ {[ "mode" := VStr "car"; "distance" := VInt (2 ^ 1024) ]} :: []) [] [] None
     = Raises OverflowError.
Proof.
  split.
  - apply (X8_wrong_type_raises [] [] [] []
             {[ "mode" := VInt 7; "distance" := VStr "far" ]} (VInt 7) (VStr "far") None).
    + constructor.
    + vm_compute. reflexivity.
    + vm_compute. reflexivity.
    + intros s H. discriminate H.
  - apply (X8_wrong_type_raises [] [] [] []
             {[ "mode" := VStr "car"; "distance" := VInt (2 ^ 1024) ]}
             (VStr "car") (VInt (2 ^ 1024)) None).
    + constructor.
    + vm_compute. reflexivity.
    + vm_compute. reflexivity.
    + exists "car". reflexivity.
    + vm_compute. reflexivity.
Defined.

End EntriesFacts.

(* ===================================================================== *)
(** * More on badges and levels *)
(* ===================================================================== *)

Module GamificationMore.

Import Gamification.

Lemma ltb_not_nan (a b : float) :
  (a <? b)%float = true -> is_nan a = false /\ is_nan b = false.
Proof. intros H. apply FloatFacts.leb_not_nan, FloatFacts.ltb_leb, H. Qed.

Lemma ltb_leb_trans (a b c : float) :
  (a <? b)%float = true -> (b <=? c)%float = true -> (a <? c)%float = true.
Proof.
  intros Hab Hbc.
  destruct (ltb_not_nan a b Hab) as [Ha _].
  destruct (FloatFacts.leb_not_nan b c Hbc) as [_ Hc].
  destruct (a <? c)%float eqn:Hac; [reflexivity|].
  pose proof (FloatFacts.leb_of_ltb_false a c Ha Hc Hac) as Hca.
  pose proof (FloatFacts.leb_ltb_trans c a b Hca Hab) as Hcb.
  pose proof (FloatFacts.ltb_of_leb_false b c Hbc) as Hn.
  congruence.
Qed.

(** A definition that passes its tests passes them on a longer streak and
    on smaller transport and energy metrics. *)
Lemma is_earned_mono (b : badge_def) (s s' : Z) (t t' e e' : float) :
  s <= s' -> (t' <=? t)%float = true -> (e' <=? e)%float = true ->
  is_earned b s t e = true -> is_earned b s' t' e' = true.
Proof.
  intros Hs Ht He. unfold is_earned.
  destruct (transport_max b) as [tm|], (min_streak b) as [ms|], (energy_max b) as [em|];
    repeat match goal with
      | |- context [(tm <? t')%float] =>
          let H := fresh "H" in
          destruct (tm <? t')%float eqn:H;
          [rewrite (ltb_leb_trans tm t' t H Ht)|]
      | |- context [(em <? e')%float] =>
          let H := fresh "H" in
          destruct (em <? e')%float eqn:H;
          [rewrite (ltb_leb_trans em e' e H He)|]
      | |- context [(s' <? ms)%Z] =>
          destruct (Z.ltb_spec s' ms);
          [destruct (Z.ltb_spec s ms); [|lia]|]
      end;
    repeat match goal with
      | |- context [(?a <? ?b)%float] => destruct (a <? b)%float
      | |- context [(?a <? ?b)%Z] => destruct (a <? b)%Z
      end; intros Hearned; first [reflexivity | discriminate Hearned].
Qed.

(** X9. Badges are never lost by doing better: with at least as long a
    streak, at most as much transport emission and at most as much energy
    use, every badge earned before is earned again (the total plays no
    part). *)
Theorem X9_better_metrics_keep_badges
    (total total' : float) (s s' : Z) (t t' e e' : float) (b : badge) :
  s <= s' -> (t' <=? t)%float = true -> (e' <=? e)%float = true ->
  In b (get_badges total s t e) -> In b (get_badges total' s' t' e').
Proof.
  intros Hs Ht He. unfold get_badges.
  rewrite !GamificationFacts.badges_loop_filter. cbn [app].
  rewrite !in_map_iff. intros [d [Hd Hin]]. exists d. split; [exact Hd|].
  apply filter_In in Hin. destruct Hin as [Hin Hearned].
  apply filter_In. split; [exact Hin|].
  exact (is_earned_mono d s s' t t' e e' Hs Ht He Hearned).
Qed.

Lemma X9_witness :
  In {| badge_id := "green_traveler"; badge_name := "Green Traveler";
        badge_description := "Transport footprint below 5kg." |}
     (get_badges 0 7 1.5 30).
Proof.
  apply (X9_better_metrics_keep_badges 12 0 2 7 4.5 1.5 30 30).
  - lia.
  - reflexivity.
  - reflexivity.
  - vm_compute. left. reflexivity.
Defined.

Lemma level_loop_lower (levels : list (Z * string)) (i points : Z)
    (current : string * Z) :
  snd current <= i + 1 -> snd current <= snd (level_loop levels i points current).
Proof.
  revert i current. induction levels as [|[t n] rest IH]; intros i current Hc; simpl.
  - lia.
  - destruct (t <=? points); [|lia].
    specialize (IH (i + 1) (n, i + 1)). simpl in IH. lia.
Qed.

Lemma level_loop_upper (levels : list (Z * string)) (i points : Z)
    (current : string * Z) :
  snd current <= i + Z.of_nat (length levels) ->
  snd (level_loop levels i points current) <= i + Z.of_nat (length levels).
Proof.
  revert i current. induction levels as [|[t n] rest IH]; intros i current Hc.
  - simpl in *. lia.
  - cbn [level_loop]. destruct (t <=? points); [|exact Hc].
    specialize (IH (i + 1) (n, i + 1)). cbn [length snd] in *. lia.
Qed.

Lemma level_loop_mono (levels : list (Z * string)) (i points points' : Z)
    (current : string * Z) :
  points <= points' -> snd current <= i + 1 ->
  snd (level_loop levels i points current)
  <= snd (level_loop levels i points' current).
Proof.
  intros Hp. revert i current.
  induction levels as [|[t n] rest IH]; intros i current Hc; simpl.
  - lia.
  - destruct (Z.leb_spec t points) as [H|H].
    + destruct (Z.leb_spec t points') as [H'|H']; [|lia].
      apply IH. simpl. lia.
    + destruct (Z.leb_spec t points') as [H'|H']; [|lia].
      pose proof (level_loop_lower rest (i + 1) points' (n, i + 1)) as Hl.
      simpl in Hl. lia.
Qed.

(** X10. More points never give a lower level, and the level number is
    always between 1 and 5, for negative points too. *)
Theorem X10_level_monotone (points points' : Z) :
  points <= points' ->
  1 <= level_number (get_progress_level points)
  /\ level_number (get_progress_level points)
     <= level_number (get_progress_level points')
  /\ level_number (get_progress_level points') <= 5.
Proof.
  intros Hp.
  destruct (GamificationFacts.get_progress_level_loop points) as (_ & -> & _).
  destruct (GamificationFacts.get_progress_level_loop points') as (_ & -> & _).
  pose proof (level_loop_lower LEVELS 0 points ("Seedling"%string, 1)) as Hl.
  pose proof (level_loop_upper LEVELS 0 points' ("Seedling"%string, 1)) as Hu.
  pose proof (level_loop_mono LEVELS 0 points points' ("Seedling"%string, 1) Hp) as Hm.
  cbn [snd LEVELS length] in Hl, Hu, Hm. lia.
Qed.

Lemma X10_witness :
  1 <= level_number (get_progress_level (-40))
  /\ level_number (get_progress_level (-40)) <= level_number (get_progress_level 99999)
  /\ level_number (get_progress_level 99999) <= 5.
Proof. apply (X10_level_monotone (-40) 99999). lia. Defined.

End GamificationMore.

(* ===================================================================== *)
(** * More on the recommendation prompt *)
(* ===================================================================== *)

Module RecommendationMore.

Import RecommendationEngine Props.
Local Open Scope string_scope.

Lemma max_scan_In (rest : dict) (best : string * float) :
  In (max_scan best rest) (best :: rest).
Proof.
  revert best. induction rest as [|kv rest IH]; intros best; cbn [max_scan].
  - left. reflexivity.
  - destruct (snd best <? snd kv)%float.
    + right. apply IH.
    + destruct (IH best) as [H|H]; [left; exact H|right; right; exact H].
Qed.

Lemma categories_In (kv : string * float) (bd : dict) :
  In kv (categories bd) <-> In kv bd /\ fst kv <> "total".
Proof.
  unfold categories. rewrite filter_In, negb_true_iff, String.eqb_neq. reflexivity.
Qed.

Lemma categories_keys (bd : dict) (k : string) :
  In k (keys (categories bd)) -> In k (keys bd).
Proof.
  unfold keys. rewrite !in_map_iff. intros [kv [Hk Hin]].
  exists kv. split; [exact Hk|]. apply categories_In in Hin. apply Hin.
Qed.

Lemma categories_NoDup (bd : dict) :
  List.NoDup (keys bd) -> List.NoDup (keys (categories bd)).
Proof.
  induction bd as [|[k v] bd IH]; intros H; [constructor|].
  inversion H as [|? ? Hnotin Hrest]; subst.
  unfold categories. cbn [List.filter fst].
  destruct (negb (String.eqb k "total")).
  - cbn [keys map fst]. constructor; [|apply IH, Hrest].
    intros Hin. apply Hnotin. apply categories_keys. exact Hin.
  - apply IH, Hrest.
Qed.

Lemma dict_get_In (d : dict) (k : string) (v dflt : float) :
  List.NoDup (keys d) -> In (k, v) d -> dict_get d k dflt = v.
Proof.
  induction d as [|[k' v'] d IH]; intros Hnd Hin; [destruct Hin|].
  inversion Hnd as [|? ? Hnotin Hrest]; subst. cbn [dict_get].
  destruct Hin as [[= -> ->]|Hin].
  - rewrite String.eqb_refl. reflexivity.
  - destruct (String.eqb_spec k' k) as [->|Hne].
    + exfalso. apply Hnotin. unfold keys. apply in_map_iff.
      exists (k, v). split; [reflexivity|exact Hin].
    + apply IH; assumption.
Qed.

(** With distinct keys, the named category and the displayed value are the
    entry that the scan returns. *)
Lemma highest_is_scan (bd : dict) (kv : string * float) (rest : dict) :
  List.NoDup (keys bd) ->
  categories bd = kv :: rest ->
  (highest_category bd, highest_value bd) = max_scan kv rest.
Proof.
  intros Hnd Hc. unfold highest_value, highest_category. rewrite Hc.
  pose proof (max_scan_In rest kv) as Hin.
  pose proof (categories_NoDup bd Hnd) as Hnd'. rewrite Hc in Hnd'.
  destruct (max_scan kv rest) as [k v] eqn:Hm. cbn [fst].
  rewrite (dict_get_In _ k v 0 Hnd' Hin). reflexivity.
Qed.

(** X11. For a breakdown with any keys in any order that has a key other
    than 'total', the prompt that [build_recommendation_prompt] returns names
    a category that is a key of the breakdown other than 'total', with the
    value stored under that key, NaN values included. *)
Theorem X11_named_category_is_an_entry (bd : dict) (activity_summary : string) :
  List.NoDup (keys bd) ->
  categories bd <> [] ->
  exists (c : string) (v : float),
    names (build_recommendation_prompt bd activity_summary) c v
    /\ In (c, v) bd
    /\ c <> "total".
Proof.
  intros Hnd Hne. destruct (categories bd) as [|kv rest] eqn:Hc; [contradiction|].
  exists (highest_category bd), (highest_value bd).
  split; [apply RecommendationFacts.prompt_names|].
  pose proof (highest_is_scan bd kv rest Hnd Hc) as Hm.
  pose proof (max_scan_In rest kv) as Hin. rewrite <- Hc in Hin.
  apply categories_In in Hin. rewrite <- Hm in Hin. exact Hin.
Qed.

Lemma X11_witness :
  exists (c : string) (v : float),
    names (build_recommendation_prompt
             [ ("total", 9.5%float); ("waste", 2.5%float); ("food", 7%float) ] "compost")
          c v
    /\ In (c, v) [ ("total", 9.5%float); ("waste", 2.5%float); ("food", 7%float) ]
    /\ c <> "total".
Proof.
  apply (X11_named_category_is_an_entry
           [ ("total", 9.5%float); ("waste", 2.5%float); ("food", 7%float) ] "compost").
  - repeat constructor; simpl; intuition discriminate.
  - vm_compute. discriminate.
Defined.

(** X12. For a breakdown with any keys in any order whose values other than
    'total' are numbers, the category that the returned prompt names is the
    first of greatest value: every other category before it in the order is
    strictly smaller, every one after it is at most equal. *)
Theorem X12_first_greatest_of_any_breakdown (bd : dict) (activity_summary : string) :
  List.NoDup (keys bd) ->
  Forall RecommendationFacts.is_number (categories bd) ->
  categories bd <> [] ->
  exists (c : string) (v : float) (l1 l2 : dict),
    names (build_recommendation_prompt bd activity_summary) c v
    /\ categories bd = (l1 ++ (c, v) :: l2)%list
    /\ Forall (fun kv => (snd kv <? v)%float = true) l1
    /\ Forall (fun kv => (snd kv <=? v)%float = true) l2.
Proof.
  intros Hnd Hnum Hne. destruct (categories bd) as [|kv rest] eqn:Hc; [contradiction|].
  pose proof (highest_is_scan bd kv rest Hnd Hc) as Hm.
  destruct (RecommendationFacts.max_scan_first_greatest rest kv Hnum)
    as (l1 & l2 & Heq & H1 & H2).
  rewrite <- Hm in Heq, H1, H2. cbn [snd] in H1, H2.
  exists (highest_category bd), (highest_value bd), l1, l2.
  split; [apply RecommendationFacts.prompt_names|].
  rewrite <- Hc. repeat split; try assumption.
  rewrite Hc. exact Heq.
Qed.

Lemma X12_witness :
  exists (c : string) (v : float) (l1 l2 : dict),
    names (build_recommendation_prompt
             [ ("waste", 2.5%float); ("total", 100%float); ("food", 7%float);
               ("water", 7%float) ] "a week")
          c v
    /\ [ ("waste", 2.5%float); ("food", 7%float); ("water", 7%float) ]
       = (l1 ++ (c, v) :: l2)%list
    /\ Forall (fun kv => (snd kv <? v)%float = true) l1
    /\ Forall (fun kv => (snd kv <=? v)%float = true) l2.
Proof.
  apply (X12_first_greatest_of_any_breakdown
           [ ("waste", 2.5%float); ("total", 100%float); ("food", 7%float);
             ("water", 7%float) ] "a week").
  - repeat constructor; simpl; intuition discriminate.
  - repeat constructor.
  - vm_compute. discriminate.
Defined.

Lemma dict_get_no_category (bd : dict) (k : string) :
  categories bd = [] -> k <> "total" -> dict_get bd k 0 = 0%float.
Proof.
  intros Hc Hk. induction bd as [|[k' v] bd IH]; [reflexivity|].
  unfold categories in Hc. cbn [List.filter fst] in Hc. cbn [dict_get].
  destruct (String.eqb_spec k' "total") as [->|Hne]; cbn [negb] in Hc.
  - destruct (String.eqb_spec "total" k) as [<-|_]; [contradiction|].
    apply IH. exact Hc.
  - discriminate Hc.
Qed.

(** X13. For a breakdown without any key other than 'total' (the empty
    breakdown included) the prompt that [build_recommendation_prompt]
    returns shows 0.00 for transport, food and energy and names the highest
    contributor N/a with 0.00 kg. *)
Theorem X13_prompt_without_categories (bd : dict) (activity_summary : string) :
  categories bd = [] ->
  shows (build_recommendation_prompt bd activity_summary)
        (Py.format_2f (dict_get bd "total" 0)) "0.00" "0.00" "0.00"
  /\ names (build_recommendation_prompt bd activity_summary) "N/A" 0
  /\ analysis_line "N/A" 0
     = "- The highest contributor to the user's footprint is **N/a** (0.00 kg CO2e).".
Proof.
  intros Hc. split; [|split; [|vm_compute; reflexivity]].
  - pose proof (RecommendationFacts.prompt_shows bd activity_summary) as H.
    rewrite (dict_get_no_category bd "transport" Hc) in H by discriminate.
    rewrite (dict_get_no_category bd "food" Hc) in H by discriminate.
    rewrite (dict_get_no_category bd "energy" Hc) in H by discriminate.
    exact H.
  - pose proof (RecommendationFacts.prompt_names bd activity_summary) as H.
    unfold highest_value, highest_category in H. rewrite Hc in H. exact H.
Qed.

Lemma X13_witness :
  names (build_recommendation_prompt [ ("total", 12.5%float) ] "nothing yet") "N/A" 0.
Proof.
  apply (X13_prompt_without_categories [ ("total", 12.5%float) ] "nothing yet").
  reflexivity.
Defined.

End RecommendationMore.

(* ===================================================================== *)
(** * The endpoints *)
(* ===================================================================== *)

Module MainFacts.

Import Props.
Local Open Scope string_scope.

Lemma no_custom_table (t : gmap string float) :
  @None (gmap string float) = Some t -> good_table t.
Proof. discriminate. Qed.

(** X14. The /transport, /food and /energy endpoints never answer with a
    negative number or NaN for a quantity that is finite and not negative,
    whatever the type. *)
Theorem X14_endpoint_answers_not_negative (name : string) (q : float) :
  (0 <=? q)%float = true -> is_finite q = true ->
  (0 <=? Main.carbon_footprint_kg
           (Main.transport_emissions {| Main.mode := name; Main.distance := q |}))%float
  = true
  /\ (0 <=? Main.carbon_footprint_kg
              (Main.food_emissions {| Main.food_type := name; Main.quantity := q |}))%float
     = true
  /\ (0 <=? Main.carbon_footprint_kg
              (Main.energy_emissions {| Main.energy_type := name; Main.kwh := q |}))%float
     = true.
Proof.
  intros Hq Hf.
  unfold Main.transport_emissions, Main.food_emissions, Main.energy_emissions.
  cbv zeta. cbn [Main.carbon_footprint_kg Main.mode Main.distance Main.food_type
                 Main.quantity Main.energy_type Main.kwh].
  repeat split; apply FloatSignFacts.round_nonneg.
  - apply (CarbonEngineMore.emissions_nonneg Spec.Transport name q None no_custom_table).
    split; assumption.
  - apply (CarbonEngineMore.emissions_nonneg Spec.Food name q None no_custom_table).
    split; assumption.
  - apply (CarbonEngineMore.emissions_nonneg Spec.Energy name q None no_custom_table).
    split; assumption.
Qed.

Lemma X14_witness :
  (0 <=? Main.carbon_footprint_kg
           (Main.transport_emissions {| Main.mode := "Flight"; Main.distance := 1234.5 |}))%float
  = true.
Proof.
  apply (X14_endpoint_answers_not_negative "Flight" 1234.5%float); reflexivity.
Defined.

(** X15. A /calculate-total request with one entry per category is answered
    with the breakdown that the /transport, /food and /energy endpoints give
    for the same entries, when no emission is -0.0. *)
Theorem X15_total_endpoint_agrees_with_single_endpoints
    (t : CarbonEngine.transport_entry) (f : CarbonEngine.food_entry)
    (e : CarbonEngine.energy_entry) :
  ~ negative_zero (CarbonEngine.calculate_transport_emissions
                     (CarbonEngine.mode t) (CarbonEngine.distance t) None) ->
  ~ negative_zero (CarbonEngine.calculate_food_emissions
                     (CarbonEngine.food_type f) (CarbonEngine.quantity f) None) ->
  ~ negative_zero (CarbonEngine.calculate_energy_emissions
                     (CarbonEngine.energy_type e) (CarbonEngine.kwh e) None) ->
  exists r : CarbonEngine.footprint,
    Main.total_calculation
      {| Main.transport := [ Entries.of_transport_entry t ];
         Main.food := [ Entries.of_food_entry f ];
         Main.energy := [ Entries.of_energy_entry e ] |}
    = Entries.Returns r
    /\ CarbonEngine.transport (CarbonEngine.breakdown r)
       = Main.carbon_footprint_kg
           (Main.transport_emissions
              {| Main.mode := CarbonEngine.mode t;
                 Main.distance := CarbonEngine.distance t |})
    /\ CarbonEngine.food (CarbonEngine.breakdown r)
       = Main.carbon_footprint_kg
           (Main.food_emissions
              {| Main.food_type := CarbonEngine.food_type f;
                 Main.quantity := CarbonEngine.quantity f |})
    /\ CarbonEngine.energy (CarbonEngine.breakdown r)
       = Main.carbon_footprint_kg
           (Main.energy_emissions
              {| Main.energy_type := CarbonEngine.energy_type e;
                 Main.kwh := CarbonEngine.kwh e |}).
Proof.
  intros Ht Hf He. unfold Main.total_calculation.
  cbn [Main.transport Main.food Main.energy].
  pose proof (EntriesFacts.typed_footprint [t] [f] [e] None) as H.
  cbn [map] in H. rewrite H. eexists. split; [reflexivity|].
  unfold CarbonEngine.calculate_total_footprint. cbv zeta.
  cbn [CarbonEngine.breakdown CarbonEngine.transport CarbonEngine.food
       CarbonEngine.energy].
  unfold CarbonEngine.transport_total, CarbonEngine.food_total,
    CarbonEngine.energy_total, Py.sum.
  cbn [map fold_left CarbonEngine.custom_table].
  rewrite (FloatSignFacts.zero_add _ Ht), (FloatSignFacts.zero_add _ Hf),
    (FloatSignFacts.zero_add _ He).
  repeat split.
Qed.

Lemma X15_witness :
  exists r : CarbonEngine.footprint,
    Main.total_calculation
      {| Main.transport :=
           [ Entries.of_transport_entry
               {| CarbonEngine.mode := "Car"; CarbonEngine.distance := 12.5 |} ];
         Main.food :=
           [ Entries.of_food_entry
               {| CarbonEngine.food_type := "rice"; CarbonEngine.quantity := 0.3 |} ];
         Main.energy :=
           [ Entries.of_energy_entry
               {| CarbonEngine.energy_type := "gas"; CarbonEngine.kwh := 4 |} ] |}
    = Entries.Returns r
    /\ CarbonEngine.transport (CarbonEngine.breakdown r)
       = Main.carbon_footprint_kg
           (Main.transport_emissions {| Main.mode := "Car"; Main.distance := 12.5 |}).
Proof.
  destruct (X15_total_endpoint_agrees_with_single_endpoints
              {| CarbonEngine.mode := "Car"; CarbonEngine.distance := 12.5 |}
              {| CarbonEngine.food_type := "rice"; CarbonEngine.quantity := 0.3 |}
              {| CarbonEngine.energy_type := "gas"; CarbonEngine.kwh := 4 |})
    as (r & Hr & Ht & _).
  - unfold negative_zero. vm_compute. discriminate.
  - unfold negative_zero. vm_compute. discriminate.
  - unfold negative_zero. vm_compute. discriminate.
  - exists r. split; [exact Hr|exact Ht].
Defined.

(** For the distance -0.0 the two endpoints differ: /transport answers
    -0.0, the aggregate 0.0. *)
Example negative_zero_distance :
  Prim2SF (Main.carbon_footprint_kg
             (Main.transport_emissions {| Main.mode := "car"; Main.distance := (-0)%float |}))
  = S754_zero true
  /\ Prim2SF (CarbonEngine.transport
                (CarbonEngine.breakdown
                   (CarbonEngine.calculate_total_footprint
                      [ {| CarbonEngine.mode := "car"; CarbonEngine.distance := (-0)%float |} ]
                      [] [] None)))
     = S754_zero false.
Proof. split; vm_compute; reflexivity. Qed.

End MainFacts.

(* ===================================================================== *)
(** * More on the integrated demo flow *)
(* ===================================================================== *)

Module DemoMore.

Import DemoApi Props.
Local Open Scope string_scope.

(** X16. For every demo request the badges are Green Traveler, unless the
    unrounded transport emission exceeds 5, followed by Energy Saver, unless
    the requested kWh (not the energy emission) exceed 10; nothing else, so
    that NaN metrics earn both. *)
Theorem X16_demo_badges (req : DemoRunRequest) :
  exists resp : DemoRunResponse,
    run_integrated_demo req = Ok resp
    /\ map Gamification.badge_id (badges resp)
       = ((if (5 <? transport_emission_of req)%float then [] else [ "green_traveler" ])
            ++ (if (10 <? energy_kwh req)%float then [] else [ "low_utility" ]))%list.
Proof.
  destruct (DemoFacts.run_integrated_demo_ok req) as (n & _ & _ & Hrun).
  eexists. split; [exact Hrun|]. cbn [badges].
  unfold demo_badges, Gamification.get_badges.
  rewrite GamificationFacts.badges_loop_filter.
  cbn [app Gamification.BADGE_DEFINITIONS List.filter Gamification.is_earned
       Gamification.transport_max Gamification.min_streak Gamification.energy_max].
  change (1 <? 7)%Z with true. cbv iota.
  destruct (5 <? transport_emission_of req)%float;
    destruct (10 <? energy_kwh req)%float; reflexivity.
Qed.

(** X17. The demo handler reports the emissions and the total that the
    aggregate computes for the same three entries (the energy entry being
    electricity), when no emission is -0.0. *)
Theorem X17_demo_agrees_with_aggregate (req : DemoRunRequest) :
  ~ negative_zero (transport_emission_of req) ->
  ~ negative_zero (food_emission_of req) ->
  ~ negative_zero (energy_emission_of req) ->
  let r := CarbonEngine.calculate_total_footprint
             [ {| CarbonEngine.mode := transport_mode req;
                  CarbonEngine.distance := distance req |} ]
             [ {| CarbonEngine.food_type := food_type req;
                  CarbonEngine.quantity := food_quantity req |} ]
             [ {| CarbonEngine.energy_type := "electricity";
                  CarbonEngine.kwh := energy_kwh req |} ]
             None in
  exists resp : DemoRunResponse,
    run_integrated_demo req = Ok resp
    /\ total_emission resp = CarbonEngine.total_kg_co2e r
    /\ transport_emission resp = CarbonEngine.transport (CarbonEngine.breakdown r)
    /\ food_emission resp = CarbonEngine.food (CarbonEngine.breakdown r)
    /\ energy_emission resp = CarbonEngine.energy (CarbonEngine.breakdown r).
Proof.
  intros Ht Hf He r.
  destruct (DemoFacts.run_integrated_demo_ok req) as (n & _ & _ & Hrun).
  eexists. split; [exact Hrun|].
  cbn [total_emission transport_emission food_emission energy_emission].
  subst r. unfold CarbonEngine.calculate_total_footprint. cbv zeta.
  cbn [CarbonEngine.total_kg_co2e CarbonEngine.breakdown CarbonEngine.transport
       CarbonEngine.food CarbonEngine.energy].
  unfold CarbonEngine.transport_total, CarbonEngine.food_total,
    CarbonEngine.energy_total, Py.sum.
  cbn [map fold_left CarbonEngine.custom_table CarbonEngine.mode CarbonEngine.distance
       CarbonEngine.food_type CarbonEngine.quantity CarbonEngine.energy_type
       CarbonEngine.kwh].
  fold (transport_emission_of req). fold (food_emission_of req).
  fold (energy_emission_of req).
  rewrite (FloatSignFacts.zero_add _ Ht), (FloatSignFacts.zero_add _ Hf),
    (FloatSignFacts.zero_add _ He).
  repeat split.
Qed.

Lemma X17_witness :
  exists resp : DemoRunResponse,
    run_integrated_demo Samples.small_request = Ok resp
    /\ total_emission resp
       = CarbonEngine.total_kg_co2e
           (CarbonEngine.calculate_total_footprint
              [ {| CarbonEngine.mode := transport_mode Samples.small_request;
                   CarbonEngine.distance := distance Samples.small_request |} ]
              [ {| CarbonEngine.food_type := food_type Samples.small_request;
                   CarbonEngine.quantity := food_quantity Samples.small_request |} ]
              [ {| CarbonEngine.energy_type := "electricity";
                   CarbonEngine.kwh := energy_kwh Samples.small_request |} ]
              None).
Proof.
  destruct (X17_demo_agrees_with_aggregate Samples.small_request)
    as (resp & Hrun & Htot & _).
  - unfold negative_zero. vm_compute. discriminate.
  - unfold negative_zero. vm_compute. discriminate.
  - unfold negative_zero. vm_compute. discriminate.
  - exists resp. split; [exact Hrun|exact Htot].
Defined.

End DemoMore.

(* ===================================================================== *)
(** * Entries of unknown type in the aggregate *)
(* ===================================================================== *)

Module UnknownEntries.

Import Spec CarbonEngine.

Lemma sum_of_zeros (xs : list float) :
  Forall (fun x => x = 0%float \/ x = (-0)%float) xs -> Py.sum xs = 0%float.
Proof.
  unfold Py.sum. induction 1 as [|x xs [-> | ->] _ IH]; simpl; [reflexivity| |];
    exact IH.
Qed.

Lemma unknown_sum (c : category) {A : Type} (name : A -> string) (q : A -> float)
    (factors : option (gmap string float)) (entries : list A) :
  Forall (fun e => (Py.lower (name e) ∉ dom (applicable_table c factors))
                   /\ is_finite (q e) = true) entries ->
  Py.sum (map (fun e => emissions c (name e) (q e) factors) entries) = 0%float.
Proof.
  intros H. apply sum_of_zeros. apply Forall_map.
  eapply Forall_impl; [exact H|]. intros e [Hk Hq]. simpl.
  rewrite CarbonEngineFacts.emissions_unfold, (CarbonEngineFacts.factor_of_absent _ _ Hk).
  exact (FloatFacts.mul_zero_finite (q e) Hq).
Qed.

(** X18. When every entry has a finite quantity and a type that the
    applicable table of its category does not list, the footprint is 0.0 in
    total and in every component, the empty request included: the zeros of
    negative quantities, which are -0.0, add up to 0.0.  (Python's sum of an
    empty list is the int 0, which is not told apart from 0.0 here.) *)
Theorem X18_unknown_entries_give_zero
    (transport_entries : list transport_entry)
    (food_entries : list food_entry)
    (energy_entries : list energy_entry)
    (custom_factors : option (gmap string (gmap string float))) :
  Forall (fun e => (Py.lower (mode e)
                      ∉ dom (applicable_table Transport
                               (custom_table custom_factors "transport")))
                   /\ is_finite (distance e) = true) transport_entries ->
  Forall (fun e => (Py.lower (food_type e)
                      ∉ dom (applicable_table Food (custom_table custom_factors "food")))
                   /\ is_finite (quantity e) = true) food_entries ->
  Forall (fun e => (Py.lower (energy_type e)
                      ∉ dom (applicable_table Energy
                               (custom_table custom_factors "energy")))
                   /\ is_finite (kwh e) = true) energy_entries ->
  calculate_total_footprint transport_entries food_entries energy_entries custom_factors
  = {| total_kg_co2e := 0;
       breakdown := {| transport := 0; food := 0; energy := 0 |} |}.
Proof.
  intros Ht Hf He. unfold calculate_total_footprint. cbv zeta.
  unfold transport_total, food_total, energy_total. cbv zeta.
  pose proof (unknown_sum Transport mode distance _ _ Ht) as H1.
  pose proof (unknown_sum Food food_type quantity _ _ Hf) as H2.
  pose proof (unknown_sum Energy energy_type kwh _ _ He) as H3.
  cbn [emissions] in H1, H2, H3. rewrite H1, H2, H3.
  vm_compute. reflexivity.
Qed.

Lemma X18_witness :
  calculate_total_footprint
    [ {| mode := "Bicycle"; distance := 12 |}; {| mode := "walk"; distance := (-3) |} ]
    [ {| food_type := "tofu"; quantity := 0.4 |} ] [] None
  = {| total_kg_co2e := 0;
       breakdown := {| transport := 0; food := 0; energy := 0 |} |}.
Proof.
  apply (X18_unknown_entries_give_zero
           [ {| mode := "Bicycle"; distance := 12 |}; {| mode := "walk"; distance := (-3) |} ]
           [ {| food_type := "tofu"; quantity := 0.4 |} ] [] None).
  - repeat constructor; vm_compute; intros H; discriminate H.
  - repeat constructor; vm_compute; intros H; discriminate H.
  - constructor.
Defined.

End UnknownEntries.
